(** * YouTube comment / caption analytics: a shallow embedding

    The analysis routines of [src/app/youtube_scraper.py],
    [src/app/youtube_caption_downloader.py] and
    [examples/development-workflows/youtube-analytics/analyze_comments.py]
    are transcribed as Rocq functions and the statements of the specification
    are checked against them.

    Conventions of the embedding:
    - a Python [str] is a [string]; the character-class functions, the
      lengths and the slices follow Python on ASCII text (a character above
      127 is neither white space, nor a word character, nor a letter or a
      digit); a statement that depends on the class of a character is made
      for ASCII text or at an ASCII input;
    - a Python [int] is a [Z], a length or a count is a [nat];
    - a Python [float] obtained from integers by [/] and [*] is the exact
      rational [Q] (results of [/] are stored reduced); Python rounds such
      a quotient to a double and raises [OverflowError] when it is too
      large, so a statement about a quotient is made about a result that is
      returned and about what rounding keeps (being zero, an order with an
      integer bound), or at an input where the arithmetic is exact;
    - a value read from JSON that the code takes for a string without
      testing it is a [json_value];
    - a function that can raise returns in the small error monad [py]. *)

From Stdlib Require Import List String Ascii ZArith QArith Lia Bool Arith.
From Stdlib Require Import DecimalString Sorted.
Import ListNotations.

Close Scope Q_scope.
Local Open Scope string_scope.
Local Open Scope list_scope.
Local Open Scope nat_scope.

(* ------------------------------------------------------------------ *)
(** ** Exceptions *)

Inductive exn : Type :=
| ZeroDivisionError
| ValueError
| KeyError
| IndexError
| AttributeError.

Inductive py (A : Type) : Type :=
| Ok (a : A)
| Raise (e : exn).

Arguments Ok {A} a.
Arguments Raise {A} e.

Definition bind {A B : Type} (m : py A) (k : A -> py B) : py B :=
  match m with
  | Ok a => k a
  | Raise e => Raise e
  end.

Notation "x <- m ;; k" := (bind m (fun x => k))
  (at level 61, m at next level, right associativity).

(** [try: m except (ValueError, KeyError): h]; any other exception
    propagates. *)
Definition try_except {A : Type} (m : py A) (h : py A) : py A :=
  match m with
  | Ok a => Ok a
  | Raise ValueError => h
  | Raise KeyError => h
  | Raise e => Raise e
  end.

(** [d[k]] on a dictionary whose key may be missing. *)
Definition getitem {A : Type} (field : option A) : py A :=
  match field with
  | Some a => Ok a
  | None => Raise KeyError
  end.

(** [d.get(k, default)] *)
Definition get_default {A : Type} (field : option A) (default : A) : A :=
  match field with
  | Some a => a
  | None => default
  end.

(* ------------------------------------------------------------------ *)
(** ** Numbers *)

(** [a / b] on integers: true division, [ZeroDivisionError] on [b = 0]. *)
Definition truediv (a b : Z) : py Q :=
  if (b =? 0)%Z then Raise ZeroDivisionError
  else Ok (Qred (Qdiv (inject_Z a) (inject_Z b))).

(** [a / b] on floats. *)
Definition truediv_q (a b : Q) : py Q :=
  if Qeq_bool b 0 then Raise ZeroDivisionError
  else Ok (Qred (Qdiv a b)).

Definition Qgt_bool (a b : Q) : bool := negb (Qle_bool a b).

Definition sum_Z (l : list Z) : Z := fold_left Z.add l 0%Z.

(** [max(l)]: the first greatest element, [ValueError] on the empty list. *)
Definition py_max (l : list Q) : py Q :=
  match l with
  | [] => Raise ValueError
  | x :: r => Ok (fold_left (fun acc y => if Qgt_bool y acc then y else acc) r x)
  end.

(** [l[:n]] for [n >= 0] *)
Definition take {A : Type} (n : nat) (l : list A) : list A := firstn n l.

(** [l[i]] for [i >= 0] *)
Definition index {A : Type} (l : list A) (i : nat) : py A :=
  match nth_error l i with
  | Some a => Ok a
  | None => Raise IndexError
  end.

(** [sorted(l, key=..., reverse=True)]: a stable sort in descending order;
    [gtb y x] says that the key of [y] is greater than the key of [x].
    Elements with equal keys keep their order. *)
Fixpoint insert_desc {A : Type} (gtb : A -> A -> bool) (x : A) (l : list A) : list A :=
  match l with
  | [] => [x]
  | y :: r => if gtb y x then y :: insert_desc gtb x r else x :: y :: r
  end.

Fixpoint sort_desc {A : Type} (gtb : A -> A -> bool) (l : list A) : list A :=
  match l with
  | [] => []
  | x :: r => insert_desc gtb x (sort_desc gtb r)
  end.

(** [collections.Counter]: the keys in order of first insertion. *)
Fixpoint counter_incr {K : Type} (eqb : K -> K -> bool) (k : K)
    (c : list (K * nat)) : list (K * nat) :=
  match c with
  | [] => [(k, 1)]
  | (k', n) :: r =>
      if eqb k' k then (k', S n) :: r else (k', n) :: counter_incr eqb k r
  end.

Definition Counter {K : Type} (eqb : K -> K -> bool) (l : list K) : list (K * nat) :=
  fold_left (fun c k => counter_incr eqb k c) l [].

(** The counts of a list of pairs never increase from left to right. *)
Definition non_increasing {K : Type} (l : list (K * nat)) : Prop :=
  StronglySorted (fun a b => snd b <= snd a) l.

(** [c.most_common(n)] *)
Definition most_common {K : Type} (n : nat) (c : list (K * nat)) : list (K * nat) :=
  take n (sort_desc (fun y x => snd x <? snd y) c).

(* ------------------------------------------------------------------ *)
(** ** Strings *)

Module PyStr.

Definition newline : ascii := "010"%char.
Definition space : ascii := " "%char.

Definition in_range (lo hi : nat) (c : ascii) : bool :=
  let n := nat_of_ascii c in (lo <=? n) && (n <=? hi).

(** [c.isspace()], also the class [\s] *)
Definition isspace (c : ascii) : bool := in_range 9 13 c || in_range 28 32 c.

Definition isupper (c : ascii) : bool := in_range 65 90 c.

(** the class [\w] *)
Definition isword (c : ascii) : bool :=
  in_range 48 57 c || in_range 65 90 c || in_range 97 122 c || (c =? "_")%char.

(** the class [[a-zA-Z0-9_-]] *)
Definition isidchar (c : ascii) : bool := isword c || (c =? "-")%char.

Definition lower_char (c : ascii) : ascii :=
  if isupper c then ascii_of_nat (nat_of_ascii c + 32) else c.

(** [s.lower()] *)
Fixpoint lower (s : string) : string :=
  match s with
  | EmptyString => EmptyString
  | String c r => String (lower_char c) (lower r)
  end.

Fixpoint lstrip (s : string) : string :=
  match s with
  | EmptyString => EmptyString
  | String c r => if isspace c then lstrip r else s
  end.

Fixpoint rstrip (s : string) : string :=
  match s with
  | EmptyString => EmptyString
  | String c r =>
      match rstrip r with
      | EmptyString => if isspace c then EmptyString else String c EmptyString
      | r' => String c r'
      end
  end.

(** [s.strip()] *)
Definition strip (s : string) : string := rstrip (lstrip s).

(** truth value of a string: [if s:] *)
Definition nonempty (s : string) : bool :=
  match s with
  | EmptyString => false
  | String _ _ => true
  end.

(** [sub in s] *)
Fixpoint contains (sub s : string) : bool :=
  prefix sub s ||
  match s with
  | EmptyString => false
  | String _ r => contains sub r
  end.

(** [c in s] for a single character *)
Fixpoint has_char (c : ascii) (s : string) : bool :=
  match s with
  | EmptyString => false
  | String d r => (d =? c)%char || has_char c r
  end.

(** [s[:n]] *)
Fixpoint slice_to (n : nat) (s : string) : string :=
  match n, s with
  | S k, String c r => String c (slice_to k r)
  | _, _ => EmptyString
  end.

(** [s[n:]] *)
Fixpoint slice_from (n : nat) (s : string) : string :=
  match n, s with
  | S k, String _ r => slice_from k r
  | _, _ => s
  end.

(** [sep.join(l)] *)
Fixpoint join (sep : string) (l : list string) : string :=
  match l with
  | [] => EmptyString
  | [x] => x
  | x :: r => x ++ sep ++ join sep r
  end.

(** pieces of [s] between the characters satisfying [is_sep]; empty pieces
    are kept, so the result is never the empty list *)
Fixpoint pieces (is_sep : ascii -> bool) (s : string) : list string :=
  match s with
  | EmptyString => [EmptyString]
  | String c r =>
      if is_sep c then EmptyString :: pieces is_sep r
      else match pieces is_sep r with
           | w :: ws => String c w :: ws
           | [] => [String c EmptyString]
           end
  end.

(** [s.split()] *)
Definition split (s : string) : list string :=
  filter nonempty (pieces isspace s).

(** [s.replace(a, b)] for a one-character [a] *)
Fixpoint replace_char (a : ascii) (b : string) (s : string) : string :=
  match s with
  | EmptyString => EmptyString
  | String c r =>
      if (c =? a)%char then b ++ replace_char a b r
      else String c (replace_char a b r)
  end.

End PyStr.

(* ------------------------------------------------------------------ *)
(** ** Regular expressions used by the sources *)

Module Re.
Import PyStr.

(** Distance to the first occurrence of [close] that [.*?] can reach: the
    characters skipped must not be a newline. *)
Fixpoint find_close (close : string) (s : string) : option nat :=
  if prefix close s then Some 0
  else match s with
       | EmptyString => None
       | String c r =>
           if (c =? newline)%char then None
           else option_map S (find_close close r)
       end.

(** [re.sub(open .*? close, '', s)]: [skip] counts the characters of the
    current match that remain to be deleted. *)
Fixpoint sub_delim_go (opening close : string) (s : string) (skip : nat) : string :=
  match s with
  | EmptyString => EmptyString
  | String c r =>
      match skip with
      | S k => sub_delim_go opening close r k
      | O =>
          if prefix opening s then
            match find_close close (slice_from (String.length opening) s) with
            | Some j =>
                sub_delim_go opening close r
                  (String.length opening + j + String.length close - 1)
            | None => String c (sub_delim_go opening close r 0)
            end
          else String c (sub_delim_go opening close r 0)
      end
  end.

Definition sub_delim (opening close : string) (s : string) : string :=
  sub_delim_go opening close s 0.

(** [re.sub(r'\s+', ' ', s)] *)
Fixpoint sub_spaces_go (s : string) (in_run : bool) : string :=
  match s with
  | EmptyString => EmptyString
  | String c r =>
      if isspace c then
        if in_run then sub_spaces_go r true
        else String space (sub_spaces_go r true)
      else String c (sub_spaces_go r false)
  end.

Definition sub_spaces (s : string) : string := sub_spaces_go s false.

(** [re.findall(rf'\b\w{{{n},}}\b', s)]: the maximal runs of word characters
    of length at least [n].  For [n = 0] the pattern also yields empty
    matches; they are dropped here, as every caller drops them. *)
Definition findall_words (n : nat) (s : string) : list string :=
  filter (fun w => nonempty w && (n <=? String.length w))
         (pieces (fun c => negb (isword c)) s).

Definition isword_opt (c : option ascii) : bool :=
  match c with
  | Some c => isword c
  | None => false
  end.

(** [\b] between two neighbouring positions; [None] is an end of the text. *)
Definition boundary (before after : option ascii) : bool :=
  xorb (isword_opt before) (isword_opt after).

Definition head (s : string) : option ascii :=
  match s with
  | EmptyString => None
  | String c _ => Some c
  end.

Fixpoint last_char (s : string) (d : option ascii) : option ascii :=
  match s with
  | EmptyString => d
  | String c r => last_char r (Some c)
  end.

(** [len(re.findall(rf'\b{w}\b', s))] for a non-empty literal [w]: the
    matches are searched from left to right and do not overlap; [before] is
    the character in front of [s] and [skip] counts the characters of the
    current match still to be passed. *)
Fixpoint count_bounded_go (w : string) (before : option ascii) (s : string)
    (skip : nat) : nat :=
  match s with
  | EmptyString => 0
  | String c r =>
      match skip with
      | S k => count_bounded_go w (Some c) r k
      | O =>
          if boundary before (Some c) && prefix w s
             && boundary (last_char w before) (head (slice_from (String.length w) s))
          then S (count_bounded_go w (Some c) r (String.length w - 1))
          else count_bounded_go w (Some c) r 0
      end
  end.

Definition count_bounded (w : string) (s : string) : nat :=
  count_bounded_go w None s 0.

Fixpoint all_chars (p : ascii -> bool) (s : string) : bool :=
  match s with
  | EmptyString => true
  | String c r => p c && all_chars p r
  end.

(** [re.match(r'^[a-zA-Z0-9_-]{11}$', s)]: eleven characters of the class,
    then the end of the text; [$] also matches in front of one final
    newline. *)
Definition match_video_id (s : string) : bool :=
  let cand := slice_to 11 s in
  let rest := slice_from 11 s in
  (String.length cand =? 11) && all_chars isidchar cand
  && ((rest =? EmptyString)%string || (rest =? String newline EmptyString)%string).

(** Eleven letters, digits, [-] or [_]. *)
Definition is_video_id (s : string) : bool :=
  (String.length s =? 11) && all_chars isidchar s.

(** The group [([a-zA-Z0-9_-]{11})] right after the literal [p] at the
    start of [s]. *)
Definition id_after (p : string) (s : string) : option string :=
  if prefix p s then
    let cand := slice_to 11 (slice_from (String.length p) s) in
    if (String.length cand =? 11) && all_chars isidchar cand then Some cand
    else None
  else None.

Fixpoint first_alt (alts : list string) (s : string) : option string :=
  match alts with
  | [] => None
  | p :: r =>
      match id_after p s with
      | Some v => Some v
      | None => first_alt r s
      end
  end.

(** [re.search(r'(?:p1|p2|...)([a-zA-Z0-9_-]{11})', s)], group 1 of the
    leftmost match. *)
Fixpoint search_id (alts : list string) (s : string) : option string :=
  match first_alt alts s with
  | Some v => Some v
  | None =>
      match s with
      | EmptyString => None
      | String _ r => search_id alts r
      end
  end.

End Re.

(* ------------------------------------------------------------------ *)
(** ** The comment scraper ([youtube_scraper.py]) *)

Module YouTubeCommentScraper.
Import PyStr.

(** The URL library, a collaborator of the program: the query component
    that [urlparse] finds in a URL and the mapping that [parse_qs] makes
    of it.  Either call may raise. *)
Section ExtractVideoId.
Variable urlparse_query : string -> py string.
Variable parse_qs : string -> py (list (string * list string)).

Fixpoint lookup (k : string) (d : list (string * list string)) : option (list string) :=
  match d with
  | [] => None
  | (k', v) :: r => if (k' =? k)%string then Some v else lookup k r
  end.

(** The body of the [try] block: [Ok (Some v)] is [return v], [Ok None]
    falls out of the block. *)
Definition from_query (url : string) : py (option string) :=
  query <- urlparse_query url ;;
  d <- parse_qs query ;;
  match lookup "v" d with
  | Some vs =>
      video_id <- index vs 0 ;;
      if Re.match_video_id video_id then Ok (Some video_id) else Ok None
  | None => Ok None
  end.

(** [extract_video_id] *)
Definition extract_video_id (url : string) : py string :=
  if Re.match_video_id url then Ok url
  else
    match Re.search_id ["youtube.com/watch?v="; "youtu.be/"; "youtube.com/embed/"] url with
    | Some v => Ok v
    | None =>
        match Re.search_id ["youtube.com/v/"] url with
        | Some v => Ok v
        | None =>
            match from_query url with
            | Ok (Some v) => Ok v
            | Ok None => Raise ValueError
            | Raise _ => Raise ValueError
            end
        end
    end.

End ExtractVideoId.

End YouTubeCommentScraper.

(* ------------------------------------------------------------------ *)
(** ** Caption processing ([youtube_caption_downloader.py]) *)

Module YouTubeCaptionDownloader.
Import PyStr.

(** The URL library, a collaborator of the program: the query component
    that [urlparse] finds in a URL and the mapping that [parse_qs] makes
    of it.  Either call may raise. *)
Section ExtractVideoId.
Variable urlparse_query : string -> py string.
Variable parse_qs : string -> py (list (string * list string)).

Fixpoint lookup (k : string) (d : list (string * list string)) : option (list string) :=
  match d with
  | [] => None
  | (k', v) :: r => if (k' =? k)%string then Some v else lookup k r
  end.

(** The body of the [try] block: [Ok (Some v)] is [return v], [Ok None]
    falls out of the block. *)
Definition from_query (url : string) : py (option string) :=
  query <- urlparse_query url ;;
  d <- parse_qs query ;;
  match lookup "v" d with
  | Some vs =>
      video_id <- index vs 0 ;;
      if Re.match_video_id video_id then Ok (Some video_id) else Ok None
  | None => Ok None
  end.

(** [extract_video_id] *)
Definition extract_video_id (url : string) : py string :=
  if Re.match_video_id url then Ok url
  else
    match Re.search_id ["youtube.com/watch?v="; "youtu.be/"; "youtube.com/embed/"] url with
    | Some v => Ok v
    | None =>
        match Re.search_id ["youtube.com/v/"] url with
        | Some v => Ok v
        | None =>
            match from_query url with
            | Ok (Some v) => Ok v
            | Ok None => Raise ValueError
            | Raise _ => Raise ValueError
            end
        end
    end.

End ExtractVideoId.

(** A raw transcript entry: a dictionary read with [entry.get(key, default)]. *)
Record entry : Type := {
  e_start : option Q;
  e_duration : option Q;
  e_text : option string
}.

Record segment : Type := {
  seg_start : Q;
  seg_duration : Q;
  seg_end : Q;
  seg_text : string;
  seg_original_text : string;
  seg_timestamp : string
}.

(** The statistics mapping; the keys that the early return for an empty
    transcript leaves out are optional. *)
Record statistics : Type := {
  total_duration : Q;
  total_segments : nat;
  total_words : option nat;
  total_characters : option nat;
  average_segment_length : Q;
  words_per_minute : Q;
  duration_formatted : option string
}.

Record processed : Type := {
  full_text : string;
  segments : list segment;
  stats : statistics
}.

(** [_clean_caption_text] *)
Definition _clean_caption_text (text : string) : string :=
  let text := Re.sub_delim "[" "]" text in
  let text := Re.sub_delim "(" ")" text in
  let text := Re.sub_delim ">>" "<<" text in
  let text := Re.sub_spaces text in
  strip text.

(** Rounding to the nearest integer, ties to even: how [timedelta] rounds a
    number of seconds to microseconds. *)
Definition round_half_even (q : Q) : Z :=
  let n := Qnum q in
  let d := Zpos (Qden q) in
  let f := (n / d)%Z in
  let r2 := (2 * (n mod d))%Z in
  if (r2 <? d)%Z then f
  else if (d <? r2)%Z then (f + 1)%Z
  else if Z.even f then f else (f + 1)%Z.

Definition fmt_02d (z : Z) : string :=
  let s := NilZero.string_of_int (Z.to_int z) in
  if String.length s <? 2 then "0" ++ s else s.

(** [_seconds_to_timestamp] *)
Definition _seconds_to_timestamp (seconds : Q) : string :=
  let micro := round_half_even (Qmult seconds (inject_Z 1000000)) in
  let total_seconds := Z.quot micro 1000000 in
  let hours := (total_seconds / 3600)%Z in
  let remainder := (total_seconds mod 3600)%Z in
  let minutes := (remainder / 60)%Z in
  let seconds := (remainder mod 60)%Z in
  fmt_02d hours ++ ":" ++ fmt_02d minutes ++ ":" ++ fmt_02d seconds.

(** One turn of the loop over the transcript: the stripped raw text, when it
    is not empty, gives a segment. *)
Definition segment_of_entry (e : entry) : option segment :=
  let start_time := get_default (e_start e) 0%Q in
  let duration := get_default (e_duration e) 0%Q in
  let text := strip (get_default (e_text e) EmptyString) in
  if nonempty text then
    let cleaned_text := _clean_caption_text text in
    Some {| seg_start := start_time;
            seg_duration := duration;
            seg_end := Qred (Qplus start_time duration);
            seg_text := cleaned_text;
            seg_original_text := text;
            seg_timestamp := _seconds_to_timestamp start_time |}
  else None.

Fixpoint collect_segments (transcript : list entry) : list segment :=
  match transcript with
  | [] => []
  | e :: r =>
      match segment_of_entry e with
      | Some s => s :: collect_segments r
      | None => collect_segments r
      end
  end.

(** [_process_transcript] *)
Definition _process_transcript (transcript : list entry) : py processed :=
  match transcript with
  | [] =>
      Ok {| full_text := EmptyString;
            segments := [];
            stats := {| total_duration := 0%Q;
                        total_segments := 0;
                        total_words := None;
                        total_characters := None;
                        average_segment_length := 0%Q;
                        words_per_minute := 0%Q;
                        duration_formatted := None |} |}
  | _ :: _ =>
      let segments := collect_segments transcript in
      let full_text_parts := map seg_text segments in
      let full_text := join " " full_text_parts in
      total_duration <-
        (match segments with
         | [] => Ok 0%Q
         | _ :: _ => py_max (map seg_end segments)
         end) ;;
      let total_words :=
        if nonempty full_text then List.length (split full_text) else 0 in
      words_per_minute <-
        (if Qgt_bool total_duration 0%Q then
           per_minute <- truediv_q total_duration (inject_Z 60) ;;
           truediv_q (inject_Z (Z.of_nat total_words)) per_minute
         else Ok 0%Q) ;;
      average_segment_length <-
        (match segments with
         | [] => Ok 0%Q
         | _ :: _ =>
             truediv (Z.of_nat (List.length segments))
                     (Z.of_nat (List.length segments))
         end) ;;
      Ok {| full_text := full_text;
            segments := segments;
            stats := {| total_duration := total_duration;
                        total_segments := List.length segments;
                        total_words := Some total_words;
                        total_characters := Some (String.length full_text);
                        average_segment_length := average_segment_length;
                        words_per_minute := words_per_minute;
                        duration_formatted :=
                          Some (_seconds_to_timestamp total_duration) |} |}
  end.

(** The stripped raw text of an entry: what the loop tests. *)
Definition raw_text (e : entry) : string :=
  strip (get_default (e_text e) EmptyString).

(** The cleaned text of an entry. *)
Definition cleaned_text (e : entry) : string :=
  _clean_caption_text (raw_text e).

(** The caption entries of the scenario of the specification. *)
Definition scenario : list entry :=
  [ {| e_start := Some 0%Q; e_duration := Some (2 # 1)%Q;
       e_text := Some "[Music]" |};
    {| e_start := Some (2 # 1)%Q; e_duration := Some (3 # 1)%Q;
       e_text := Some "hello world" |} ].

End YouTubeCaptionDownloader.


(* ------------------------------------------------------------------ *)
(** ** Comments *)

(** The value under ['published_at'] in a record read from JSON: a
    string, or a value of another type (null, a number, a boolean, a list
    or an object), which has no [replace] method. *)
Inductive json_value : Type :=
| JString (s : string)
| JOther.

(** [value.replace(old, new)]: an [AttributeError] on a value that is not
    a string. *)
Definition replace_method (value : json_value) (old : ascii) (new : string)
    : py string :=
  match value with
  | JString s => Ok (PyStr.replace_char old new s)
  | JOther => Raise AttributeError
  end.

(** A comment record.  [text], [author] and [like_count] are read with
    [c[...]] everywhere and are always there; [published_at] is read inside
    a [try] that expects it to be missing or not to parse; [is_reply] is
    read with [c.get('is_reply', False)]. *)
Record comment : Type := {
  text : string;
  author : string;
  like_count : Z;
  published_at : option json_value;
  is_reply : option bool
}.

(** What the analysis needs of a [datetime]. *)
Record datetime : Type := {
  hour : nat
}.

(** [text[:n] + '...' if len(text) > n else text] *)
Definition preview (n : nat) (text : string) : string :=
  if n <? String.length text then PyStr.slice_to n text ++ "..." else text.

(** [any(indicator in text_lower for indicator in indicators)] *)
Definition any_in (indicators : list string) (text_lower : string) : bool :=
  existsb (fun indicator => PyStr.contains indicator text_lower) indicators.

(* ------------------------------------------------------------------ *)
(** ** The comment analyzer ([youtube_scraper.py]) *)

Module CommentAnalyzer.
Import PyStr.

Record basic_stats : Type := {
  total_comments : nat;
  top_level_comments : nat;
  replies : nat;
  total_likes : Z;
  avg_likes : Q;
  avg_comment_length : Q;
  high_engagement_count : nat;
  most_active_authors : list (string * nat);
  reply_ratio : Q
}.

Definition is_reply_of (c : comment) : bool := get_default (is_reply c) false.

(** [get_basic_stats]; [Ok None] is the empty mapping [{}]. *)
Definition get_basic_stats (comments : list comment) : py (option basic_stats) :=
  match comments with
  | [] => Ok None
  | _ :: _ =>
      let total_comments := List.length comments in
      let top_level := filter (fun c => negb (is_reply_of c)) comments in
      let replies := filter is_reply_of comments in
      let total_likes := sum_Z (map like_count comments) in
      avg_likes <- truediv total_likes (Z.of_nat total_comments) ;;
      let lengths := map (fun c => Z.of_nat (String.length (text c))) comments in
      avg_length <- truediv (sum_Z lengths) (Z.of_nat (List.length lengths)) ;;
      let authors := Counter String.eqb (map author comments) in
      let high_engagement :=
        List.length
          (filter (fun c => Qgt_bool (inject_Z (like_count c))
                                     (Qmult avg_likes (inject_Z 2)))
                  comments) in
      reply_ratio <-
        (if 0 <? total_comments
         then truediv (Z.of_nat (List.length replies)) (Z.of_nat total_comments)
         else Ok 0%Q) ;;
      Ok (Some {| total_comments := total_comments;
                  top_level_comments := List.length top_level;
                  replies := List.length replies;
                  total_likes := total_likes;
                  avg_likes := avg_likes;
                  avg_comment_length := avg_length;
                  high_engagement_count := high_engagement;
                  most_active_authors := most_common 5 authors;
                  reply_ratio := reply_ratio |})
  end.

Definition stop_words : list string :=
  [ "this"; "that"; "with"; "have"; "will"; "from"; "they"; "been";
    "were"; "said"; "each"; "which"; "their"; "time"; "would"; "there";
    "what"; "when"; "where"; "your"; "just"; "like"; "dont"; "really";
    "think"; "know"; "good"; "great"; "thanks"; "thank"; "video";
    "youtube"; "channel"; "subscribe"; "comment"; "comments" ].

Definition mem (w : string) (l : list string) : bool :=
  existsb (String.eqb w) l.

(** [extract_keywords] *)
Definition extract_keywords (comments : list comment)
    (min_word_length : nat) (top_n : nat) : list (string * nat) :=
  let all_text := join " " (map (fun c => lower (text c)) comments) in
  let words := Re.findall_words min_word_length all_text in
  let filtered_words :=
    filter (fun w => negb (mem w stop_words)
                     && (min_word_length <? String.length w)) words in
  most_common top_n (Counter String.eqb filtered_words).

Record question : Type := {
  q_text : string;
  q_author : string;
  q_likes : Z;
  q_is_reply : bool
}.

Definition question_indicators : list string :=
  [ "?"; "how"; "what"; "why"; "when"; "where"; "which"; "can you"; "could you" ].

(** The test of the loop of [find_questions]. *)
Definition is_question (c : comment) : bool :=
  let text := strip (text c) in
  let text_lower := lower text in
  contains "?" text && any_in question_indicators text_lower.

Definition question_of (c : comment) : question :=
  let text := strip (text c) in
  {| q_text := preview 200 text;
     q_author := author c;
     q_likes := like_count c;
     q_is_reply := is_reply_of c |}.

(** [find_questions] *)
Definition find_questions (comments : list comment) (top_n : nat) : list question :=
  let questions := map question_of (filter is_question comments) in
  take top_n (sort_desc (fun y x => (q_likes x <? q_likes y)%Z) questions).

Record top_comment : Type := {
  tc_author : string;
  tc_likes : Z;
  tc_text_preview : string
}.

Record engagement : Type := {
  max_likes : Z;
  median_likes : Z;
  top_comments : list top_comment;
  peak_hours : list (nat * nat)
}.

Section Engagement.
(** [datetime.fromisoformat], a library function: [None] is its
    [ValueError]. *)
Variable fromisoformat : string -> option datetime.

Definition parse_published (c : comment) : py datetime :=
  published <- getitem (published_at c) ;;
  replaced <- replace_method published "Z" "+00:00" ;;
  match fromisoformat replaced with
  | Some dt => Ok dt
  | None => Raise ValueError
  end.

(** The loop that fills [hourly_distribution]; [continue] leaves the
    counter as it is. *)
Fixpoint hourly_loop (comments : list comment) (hourly : list (nat * nat))
    : py (list (nat * nat)) :=
  match comments with
  | [] => Ok hourly
  | c :: r =>
      hourly' <-
        try_except
          (dt <- parse_published c ;; Ok (counter_incr Nat.eqb (hour dt) hourly))
          (Ok hourly) ;;
      hourly_loop r hourly'
  end.

Definition max_Z (l : list Z) : py Z :=
  match l with
  | [] => Raise ValueError
  | x :: r => Ok (fold_left (fun acc y => if (acc <? y)%Z then y else acc) r x)
  end.

(** [analyze_engagement_patterns]; [Ok None] is the empty mapping [{}]. *)
Definition analyze_engagement_patterns (comments : list comment)
    : py (option engagement) :=
  match comments with
  | [] => Ok None
  | _ :: _ =>
      let likes_data := sort_desc (fun y x => (x <? y)%Z) (map like_count comments) in
      let top_comments :=
        take 5 (sort_desc (fun y x => (like_count x <? like_count y)%Z) comments) in
      hourly_distribution <- hourly_loop comments [] ;;
      max_likes <-
        (match likes_data with [] => Ok 0%Z | _ :: _ => max_Z likes_data end) ;;
      median_likes <-
        (match likes_data with
         | [] => Ok 0%Z
         | _ :: _ => index likes_data (List.length likes_data / 2)
         end) ;;
      Ok (Some {| max_likes := max_likes;
                  median_likes := median_likes;
                  top_comments :=
                    map (fun c => {| tc_author := author c;
                                     tc_likes := like_count c;
                                     tc_text_preview := preview 100 (text c) |})
                        top_comments;
                  peak_hours :=
                    match hourly_distribution with
                    | [] => []
                    | _ :: _ => most_common 3 hourly_distribution
                    end |})
  end.

End Engagement.

Definition container_topics : list (string * list string) :=
  [ ("kubernetes", ["Kubernetes networking deep dive"; "K8s security best practices";
                    "Helm chart optimization"; "Kubernetes troubleshooting"]);
    ("docker", ["Docker vs Podman migration guide"; "Docker security hardening";
                "Multi-stage Docker builds"; "Docker networking explained"]);
    ("podman", ["Podman rootless containers"; "Podman pods vs containers";
                "Podman systemd integration"; "Podman desktop vs CLI"]);
    ("security", ["Container security scanning"; "Runtime security with Falco";
                  "Image vulnerability management"; "Zero-trust containers"]);
    ("networking", ["Container networking fundamentals"; "Service mesh with Istio";
                    "Load balancing containers"; "CNI plugins comparison"]);
    ("buildah", ["Buildah vs Docker build"; "Scriptable container builds";
                 "Multi-arch builds with Buildah"; "OCI image creation"]);
    ("skopeo", ["Image registry management"; "Container image signing";
                "Air-gapped image workflows"; "Image inspection tools"]);
    ("production", ["Production container deployment"; "Container monitoring setup";
                    "Logging best practices"; "Auto-scaling containers"]);
    ("performance", ["Container performance tuning"; "Resource optimization";
                     "Memory management in containers"; "Container benchmarking"]);
    ("orchestration", ["Container orchestration comparison"; "Docker Swarm vs Kubernetes";
                       "Nomad for containers"; "Container scheduling"]);
    ("monitoring", ["Prometheus for containers"; "Grafana dashboards";
                    "Container metrics collection"; "Alerting strategies"]);
    ("storage", ["Container persistent storage"; "Volume management";
                 "Storage drivers comparison"; "Data backup strategies"]);
    ("cicd", ["Container CI/CD pipelines"; "GitOps workflows";
              "Automated testing"; "Deployment strategies"]);
    ("compose", ["Docker Compose advanced features"; "Multi-environment setups";
                 "Compose vs Kubernetes"; "Development workflows"]) ].

Definition tech_patterns : list (string * string) :=
  [ ("ai", "AI and Machine Learning in Containers");
    ("serverless", "Serverless Containers with Knative");
    ("wasm", "WebAssembly and Container Runtime");
    ("edge", "Edge Computing with Containers");
    ("arm", "ARM/M1 Container Development");
    ("windows", "Windows Container Development");
    ("microservices", "Microservices Architecture Patterns");
    ("observability", "Container Observability Stack");
    ("gitops", "GitOps Deployment Workflows");
    ("helm", "Advanced Helm Chart Development") ].

Record topic_data : Type := {
  td_topic : string;
  td_mentions : nat;
  td_avg_engagement : Q;
  td_suggestions : list string;
  td_interest_score : Q
}.

Record suggestion : Type := {
  s_title : string;
  s_based_on_topic : string;
  s_mentions : nat;
  s_avg_engagement : Q;
  s_priority : string;
  s_source_question : option string
}.

(** [relevant_comments] of a topic: the comments whose lower-cased text has
    the topic as a substring. *)
Definition relevant_comments (comments : list comment) (topic : string) : list comment :=
  filter (fun c => contains topic (lower (text c))) comments.

(** [avg_engagement] of a topic *)
Definition avg_engagement_of (comments : list comment) (topic : string) : py Q :=
  let relevant := relevant_comments comments topic in
  match relevant with
  | [] => Ok 0%Q
  | _ :: _ =>
      truediv (sum_Z (map like_count relevant)) (Z.of_nat (List.length relevant))
  end.

(** [mentions * (1 + avg_engagement)] *)
Definition interest_score_of (mentions : nat) (avg_engagement : Q) : Q :=
  Qred (Qmult (inject_Z (Z.of_nat mentions)) (Qplus 1 avg_engagement)).

(** The loop over [container_topics.items()] that fills [mentioned_topics]. *)
Fixpoint mentioned_loop (comments : list comment) (all_text : string)
    (topics : list (string * list string)) : py (list topic_data) :=
  match topics with
  | [] => Ok []
  | (topic, suggestions) :: r =>
      let mentions := Re.count_bounded topic all_text in
      if 0 <? mentions then
        avg_engagement <- avg_engagement_of comments topic ;;
        rest <- mentioned_loop comments all_text r ;;
        Ok ({| td_topic := topic;
               td_mentions := mentions;
               td_avg_engagement := avg_engagement;
               td_suggestions := suggestions;
               td_interest_score := interest_score_of mentions avg_engagement |}
              :: rest)
      else mentioned_loop comments all_text r
  end.

Definition priority_of (interest_score : Q) : string :=
  if Qgt_bool interest_score (inject_Z 10) then "High" else "Medium".

(** The suggestions that one topic expands into. *)
Definition suggestions_of_topic (t : topic_data) : list suggestion :=
  map (fun title =>
         {| s_title := title;
            s_based_on_topic := td_topic t;
            s_mentions := td_mentions t;
            s_avg_engagement := td_avg_engagement t;
            s_priority := priority_of (td_interest_score t);
            s_source_question := None |})
      (take 2 (td_suggestions t)).

(** The emerging topics that one question adds. *)
Definition emerging_of_question (video_suggestions : list suggestion)
    (q : question) : list suggestion :=
  let text_lower := lower (q_text q) in
  flat_map
    (fun '(tech, topic_title) =>
       if contains tech text_lower
          && negb (mem topic_title (map s_title video_suggestions))
       then [ {| s_title := topic_title;
                 s_based_on_topic := tech;
                 s_mentions := 1;
                 s_avg_engagement := inject_Z (q_likes q);
                 s_priority := "Emerging";
                 s_source_question :=
                   Some (String.append (slice_to 100 (q_text q)) "...") |} ]
       else [])
    tech_patterns.

(** The key of the last sort, a tuple compared from left to right. *)
Definition sort_key (s : suggestion) : bool * bool * Q :=
  ((s_priority s =? "High")%string, (s_priority s =? "Emerging")%string,
   s_avg_engagement s).

Definition bool_gt (a b : bool) : bool := a && negb b.

Definition key_gt (a b : bool * bool * Q) : bool :=
  let '(a1, a2, a3) := a in
  let '(b1, b2, b3) := b in
  if negb (Bool.eqb a1 b1) then bool_gt a1 b1
  else if negb (Bool.eqb a2 b2) then bool_gt a2 b2
  else Qgt_bool a3 b3.

(** The suggestions made from the taxonomy, before the emerging topics are
    added. *)
Definition video_suggestions_of (comments : list comment) (top_n : nat)
    : py (list suggestion) :=
  let all_text := join " " (map (fun c => lower (text c)) comments) in
  mentioned_topics <- mentioned_loop comments all_text container_topics ;;
  let mentioned_topics :=
    sort_desc (fun y x => Qgt_bool (td_interest_score y) (td_interest_score x))
              mentioned_topics in
  Ok (flat_map suggestions_of_topic (take (top_n / 2) mentioned_topics)).

(** [suggest_future_topics] *)
Definition suggest_future_topics (comments : list comment) (top_n : nat)
    : py (list suggestion) :=
  video_suggestions <- video_suggestions_of comments top_n ;;
  let questions := find_questions comments 20 in
  let emerging_topics :=
    flat_map (emerging_of_question video_suggestions) questions in
  let all_suggestions := video_suggestions ++ emerging_topics in
  let all_suggestions :=
    sort_desc (fun y x => key_gt (sort_key y) (sort_key x)) all_suggestions in
  Ok (take top_n all_suggestions).

(** The three counters of [analyze_audience_level], or their percentages. *)
Record levels (A : Type) : Type := {
  beginner : A;
  intermediate : A;
  advanced : A
}.

Arguments beginner {A} l.
Arguments intermediate {A} l.
Arguments advanced {A} l.

Definition beginner_indicators : list string :=
  [ "beginner"; "new to"; "just started"; "tutorial"; "how to"; "basic"; "simple" ].
Definition intermediate_indicators : list string :=
  [ "implement"; "production"; "best practice"; "experience"; "recommend"; "migrate" ].
Definition advanced_indicators : list string :=
  [ "architecture"; "performance"; "optimize"; "scale"; "enterprise"; "custom"; "extend" ].

(** One turn of the loop over the comments: the [if / elif / elif] chain. *)
Definition count_comment (lv : levels nat) (c : comment) : levels nat :=
  let text_lower := lower (text c) in
  if any_in beginner_indicators text_lower then
    {| beginner := S (beginner lv); intermediate := intermediate lv;
       advanced := advanced lv |}
  else if any_in advanced_indicators text_lower then
    {| beginner := beginner lv; intermediate := intermediate lv;
       advanced := S (advanced lv) |}
  else if any_in intermediate_indicators text_lower then
    {| beginner := beginner lv; intermediate := S (intermediate lv);
       advanced := advanced lv |}
  else lv.

Definition count_levels (comments : list comment) : levels nat :=
  fold_left count_comment comments
    {| beginner := 0; intermediate := 0; advanced := 0 |}.

(** The mapping returned by [analyze_audience_level]; a key that a return
    statement leaves out is [None], and [{}] has none.  The distribution
    holds the counts on the early return and the percentages otherwise. *)
Record audience : Type := {
  dominant_level : option string;
  distribution : option (levels Q);
  total_classified : option nat
}.

(** [max(d.keys(), key=lambda k: d[k])]: the first key with the greatest
    value, the keys in the order of insertion. *)
Definition max_key (d : levels Q) : string :=
  fst (fold_left
         (fun acc kv => if Qgt_bool (snd kv) (snd acc) then kv else acc)
         [ ("intermediate", intermediate d); ("advanced", advanced d) ]
         ("beginner", beginner d)).

Definition percentage (v total : nat) : py Q :=
  q <- truediv (Z.of_nat v) (Z.of_nat total) ;;
  Ok (Qred (Qmult q (inject_Z 100))).

(** [analyze_audience_level] *)
Definition analyze_audience_level (comments : list comment) : py audience :=
  match comments with
  | [] => Ok {| dominant_level := None; distribution := None;
                total_classified := None |}
  | _ :: _ =>
      let lv := count_levels comments in
      let total := beginner lv + intermediate lv + advanced lv in
      if total =? 0 then
        Ok {| dominant_level := Some "intermediate";
              distribution :=
                Some {| beginner := inject_Z (Z.of_nat (beginner lv));
                        intermediate := inject_Z (Z.of_nat (intermediate lv));
                        advanced := inject_Z (Z.of_nat (advanced lv)) |};
              total_classified := None |}
      else
        pb <- percentage (beginner lv) total ;;
        pi <- percentage (intermediate lv) total ;;
        pa <- percentage (advanced lv) total ;;
        let percentages :=
          {| beginner := pb; intermediate := pi; advanced := pa |} in
        Ok {| dominant_level := Some (max_key percentages);
              distribution := Some percentages;
              total_classified := Some total |}
  end.

End CommentAnalyzer.

(* ------------------------------------------------------------------ *)
(** ** The analysis script ([analyze_comments.py])

    The functions of the script print their report; what is printed is
    returned here next to the value that the function returns. *)

Module AnalyzeComments.
Import PyStr.

Record statistics : Type := {
  total_comments : nat;
  top_level_comments : nat;
  replies : nat;
  total_likes : Z;
  avg_likes : Q;
  top_authors : list (string * nat)
}.

(** [basic_statistics] *)
Definition basic_statistics (comments : list comment) : py statistics :=
  let total_comments := List.length comments in
  let top_level := filter (fun c => negb (get_default (is_reply c) false)) comments in
  let replies := filter (fun c => get_default (is_reply c) false) comments in
  let total_likes := sum_Z (map like_count comments) in
  avg_likes <-
    (if 0 <? total_comments then truediv total_likes (Z.of_nat total_comments)
     else Ok 0%Q) ;;
  let authors := Counter String.eqb (map author comments) in
  Ok {| total_comments := total_comments;
        top_level_comments := List.length top_level;
        replies := List.length replies;
        total_likes := total_likes;
        avg_likes := avg_likes;
        top_authors := most_common 10 authors |}.

(** What [engagement_analysis] prints. *)
Record engagement_report : Type := {
  peak_hours : list (nat * nat);
  most_liked : list (string * Z * string)
}.

Section Engagement.
Variable fromisoformat : string -> option datetime.

Definition parse_published (c : comment) : py datetime :=
  published <- getitem (published_at c) ;;
  replaced <- replace_method published "Z" "+00:00" ;;
  match fromisoformat replaced with
  | Some dt => Ok dt
  | None => Raise ValueError
  end.

Fixpoint hourly_loop (comments : list comment) (hourly : list (nat * nat))
    : py (list (nat * nat)) :=
  match comments with
  | [] => Ok hourly
  | c :: r =>
      hourly' <-
        try_except
          (dt <- parse_published c ;; Ok (counter_incr Nat.eqb (hour dt) hourly))
          (Ok hourly) ;;
      hourly_loop r hourly'
  end.

(** [engagement_analysis]; [Ok None] is the early return on no comments. *)
Definition engagement_analysis (comments : list comment)
    : py (option engagement_report) :=
  match comments with
  | [] => Ok None
  | _ :: _ =>
      hourly_comments <- hourly_loop comments [] ;;
      let top_comments :=
        take 10 (sort_desc (fun y x => (like_count x <? like_count y)%Z) comments) in
      Ok (Some {| peak_hours :=
                    match hourly_comments with
                    | [] => []
                    | _ :: _ => most_common 5 hourly_comments
                    end;
                  most_liked :=
                    map (fun c => (author c, like_count c, preview 80 (text c)))
                        (take 3 top_comments) |})
  end.

End Engagement.

Definition stop_words : list string :=
  [ "this"; "that"; "with"; "have"; "will"; "from"; "they"; "been";
    "were"; "said"; "each"; "which"; "their"; "time"; "would"; "there";
    "what"; "when"; "where"; "will"; "your"; "just"; "like"; "dont";
    "really"; "think"; "know"; "good"; "great"; "thanks"; "thank";
    "video"; "youtube"; "channel"; "subscribe" ].

(** [sentiment_keywords]: the pairs that it prints. *)
Definition sentiment_keywords (comments : list comment) : list (string * nat) :=
  let all_text := join " " (map (fun c => lower (text c)) comments) in
  let words := Re.findall_words 4 all_text in
  let filtered_words :=
    filter (fun w => negb (existsb (String.eqb w) stop_words)
                     && (3 <? String.length w)) words in
  let word_counts := Counter String.eqb filtered_words in
  match word_counts with
  | [] => []
  | _ :: _ => most_common 15 word_counts
  end.

Record question : Type := {
  q_question : string;
  q_author : string;
  q_likes : Z
}.

Definition question_indicators : list string :=
  [ "?"; "how"; "what"; "why"; "when"; "where"; "which"; "can you" ].

Definition is_question (c : comment) : bool :=
  let text := strip (text c) in
  let text_lower := lower text in
  contains "?" text && any_in question_indicators text_lower.

Definition question_of (c : comment) : question :=
  let text := strip (text c) in
  {| q_question := text;
     q_author := author c;
     q_likes := like_count c |}.

(** [extract_questions]: the list that it returns. *)
Definition extract_questions (comments : list comment) : list question :=
  let questions := map question_of (filter is_question comments) in
  sort_desc (fun y x => (q_likes x <? q_likes y)%Z) questions.

(** The previews that [extract_questions] prints. *)
Definition printed_questions (comments : list comment) : list string :=
  map (fun q => preview 100 (q_question q)) (take 5 (extract_questions comments)).

End AnalyzeComments.

(* ------------------------------------------------------------------ *)
(** ** Sample library functions

    Small stand-ins for the library functions that the program calls, to
    run the functions above on concrete inputs.  They cover the inputs of
    the examples, not the whole of the libraries. *)

Module Sample.
Import PyStr.

Definition digit (c : ascii) : option nat :=
  if in_range 48 57 c then Some (nat_of_ascii c - 48) else None.

Definition char_at (s : string) (i : nat) : option ascii := String.get i s.

(** Timestamps of the shape [YYYY-MM-DDTHH:...]: the hour is read from the
    two digits after the [T]. *)
Definition fromisoformat (s : string) : option datetime :=
  match char_at s 4, char_at s 7, char_at s 10, char_at s 11, char_at s 12 with
  | Some d1, Some d2, Some t, Some h1, Some h2 =>
      if (d1 =? "-")%char && (d2 =? "-")%char && (t =? "T")%char then
        match digit h1, digit h2 with
        | Some a, Some b =>
            if 10 * a + b <? 24 then Some {| hour := 10 * a + b |} else None
        | _, _ => None
        end
      else None
  | _, _, _, _, _ => None
  end.

(** The text between the first [?] and the first [#] after it. *)
Fixpoint until_hash (s : string) : string :=
  match s with
  | EmptyString => EmptyString
  | String c r => if (c =? "#")%char then EmptyString else String c (until_hash r)
  end.

Fixpoint after_mark (s : string) : string :=
  match s with
  | EmptyString => EmptyString
  | String c r => if (c =? "?")%char then until_hash r else after_mark r
  end.

Definition urlparse_query (url : string) : py string := Ok (after_mark url).

Fixpoint split_eq (s : string) : string * string :=
  match s with
  | EmptyString => (EmptyString, EmptyString)
  | String c r =>
      if (c =? "=")%char then (EmptyString, r)
      else let '(k, v) := split_eq r in (String c k, v)
  end.

Fixpoint add_value (k v : string) (d : list (string * list string))
    : list (string * list string) :=
  match d with
  | [] => [(k, [v])]
  | (k', vs) :: r =>
      if (k' =? k)%string then (k', vs ++ [v]) :: r
      else (k', vs) :: add_value k v r
  end.

(** [key=value] pairs separated by [&]; pairs with an empty value are left
    out. *)
Definition parse_qs (query : string) : py (list (string * list string)) :=
  Ok (fold_left
        (fun d piece =>
           let '(k, v) := split_eq piece in
           if nonempty v then add_value k v d else d)
        (pieces (fun c => (c =? "&")%char) query) []).

(** A comment with the given text and like count. *)
Definition mk (t : string) (likes : Z) : comment :=
  {| text := t; author := "viewer"; like_count := likes;
     published_at := None; is_reply := None |}.

(** A comment with a publication time. *)
Definition mk_at (t : string) (likes : Z) (published : string) : comment :=
  {| text := t; author := "viewer"; like_count := likes;
     published_at := Some (JString published); is_reply := None |}.

Fixpoint repeat_char (c : ascii) (n : nat) : string :=
  match n with
  | O => EmptyString
  | S k => String c (repeat_char c k)
  end.

(** A question of 201 characters. *)
Definition long_question : string := String "?" (repeat_char "a" 200).

(** The comments of the question scenario of the specification. *)
Definition question_scenario : list comment :=
  [ mk "how do I install this?" 10; mk "great video!" 3 ].

(** The indicator words of the specification: the words of
    [question_indicators] without the question mark itself. *)
Definition indicator_words : list string :=
  [ "how"; "what"; "why"; "when"; "where"; "which"; "can you"; "could you" ].

(** A collection of one comment without likes. *)
Definition unliked : list comment := [ mk "first" 0 ].

(** The statistics that [basic_statistics] returns on no comments. *)
Definition no_statistics : AnalyzeComments.statistics :=
  {| AnalyzeComments.total_comments := 0;
     AnalyzeComments.top_level_comments := 0;
     AnalyzeComments.replies := 0;
     AnalyzeComments.total_likes := 0;
     AnalyzeComments.avg_likes := 0%Q;
     AnalyzeComments.top_authors := [] |}.

End Sample.

(* ------------------------------------------------------------------ *)
(** ** The audience tiers as the specification words them

    Each record falls into at most one tier; the beginner indicators are
    looked at first, then the advanced ones, then the intermediate ones. *)

Module AudienceSpec.
Import PyStr CommentAnalyzer.

Inductive tier : Type := Beginner | Intermediate | Advanced.

Definition classify (c : comment) : option tier :=
  let text_lower := lower (text c) in
  if any_in beginner_indicators text_lower then Some Beginner
  else if any_in advanced_indicators text_lower then Some Advanced
  else if any_in intermediate_indicators text_lower then Some Intermediate
  else None.

Definition is_tier (t : tier) (c : comment) : bool :=
  match classify c, t with
  | Some Beginner, Beginner => true
  | Some Intermediate, Intermediate => true
  | Some Advanced, Advanced => true
  | _, _ => false
  end.

(** The number of records of a tier. *)
Definition count_tier (t : tier) (comments : list comment) : nat :=
  List.length (filter (is_tier t) comments).

(** The classified count. *)
Definition classified (comments : list comment) : nat :=
  count_tier Beginner comments + count_tier Intermediate comments
  + count_tier Advanced comments.

(** A comment with a beginner and an advanced indicator, and two more. *)
Definition mixed : list comment :=
  [ Sample.mk "A simple question about architecture" 2;
    Sample.mk "How does this scale?" 1;
    Sample.mk "Nice" 0 ].

End AudienceSpec.

(* ------------------------------------------------------------------ *)
(** ** The peak hours as the specification words them

    A record takes part in the count of the hours when its timestamp is
    there and parses. *)

Module EngagementSpec.
Import PyStr.

Section Hours.
Variable fromisoformat : string -> option datetime.

Definition hour_of (c : comment) : option nat :=
  match published_at c with
  | Some (JString published) =>
      option_map hour (fromisoformat (replace_char "Z" "+00:00" published))
  | _ => None
  end.

(** The hours of the records whose timestamp parses, in the order of the
    records. *)
Definition parsed_hours (comments : list comment) : list nat :=
  flat_map (fun c => match hour_of c with Some h => [h] | None => [] end)
           comments.

(** The records published in the hour [h]. *)
Definition published_in (h : nat) (comments : list comment) : list comment :=
  filter (fun c => match hour_of c with Some h' => h' =? h | None => false end)
         comments.

End Hours.

(** The timestamp of the record is a string, or is missing. *)
Definition textual (c : comment) : bool :=
  match published_at c with
  | Some JOther => false
  | _ => true
  end.

(** The number counted for a key. *)
Fixpoint counter_get {K : Type} (eqb : K -> K -> bool) (k : K)
    (c : list (K * nat)) : nat :=
  match c with
  | [] => 0
  | (k', n) :: r => if eqb k' k then n else counter_get eqb k r
  end.

(** Five records: two with a timestamp that does not parse or is missing. *)
Definition timeline : list comment :=
  [ Sample.mk_at "a" 3 "2024-01-15T10:30:00Z";
    Sample.mk_at "b" 5 "yesterday";
    Sample.mk "c" 1;
    Sample.mk_at "d" 5 "2024-01-16T10:00:00Z";
    Sample.mk_at "e" 5 "2024-01-16T23:00:00Z" ].

(** Two records read from JSON, the second with ["published_at": null]. *)
Definition null_timestamp : list comment :=
  [ Sample.mk_at "a" 3 "2024-01-15T10:30:00Z";
    {| text := "b"; author := "viewer"; like_count := 5;
       published_at := Some JOther; is_reply := None |} ].

End EngagementSpec.

(* ------------------------------------------------------------------ *)
(** ** The interest score as the specification words it *)

Module TopicSpec.
Import PyStr CommentAnalyzer.

(** The text in which the mentions are counted. *)
Definition all_text (comments : list comment) : string :=
  join " " (map (fun c => lower (text c)) comments).

(** The mentions of a keyword. *)
Definition mentions_of (comments : list comment) (topic : string) : nat :=
  Re.count_bounded topic (all_text comments).

(** The mean like count of a list of records that is not empty. *)
Definition mean_likes (l : list comment) : Q :=
  Qdiv (inject_Z (sum_Z (map like_count l))) (inject_Z (Z.of_nat (List.length l))).

(** No space in a keyword. *)
Definition spaceless (w : string) : bool :=
  Re.all_chars (fun c => negb (c =? space)%char) w.

(** Five comments that mention docker once each, with a mean like count
    of 4. *)
Definition docker_scenario : list comment :=
  [ Sample.mk "Docker is great" 2;
    Sample.mk "I run docker at home" 6;
    Sample.mk "more docker please" 4;
    Sample.mk "docker!" 3;
    Sample.mk "Thanks for the Docker tips" 5 ].




(** What the loop over the taxonomy gathers. *)
Definition gathered (comments : list comment) (txt : string)
    (topics : list (string * list string)) (t : topic_data) : Prop :=
  In (td_topic t, td_suggestions t) topics
  /\ td_mentions t = Re.count_bounded (td_topic t) txt
  /\ 0 < td_mentions t
  /\ avg_engagement_of comments (td_topic t) = Ok (td_avg_engagement t)
  /\ td_interest_score t
     = interest_score_of (td_mentions t) (td_avg_engagement t).

End TopicSpec.

(* ------------------------------------------------------------------ *)
(** ** Content requests

    [CommentAnalyzer.identify_content_requests] of [youtube_scraper.py]
    and [content_insights] of [analyze_comments.py]. *)

Module ContentRequests.
Import PyStr.

Record request : Type := {
  r_text : string;
  r_author : string;
  r_likes : Z;
  r_matched_keywords : list string
}.

Definition request_keywords : list string :=
  [ "tutorial"; "explain"; "show how"; "guide"; "demo"; "example";
    "walkthrough"; "deep dive"; "comparison"; "please"; "would love";
    "can you do"; "next video"; "cover"; "topic"; "about" ].

Definition request_of (c : comment) : request :=
  let text_lower := lower (text c) in
  {| r_text := preview 150 (text c);
     r_author := author c;
     r_likes := like_count c;
     r_matched_keywords :=
       filter (fun kw => contains kw text_lower) request_keywords |}.

(** [identify_content_requests] *)
Definition identify_content_requests (comments : list comment) (top_n : nat)
    : list request :=
  let requests :=
    map request_of
        (filter (fun c => any_in request_keywords (lower (text c))) comments) in
  take top_n (sort_desc (fun y x => (r_likes x <? r_likes y)%Z) requests).

Record insight : Type := {
  i_text : string;
  i_author : string;
  i_likes : Z
}.

Definition topic_keywords : list string :=
  [ "tutorial"; "explain"; "show how"; "guide"; "demo";
    "example"; "walkthrough"; "deep dive"; "comparison";
    "please"; "would love"; "can you do"; "next video" ].

(** [content_insights]: the list that it returns. *)
Definition content_insights (comments : list comment) : list insight :=
  let content_requests :=
    map (fun c => {| i_text := text c; i_author := author c;
                     i_likes := like_count c |})
        (filter (fun c => any_in topic_keywords (lower (text c))) comments) in
  sort_desc (fun y x => (i_likes x <? i_likes y)%Z) content_requests.

End ContentRequests.

(* ------------------------------------------------------------------ *)
(** ** The executive summary ([generate_summary] of [analyze_comments.py])

    The function prints; the values that it prints are returned here. *)

Module ExecutiveSummary.

Record summary : Type := {
  total_comments : nat;
  total_likes : Z;
  avg_likes : Q;
  high_engagement : nat;
  high_engagement_percent : Q;
  most_liked : comment;
  health : string
}.

(** [max(comments, key=lambda x: x['like_count'])] on a list with the first
    element [c]: the first comment with the greatest like count. *)
Definition max_by_likes (c : comment) (r : list comment) : comment :=
  fold_left (fun acc y => if (like_count acc <? like_count y)%Z then y else acc) r c.

(** [generate_summary]; [Ok None] is the early return on no comments. *)
Definition generate_summary (comments : list comment) : py (option summary) :=
  match comments with
  | [] => Ok None
  | c :: r =>
      let total_comments := List.length comments in
      let total_likes := sum_Z (map like_count comments) in
      avg_likes <- truediv total_likes (Z.of_nat total_comments) ;;
      let most_liked := max_by_likes c r in
      let high_engagement :=
        List.length
          (filter (fun c => Qgt_bool (inject_Z (like_count c))
                                     (Qmult avg_likes (inject_Z 2)))
                  comments) in
      ratio <- truediv (Z.of_nat high_engagement) (Z.of_nat total_comments) ;;
      let health :=
        if Qgt_bool avg_likes (inject_Z 5) then "Excellent"
        else if Qgt_bool avg_likes (inject_Z 2) then "Good"
        else "Needs Improvement" in
      Ok (Some {| total_comments := total_comments;
                  total_likes := total_likes;
                  avg_likes := avg_likes;
                  high_engagement := high_engagement;
                  high_engagement_percent := Qred (Qmult ratio (inject_Z 100));
                  most_liked := most_liked;
                  health := health |})
  end.

End ExecutiveSummary.

(* ------------------------------------------------------------------ *)
(** ** Orders of results *)

Module Ranking.

(** The keys of a list never increase from left to right. *)
Definition descending {A : Type} (key : A -> Z) (l : list A) : Prop :=
  StronglySorted (fun a b => (key b <= key a)%Z) l.

(** The elements of [l] with the key [k], in their order. *)
Definition with_key {A : Type} (key : A -> Z) (k : Z) (l : list A) : list A :=
  filter (fun a => (key a =? k)%Z) l.

(** [sorted] is [l] sorted by descending key, elements with equal keys in
    the order that they have in [l]. *)
Definition stable_descending {A : Type} (key : A -> Z) (l sorted : list A) : Prop :=
  descending key sorted
  /\ List.length sorted = List.length l
  /\ forall k, with_key key k sorted = with_key key k l.

(** Three questions, two of them with the same number of likes. *)
Definition tied_questions : list comment :=
  [ Sample.mk "why?" 2; Sample.mk "how?" 7; Sample.mk "when?" 2 ].

(** Comments with likes; none is negative. *)
Definition liked : list comment :=
  [ Sample.mk "a" 0; Sample.mk "b" 9; Sample.mk "c" 1; Sample.mk "d" 0 ].

End Ranking.

(* ------------------------------------------------------------------ *)
(** ** The caption analyzer ([CaptionAnalyzer] of
    [youtube_caption_downloader.py]) *)

Module CaptionAnalyzer.
Import PyStr.

(** A segment as the analyzer reads it, with [segment.get(key, default)]. *)
Record seg_dict : Type := {
  sd_text : option string;
  sd_timestamp : option string;
  sd_duration : option Q
}.

(** The caption data given to the analyzer.  [cd_total_duration] is the
    entry [total_duration] of its [statistics]; it is [None] when the
    statistics or the entry are missing. *)
Record caption_data : Type := {
  cd_processed_text : option string;
  cd_segments : option (list seg_dict);
  cd_total_duration : option Q
}.

(** [__init__] *)
Definition full_text (d : caption_data) : string :=
  get_default (cd_processed_text d) EmptyString.

Definition segments (d : caption_data) : list seg_dict :=
  get_default (cd_segments d) [].

(** The caption data that [download_caption] builds from a processed
    transcript, as far as the analyzer reads it. *)
Definition of_processed (p : YouTubeCaptionDownloader.processed) : caption_data :=
  {| cd_processed_text := Some (YouTubeCaptionDownloader.full_text p);
     cd_segments :=
       Some (map (fun s =>
                    {| sd_text := Some (YouTubeCaptionDownloader.seg_text s);
                       sd_timestamp := Some (YouTubeCaptionDownloader.seg_timestamp s);
                       sd_duration := Some (YouTubeCaptionDownloader.seg_duration s) |})
                 (YouTubeCaptionDownloader.segments p));
     cd_total_duration :=
       Some (YouTubeCaptionDownloader.total_duration
               (YouTubeCaptionDownloader.stats p)) |}.

(** [re.findall(rf'\b\w{{{n},}}\b', s)] with its empty matches: for [n = 0]
    the pattern matches the empty text at the end of every run of word
    characters. *)
Definition findall_runs (n : nat) (s : string) : list string :=
  let runs := filter nonempty (pieces (fun c => negb (isword c)) s) in
  if n =? 0 then flat_map (fun w => [w; EmptyString]) runs
  else filter (fun w => n <=? String.length w) runs.

Definition stop_words : list string :=
  [ "this"; "that"; "with"; "have"; "will"; "from"; "they"; "been";
    "were"; "said"; "each"; "which"; "their"; "time"; "would"; "there";
    "what"; "when"; "where"; "your"; "just"; "like"; "dont"; "really";
    "think"; "know"; "good"; "great"; "going"; "want"; "need"; "make";
    "right"; "here"; "come"; "well"; "also"; "look"; "now" ].

(** The words that [extract_key_topics] counts. *)
Definition filtered_words (d : caption_data) (min_word_length : nat) : list string :=
  filter (fun w => negb (existsb (String.eqb w) stop_words))
         (findall_runs min_word_length (lower (full_text d))).

(** [extract_key_topics] *)
Definition extract_key_topics (d : caption_data) (min_word_length top_n : nat)
    : list (string * nat) :=
  if nonempty (full_text d) then
    most_common top_n (Counter String.eqb (filtered_words d min_word_length))
  else [].

(** The first alternative of [\b(?:a1|a2|...)\b] that matches at the start
    of [s]; [before] is the character in front of [s]. *)
Fixpoint first_match (alts : list string) (before : option ascii) (s : string)
    : option string :=
  match alts with
  | [] => None
  | a :: r =>
      if Re.boundary before (Re.head s) && prefix a s
         && Re.boundary (Re.last_char a before)
                        (Re.head (slice_from (String.length a) s))
      then Some a
      else first_match r before s
  end.

(** [re.findall(r'\b(?:a1|a2|...)\b', s)] for alternatives that are not
    empty: the matches from left to right, without overlap. *)
Fixpoint findall_alts_go (alts : list string) (before : option ascii)
    (s : string) (skip : nat) : list string :=
  match s with
  | EmptyString => []
  | String c r =>
      match skip with
      | S k => findall_alts_go alts (Some c) r k
      | O =>
          match first_match alts before s with
          | Some a => a :: findall_alts_go alts (Some c) r (String.length a - 1)
          | None => findall_alts_go alts (Some c) r 0
          end
      end
  end.

Definition findall_alts (alts : list string) (s : string) : list string :=
  findall_alts_go alts None s 0.

(** [re.search(r'\b(?:a1|a2|...)\b', s)] as a truth value. *)
Fixpoint search_alts_go (alts : list string) (before : option ascii)
    (s : string) : bool :=
  match first_match alts before s with
  | Some _ => true
  | None =>
      match s with
      | EmptyString => false
      | String c r => search_alts_go alts (Some c) r
      end
  end.

Definition search_alts (alts : list string) (s : string) : bool :=
  search_alts_go alts None s.

(** The alternatives of [technical_patterns]; an optional last letter
    gives two alternatives, the longer one first. *)
Definition technical_patterns : list (list string) :=
  [ [ "docker"; "podman"; "kubernetes"; "k8s" ];
    [ "container"; "containers"; "containerized"; "containerize" ];
    [ "image"; "images"; "registry"; "registries" ];
    [ "pod"; "pods"; "deployment"; "deployments" ];
    [ "volume"; "volumes"; "mount"; "mounts" ];
    [ "network"; "networking"; "port"; "ports" ];
    [ "security"; "privilege"; "rootless"; "namespaces"; "namespace" ];
    [ "orchestration"; "scaling"; "monitoring" ];
    [ "ci/cd"; "pipeline"; "build"; "dockerfile" ];
    [ "microservices"; "microservice"; "service"; "services" ] ].

(** One more element in a set kept as a sorted list without duplicates. *)
Fixpoint set_add (x : string) (l : list string) : list string :=
  match l with
  | [] => [x]
  | y :: r =>
      match String.compare x y with
      | Lt => x :: y :: r
      | Eq => y :: r
      | Gt => y :: set_add x r
      end
  end.

(** [sorted(list(set(l)))] *)
Definition sorted_set (l : list string) : list string :=
  fold_left (fun acc x => set_add x acc) l [].

(** [find_technical_terms] *)
Definition find_technical_terms (d : caption_data) : list string :=
  let text_lower := lower (full_text d) in
  sorted_set (flat_map (fun alts => findall_alts alts text_lower) technical_patterns).

Record transition : Type := {
  t_timestamp : string;
  t_text : string;
  t_segment_index : nat
}.

Record structure : Type := {
  total_segments : nat;
  transitions_found : nat;
  transition_points : list transition;
  average_speaking_rate : Q;
  content_density : Q
}.

Definition transition_patterns : list (list string) :=
  [ [ "first"; "second"; "third"; "next"; "then"; "finally"; "lastly" ];
    [ "now"; "so"; "however"; "but"; "therefore"; "because" ];
    [ "let's"; "we'll"; "we're going to" ] ].

(** The transitions of the segment of index [i]: one for every pattern
    found in its text. *)
Definition transitions_of (i : nat) (segment : seg_dict) : list transition :=
  let text := lower (get_default (sd_text segment) EmptyString) in
  flat_map
    (fun pattern =>
       if search_alts pattern text then
         [ {| t_timestamp := get_default (sd_timestamp segment) "00:00:00";
              t_text := String.append
                          (slice_to 100 (get_default (sd_text segment) EmptyString))
                          "...";
              t_segment_index := i |} ]
       else [])
    transition_patterns.

Fixpoint transitions_from (i : nat) (segs : list seg_dict) : list transition :=
  match segs with
  | [] => []
  | segment :: r => transitions_of i segment ++ transitions_from (S i) r
  end.

(** The loop over the segments that fills [rates]. *)
Fixpoint rates_of (segs : list seg_dict) : py (list Q) :=
  match segs with
  | [] => Ok []
  | segment :: r =>
      let duration := get_default (sd_duration segment) 0%Q in
      let words :=
        List.length (split (get_default (sd_text segment) EmptyString)) in
      if Qgt_bool duration 0%Q then
        per_second <- truediv_q (inject_Z (Z.of_nat words)) duration ;;
        rest <- rates_of r ;;
        Ok (Qred (Qmult per_second (inject_Z 60)) :: rest)
      else rates_of r
  end.

Definition sum_Q (l : list Q) : Q := fold_left Qplus l 0%Q.

(** [analyze_content_structure]; [Ok None] is the empty mapping [{}]. *)
Definition analyze_content_structure (d : caption_data) : py (option structure) :=
  match segments d with
  | [] => Ok None
  | _ :: _ =>
      let transitions := transitions_from 0 (segments d) in
      rates <- rates_of (segments d) ;;
      avg_rate <-
        (match rates with
         | [] => Ok 0%Q
         | _ :: _ =>
             truediv_q (sum_Q rates) (inject_Z (Z.of_nat (List.length rates)))
         end) ;;
      density <-
        truediv_q (inject_Z (Z.of_nat (List.length (split (full_text d)))))
                  (get_default (cd_total_duration d) 1%Q) ;;
      Ok (Some {| total_segments := List.length (segments d);
                  transitions_found := List.length transitions;
                  transition_points := take 10 transitions;
                  average_speaking_rate := avg_rate;
                  content_density := density |})
  end.

(** A transcript of one caption that starts and ends at time 0. *)
Definition instant : list YouTubeCaptionDownloader.entry :=
  [ {| YouTubeCaptionDownloader.e_start := Some 0%Q;
       YouTubeCaptionDownloader.e_duration := Some 0%Q;
       YouTubeCaptionDownloader.e_text := Some "So, first we build the image" |} ].

(** Caption data of two segments. *)
Definition talk : caption_data :=
  {| cd_processed_text :=
       Some "First we build the Docker image. Then the containers run in pods";
     cd_segments :=
       Some [ {| sd_text := Some "First we build the Docker image.";
                 sd_timestamp := Some "00:00:00";
                 sd_duration := Some (3 # 1)%Q |};
              {| sd_text := Some "Then the containers run in pods";
                 sd_timestamp := Some "00:00:03";
                 sd_duration := Some (3 # 1)%Q |} ];
     cd_total_duration := Some (6 # 1)%Q |}.

End CaptionAnalyzer.

(* ------------------------------------------------------------------ *)
(** ** Orders of texts *)

Module TextOrder.

(** The order in which [sorted] puts two texts: by the codes of their
    characters. *)
Definition lt (a b : string) : Prop := String.compare a b = Lt.

(** Strictly increasing: sorted, and no text twice. *)
Definition increasing (l : list string) : Prop := StronglySorted lt l.

End TextOrder.

(* ------------------------------------------------------------------ *)
(** ** Words *)

Module Words.

(** A text without white space. *)
Definition solid (w : string) : bool :=
  Re.all_chars (fun c => negb (PyStr.isspace c)) w.

End Words.

(* ------------------------------------------------------------------ *)
(** ** Scraping ([scrape_comments] and [_parse_comment] of
    [YouTubeCommentScraper])

    The answers of the API are given: the pages of comment threads in the
    order in which the loop receives them, the last one being the page
    without a token for a next page (an answer 403 ends the loop in the
    same way). *)

Module Scraping.

(** A comment resource of the API.  [cd_authorChannelId] is
    [snippet.get('authorChannelId', {}).get('value', '')] before the
    default, [cd_canReply] is missing when the snippet has no [canReply]. *)
Record comment_data : Type := {
  cd_id : string;
  cd_authorDisplayName : string;
  cd_authorChannelId : option string;
  cd_textDisplay : string;
  cd_textOriginal : string;
  cd_likeCount : Z;
  cd_publishedAt : string;
  cd_updatedAt : string;
  cd_canReply : option bool
}.

(** A comment thread; [th_replies] is missing when the item has no
    [replies]. *)
Record thread : Type := {
  th_topLevelComment : comment_data;
  th_replies : option (list comment_data)
}.

(** A scraped comment. *)
Record scraped : Type := {
  comment_id : string;
  sc_author : string;
  author_channel_id : string;
  sc_text : string;
  text_original : string;
  sc_like_count : Z;
  sc_published_at : string;
  updated_at : string;
  sc_is_reply : bool;
  parent_comment_id : option string;
  can_reply : bool
}.

(** [_parse_comment] *)
Definition _parse_comment (comment_data : comment_data) : scraped :=
  {| comment_id := cd_id comment_data;
     sc_author := cd_authorDisplayName comment_data;
     author_channel_id := get_default (cd_authorChannelId comment_data) EmptyString;
     sc_text := cd_textDisplay comment_data;
     text_original := cd_textOriginal comment_data;
     sc_like_count := cd_likeCount comment_data;
     sc_published_at := cd_publishedAt comment_data;
     updated_at := cd_updatedAt comment_data;
     sc_is_reply := false;
     parent_comment_id := None;
     can_reply := get_default (cd_canReply comment_data) false |}.

(** The reply made of a comment resource: [reply['is_reply'] = True] and
    [reply['parent_comment_id'] = comment['comment_id']]. *)
Definition reply_of (parent : scraped) (reply_item : comment_data) : scraped :=
  let reply := _parse_comment reply_item in
  {| comment_id := comment_id reply;
     sc_author := sc_author reply;
     author_channel_id := author_channel_id reply;
     sc_text := sc_text reply;
     text_original := text_original reply;
     sc_like_count := sc_like_count reply;
     sc_published_at := sc_published_at reply;
     updated_at := updated_at reply;
     sc_is_reply := true;
     parent_comment_id := Some (comment_id parent);
     can_reply := can_reply reply |}.

(** [max_comments and comments_retrieved >= max_comments]: no limit and the
    limit 0 are both false. *)
Definition reached (max_comments : option Z) (comments_retrieved : nat) : bool :=
  match max_comments with
  | Some m => negb (m =? 0)%Z && (m <=? Z.of_nat comments_retrieved)%Z
  | None => false
  end.

(** The loop over the replies of a thread: what it yields, the counter
    after it, and whether it has returned. *)
Fixpoint replies_loop (max_comments : option Z) (parent : scraped)
    (replies : list comment_data) (comments_retrieved : nat)
    : list scraped * nat * bool :=
  match replies with
  | [] => ([], comments_retrieved, false)
  | reply_item :: rest =>
      if reached max_comments comments_retrieved
      then ([], comments_retrieved, true)
      else
        let '(ys, n, returned) :=
          replies_loop max_comments parent rest (S comments_retrieved) in
        (reply_of parent reply_item :: ys, n, returned)
  end.

(** The loop over the items of a page. *)
Fixpoint items_loop (max_comments : option Z) (items : list thread)
    (comments_retrieved : nat) : list scraped * nat * bool :=
  match items with
  | [] => ([], comments_retrieved, false)
  | item :: rest =>
      let comment := _parse_comment (th_topLevelComment item) in
      let comments_retrieved := S comments_retrieved in
      if reached max_comments comments_retrieved
      then ([comment], comments_retrieved, true)
      else
        let '(ys, n, returned) :=
          match th_replies item with
          | Some replies =>
              replies_loop max_comments comment replies comments_retrieved
          | None => ([], comments_retrieved, false)
          end in
        if returned then (comment :: ys, n, true)
        else
          let '(zs, n', returned') := items_loop max_comments rest n in
          (comment :: ys ++ zs, n', returned')
  end.

(** The loop over the pages. *)
Fixpoint pages_loop (max_comments : option Z) (pages : list (list thread))
    (comments_retrieved : nat) : list scraped :=
  match pages with
  | [] => []
  | page :: rest =>
      let '(ys, n, returned) := items_loop max_comments page comments_retrieved in
      if returned then ys else ys ++ pages_loop max_comments rest n
  end.

(** [scrape_comments]: the comments that the generator yields. *)
Definition scrape_comments (pages : list (list thread)) (max_comments : option Z)
    : list scraped :=
  pages_loop max_comments pages 0.

(** The comments of a thread: the top-level comment, then its replies. *)
Definition thread_comments (item : thread) : list scraped :=
  let comment := _parse_comment (th_topLevelComment item) in
  comment :: map (reply_of comment) (get_default (th_replies item) []).

(** All the comments of the pages, in the order of the API. *)
Definition all_comments (pages : list (list thread)) : list scraped :=
  flat_map thread_comments (List.concat pages).

(** A comment resource with an identifier and a text. *)
Definition resource (id text : string) : comment_data :=
  {| cd_id := id; cd_authorDisplayName := "viewer"; cd_authorChannelId := None;
     cd_textDisplay := text; cd_textOriginal := text; cd_likeCount := 0%Z;
     cd_publishedAt := "2024-01-15T10:30:00Z";
     cd_updatedAt := "2024-01-15T10:30:00Z"; cd_canReply := None |}.

(** One page of two threads, the first with one reply. *)
Definition two_threads : list (list thread) :=
  [ [ {| th_topLevelComment := resource "c1" "first";
         th_replies := Some [ resource "r1" "reply" ] |};
      {| th_topLevelComment := resource "c2" "second";
         th_replies := None |} ] ].

(** What a loop has yielded is a beginning of [full]; the counter counts
    the yields; a loop that has not returned has yielded all of [full]; a
    loop returns only with the limit reached. *)
Definition loop_result (max_comments : option Z) (full : list scraped)
    (count : nat) (result : list scraped * nat * bool) : Prop :=
  let '(ys, n, returned) := result in
  n = count + List.length ys
  /\ (exists rest, full = ys ++ rest)
  /\ (returned = false -> ys = full)
  /\ (returned = true -> reached max_comments n = true).

End Scraping.

(* ------------------------------------------------------------------ *)
(** ** Names of files and directories

    [ContentGenerator._sanitize_filename] and
    [ContentGenerator.generate_content_calendar] of
    [scripts/content-generator.py]; the directory names of
    [create_analysis_directory] ([scripts/youtube-content-scraper.py]) and
    [get_comments_batch] ([youtube_scraper.py]). *)

Module Names.
Import PyStr.

(** Every character of the text is an ASCII character. *)
Definition is_ascii (s : string) : bool := Re.all_chars (in_range 0 127) s.

(** [c.isalnum()] of an ASCII character *)
Definition isalnum (c : ascii) : bool :=
  in_range 48 57 c || in_range 65 90 c || in_range 97 122 c.

(** [''.join(c for c in s if p(c))] *)
Fixpoint filter_chars (p : ascii -> bool) (s : string) : string :=
  match s with
  | EmptyString => EmptyString
  | String c r => if p c then String c (filter_chars p r) else filter_chars p r
  end.

(** [_sanitize_filename] *)
Definition _sanitize_filename (name : string) : string :=
  let safe_name := replace_char " " "-" (lower name) in
  filter_chars (fun c => isalnum c || has_char c "-_") safe_name.

Fixpoint map_chars (f : ascii -> ascii) (s : string) : string :=
  match s with
  | EmptyString => EmptyString
  | String c r => String (f c) (map_chars f r)
  end.

(** [re.sub(r'[^\w\-_]', '_', s)] on an ASCII text *)
Definition underscore_others (s : string) : string :=
  map_chars (fun c => if isword c || (c =? "-")%char then c else "_"%char) s.

(** [re.sub(r'_+', '_', s)] *)
Fixpoint squeeze_go (s : string) (in_run : bool) : string :=
  match s with
  | EmptyString => EmptyString
  | String c r =>
      if (c =? "_")%char then
        if in_run then squeeze_go r true else String c (squeeze_go r true)
      else String c (squeeze_go r false)
  end.

Definition squeeze (s : string) : string := squeeze_go s false.

Fixpoint lstrip_underscores (s : string) : string :=
  match s with
  | EmptyString => EmptyString
  | String c r => if (c =? "_")%char then lstrip_underscores r else s
  end.

Fixpoint rstrip_underscores (s : string) : string :=
  match s with
  | EmptyString => EmptyString
  | String c r =>
      match rstrip_underscores r with
      | EmptyString => if (c =? "_")%char then EmptyString else String c EmptyString
      | r' => String c r'
      end
  end.

(** [s.strip('_')] *)
Definition strip_underscores (s : string) : string :=
  rstrip_underscores (lstrip_underscores s).

(** [safe_title]: the title made safe for a directory name. *)
Definition safe_title (title : string) : string :=
  slice_to 40 (strip_underscores (squeeze (underscore_others (lower title)))).

(** The name of the directory that [create_analysis_directory] makes under
    [tmp]; [timestamp] is the time of the call, formatted. *)
Definition analysis_directory_name (title id : option string) (timestamp : string)
    : string :=
  String.append (safe_title (get_default title "unknown"))
    (String.append "_"
       (String.append (get_default id "unknown") (String.append "_" timestamp))).

(** Only lower-case letters, digits, [-] and [_]. *)
Definition plain (c : ascii) : bool :=
  in_range 48 57 c || in_range 97 122 c || (c =? "-")%char || (c =? "_")%char.

(** No two underscores side by side. *)
Fixpoint single_underscores (s : string) : bool :=
  match s with
  | String c ((String d _) as r) =>
      negb ((c =? "_")%char && (d =? "_")%char) && single_underscores r
  | _ => true
  end.

Record topic : Type := {
  tp_title : string;
  tp_difficulty : string;
  tp_category : string
}.

Record episode : Type := {
  episode_number : nat;
  ep_title : string;
  ep_difficulty : string;
  ep_category : string;
  planned_date : string;
  ep_duration : string;
  status : string
}.

Record calendar : Type := {
  generated : string;
  weeks : Z;
  episodes : list episode
}.

Definition episode_topics : list topic :=
  [ {| tp_title := "Container Internals Deep Dive";
       tp_difficulty := "Intermediate"; tp_category := "fundamentals" |};
    {| tp_title := "Podman vs Docker: Security Revolution";
       tp_difficulty := "Intermediate"; tp_category := "security" |};
    {| tp_title := "Building Without Docker: Buildah Mastery";
       tp_difficulty := "Advanced"; tp_category := "building" |};
    {| tp_title := "Container Image Surgery with Skopeo";
       tp_difficulty := "Intermediate"; tp_category := "management" |};
    {| tp_title := "Kubernetes Pod Deep Dive";
       tp_difficulty := "Advanced"; tp_category := "orchestration" |};
    {| tp_title := "Container Security Hardening";
       tp_difficulty := "Intermediate"; tp_category := "security" |};
    {| tp_title := "AI Workloads on Kubernetes";
       tp_difficulty := "Advanced"; tp_category := "specialized" |};
    {| tp_title := "Multi-Cloud Container Orchestration";
       tp_difficulty := "Advanced"; tp_category := "orchestration" |};
    {| tp_title := "Container Performance Optimization";
       tp_difficulty := "Intermediate"; tp_category := "performance" |};
    {| tp_title := "Systemd + Containers: The Perfect Marriage";
       tp_difficulty := "Intermediate"; tp_category := "integration" |};
    {| tp_title := "Container Networking Deep Dive";
       tp_difficulty := "Advanced"; tp_category := "networking" |};
    {| tp_title := "GitOps with Containers";
       tp_difficulty := "Advanced"; tp_category := "deployment" |} ].

(** [l[:n]] for any integer [n]: a negative [n] counts from the end. *)
Definition slice_to_int {A : Type} (n : Z) (l : list A) : list A :=
  if (0 <=? n)%Z then firstn (Z.to_nat n) l
  else firstn (Z.to_nat (Z.of_nat (List.length l) + n)) l.

(** [str(i)] for a natural number *)
Definition str_nat (i : nat) : string := NilZero.string_of_uint (Nat.to_uint i).

(** The loop over [enumerate(topics, i)]. *)
Fixpoint episodes_from (i : nat) (topics : list topic) : list episode :=
  match topics with
  | [] => []
  | t :: r =>
      {| episode_number := i;
         ep_title := tp_title t;
         ep_difficulty := tp_difficulty t;
         ep_category := tp_category t;
         planned_date := String.append "Week " (str_nat i);
         ep_duration := "18-22 minutes";
         status := "planned" |}
      :: episodes_from (S i) r
  end.

(** [generate_content_calendar]; [now] is the time of the call, formatted. *)
Definition generate_content_calendar (now : string) (weeks : Z) : calendar :=
  {| generated := now;
     weeks := weeks;
     episodes := episodes_from 1 (slice_to_int weeks episode_topics) |}.

End Names.

(* ------------------------------------------------------------------ *)
(** ** Listing and downloading the transcripts of a video *)

Module Transcripts.
Import YouTubeCaptionDownloader.

(** The exceptions of the transcript library that the code tells apart,
    and [str(e)] of the exception. *)
Inductive error_kind : Type :=
| TranscriptsDisabled
| NoTranscriptFound
| VideoUnavailable
| OtherException.

Record api_error : Type := {
  kind : error_kind;
  message : string
}.

(** A dict that is either [{'error': ...}] or the data. *)
Inductive result (A : Type) : Type :=
| Error (error : string)
| Data (data : A).
Arguments Error {A} error.
Arguments Data {A} data.

(** An entry of [transcript.translation_languages]. *)
Record translation_language : Type := {
  tl_language_code : string;
  tl_language : string
}.

(** A transcript of the library's list; [t_translation_languages] is
    missing when reading it raises. *)
Record transcript : Type := {
  t_language : string;
  t_language_code : string;
  t_is_generated : bool;
  t_is_translatable : bool;
  t_translation_languages : option (list translation_language)
}.

Record transcript_info : Type := {
  ti_language : string;
  ti_language_code : string;
  ti_is_generated : bool;
  ti_is_translatable : bool
}.

(** [{'code': ..., 'name': ...}] *)
Record language : Type := {
  code : string;
  name : string
}.

Record availability : Type := {
  manual_captions : list transcript_info;
  auto_generated : list transcript_info;
  translatable_languages : list language;
  total_count : nat
}.

Definition info_of (t : transcript) : transcript_info :=
  {| ti_language := t_language t;
     ti_language_code := t_language_code t;
     ti_is_generated := t_is_generated t;
     ti_is_translatable := t_is_translatable t |}.

Definition language_of (lang : translation_language) : language :=
  {| code := tl_language_code lang; name := tl_language lang |}.

(** The body of [for transcript in transcript_list]. *)
Definition listing_step (available : availability) (transcript : transcript)
    : availability :=
  let transcript_info := info_of transcript in
  let available :=
    if t_is_generated transcript then
      {| manual_captions := manual_captions available;
         auto_generated := auto_generated available ++ [transcript_info];
         translatable_languages := translatable_languages available;
         total_count := total_count available |}
    else
      {| manual_captions := manual_captions available ++ [transcript_info];
         auto_generated := auto_generated available;
         translatable_languages := translatable_languages available;
         total_count := total_count available |} in
  if t_is_translatable transcript then
    match t_translation_languages transcript with
    | Some translatable =>
        {| manual_captions := manual_captions available;
           auto_generated := auto_generated available;
           translatable_languages :=
             translatable_languages available ++ map language_of translatable;
           total_count := total_count available |}
    | None => available
    end
  else available.

Definition listing_loop (transcript_list : list transcript)
    (available : availability) : availability :=
  fold_left listing_step transcript_list available.

Definition in_set (x : string) (s : list string) : bool :=
  existsb (String.eqb x) s.

(** The loop that removes duplicate translatable languages. *)
Fixpoint unique_loop (langs : list language) (seen_codes : list string)
    (unique_translatable : list language) : list language :=
  match langs with
  | [] => unique_translatable
  | lang :: r =>
      if negb (in_set (code lang) seen_codes) then
        unique_loop r (code lang :: seen_codes) (unique_translatable ++ [lang])
      else unique_loop r seen_codes unique_translatable
  end.

(** [get_available_transcripts], from what
    [YouTubeTranscriptApi.list_transcripts] gives or raises. *)
Definition get_available_transcripts
    (list_transcripts : api_error + list transcript) : result availability :=
  match list_transcripts with
  | inr transcript_list =>
      let available :=
        listing_loop transcript_list
          {| manual_captions := [];
             auto_generated := [];
             translatable_languages := [];
             total_count := 0 |} in
      Data {| manual_captions := manual_captions available;
              auto_generated := auto_generated available;
              translatable_languages :=
                unique_loop (translatable_languages available) [] [];
              total_count :=
                List.length (manual_captions available)
                + List.length (auto_generated available) |}
  | inl e =>
      match kind e with
      | TranscriptsDisabled => Error "Transcripts are disabled for this video"
      | NoTranscriptFound => Error "No transcripts found for this video"
      | VideoUnavailable => Error "Video is unavailable"
      | OtherException =>
          Error (String.append "Failed to get transcript list: " (message e))
      end
  end.

(** The translatable languages that the transcripts offer, in order. *)
Definition offered (transcript_list : list transcript) : list language :=
  flat_map
    (fun t =>
       if t_is_translatable t
       then map language_of (get_default (t_translation_languages t) [])
       else [])
    transcript_list.

(** The first language of [langs] with the code [c]. *)
Definition first_with_code (c : string) (langs : list language)
    : option language :=
  find (fun l => String.eqb (code l) c) langs.

Record caption : Type := {
  c_video_id : string;
  c_language_code : string;
  c_transcript_info : option transcript_info;
  c_caption_data : list entry;
  c_processed_text : string;
  c_segments : list segment;
  c_statistics : statistics;
  c_downloaded_at : string
}.

(** What the library and the clock give during one call of
    [download_caption]. *)
Record answer : Type := {
  get_transcript : api_error + list entry;
  list_transcripts : api_error + list transcript;
  now : string
}.

(** The loop that looks for the metadata of the language. *)
Fixpoint find_info (transcript_list : list transcript)
    (language_code : string) : option transcript_info :=
  match transcript_list with
  | [] => None
  | t :: r =>
      if String.eqb (t_language_code t) language_code then Some (info_of t)
      else find_info r language_code
  end.

Section Download.

(** [str(e)] of a Python exception. *)
Variable str : exn -> string.

Definition download_failure (language_code : string) (e : api_error)
    : result caption :=
  match kind e with
  | NoTranscriptFound =>
      Error (String.append "No transcript found for language: " language_code)
  | TranscriptsDisabled => Error "Transcripts are disabled for this video"
  | _ => Error (String.append "Failed to download captions: " (message e))
  end.

(** [download_caption]; the argument [auto_generated] is not read. *)
Definition download_caption (a : answer) (video_id language_code : string)
    (auto_generated : bool) : result caption :=
  match get_transcript a with
  | inl e => download_failure language_code e
  | inr transcript =>
      match list_transcripts a with
      | inl e => download_failure language_code e
      | inr transcript_list =>
          let transcript_info := find_info transcript_list language_code in
          match _process_transcript transcript with
          | Raise e =>
              Error (String.append "Failed to download captions: " (str e))
          | Ok processed_transcript =>
              Data {| c_video_id := video_id;
                      c_language_code := language_code;
                      c_transcript_info := transcript_info;
                      c_caption_data := transcript;
                      c_processed_text := full_text processed_transcript;
                      c_segments := segments processed_transcript;
                      c_statistics := stats processed_transcript;
                      c_downloaded_at := now a |}
          end
      end
  end.

Record download_error : Type := {
  de_language : string;
  de_error : string
}.

Record download_summary : Type := {
  successful : nat;
  failed : nat;
  errors : list download_error
}.

(** [d[key] = value] on a dict kept in insertion order. *)
Fixpoint dict_set {A : Type} (key : string) (value : A)
    (d : list (string * A)) : list (string * A) :=
  match d with
  | [] => [(key, value)]
  | (k, v) :: r =>
      if String.eqb k key then (k, value) :: r
      else (k, v) :: dict_set key value r
  end.

Definition has_key {A : Type} (key : string) (d : list (string * A)) : bool :=
  existsb (fun kv => String.eqb (fst kv) key) d.

Definition keys {A : Type} (d : list (string * A)) : list string := map fst d.

Record all_captions : Type := {
  ac_video_id : string;
  ac_downloaded_at : string;
  available_transcripts : availability;
  captions : list (string * caption);
  summary : download_summary
}.

(** The state of the loops: the captions, the summary and the number of
    calls of [download_caption] made so far. *)
Definition loop_state : Type :=
  (list (string * caption) * download_summary * nat)%type.

(** What the library answers to the call number [n] of [download_caption],
    made for a language code. *)
Variable api : nat -> string -> answer.

Definition record_result (lang_code : string) (result : result caption)
    (st : loop_state) : loop_state :=
  let '(captions, summary, calls) := st in
  match result with
  | Data c =>
      (dict_set lang_code c captions,
       {| successful := S (successful summary);
          failed := failed summary;
          errors := errors summary |},
       S calls)
  | Error e =>
      (captions,
       {| successful := successful summary;
          failed := S (failed summary);
          errors := errors summary
                    ++ [{| de_language := lang_code; de_error := e |}] |},
       S calls)
  end.

Definition calls_of (st : loop_state) : nat := snd st.
Definition captions_of (st : loop_state) : list (string * caption) :=
  fst (fst st).
Definition summary_of (st : loop_state) : download_summary := snd (fst st).

Fixpoint manual_loop (video_id : string) (infos : list transcript_info)
    (st : loop_state) : loop_state :=
  match infos with
  | [] => st
  | transcript_info :: r =>
      let lang_code := ti_language_code transcript_info in
      let result :=
        download_caption (api (calls_of st) lang_code) video_id lang_code
          false in
      manual_loop video_id r (record_result lang_code result st)
  end.

Fixpoint auto_loop (video_id : string) (infos : list transcript_info)
    (st : loop_state) : loop_state :=
  match infos with
  | [] => st
  | transcript_info :: r =>
      let lang_code := ti_language_code transcript_info in
      if has_key lang_code (captions_of st) then auto_loop video_id r st
      else
        let result :=
          download_caption (api (calls_of st) lang_code) video_id lang_code
            true in
        auto_loop video_id r (record_result lang_code result st)
  end.

(** [download_all_captions]; [listing] is what [list_transcripts] gives to
    [get_available_transcripts], [downloaded_at] the time of the call. *)
Definition download_all_captions (listing : api_error + list transcript)
    (downloaded_at : string) (video_id : string)
    (include_auto_generated : bool) : result all_captions :=
  match get_available_transcripts listing with
  | Error e => Error e
  | Data available =>
      let st :=
        ([], {| successful := 0; failed := 0; errors := [] |}, 0) in
      let st := manual_loop video_id (manual_captions available) st in
      let st :=
        if include_auto_generated
        then auto_loop video_id (auto_generated available) st
        else st in
      Data {| ac_video_id := video_id;
              ac_downloaded_at := downloaded_at;
              available_transcripts := available;
              captions := captions_of st;
              summary := summary_of st |}
  end.

End Download.

(** What the loops keep: the failures are the recorded errors, the
    languages of the captions are distinct and no more than the successes,
    and the calls made are the successes and the failures. *)
Definition kept (st : loop_state) : Prop :=
  failed (summary_of st) = List.length (errors (summary_of st))
  /\ NoDup (keys (captions_of st))
  /\ List.length (captions_of st) <= successful (summary_of st)
  /\ successful (summary_of st) + failed (summary_of st) = calls_of st.

(** One more download: the state after it, from the state before. *)
Definition follows (lang_code : string) (st st' : loop_state) : Prop :=
  calls_of st' = S (calls_of st)
  /\ (forall k, In k (keys (captions_of st')) ->
        In k (keys (captions_of st)) \/ k = lang_code)
  /\ (forall k, In k (keys (captions_of st)) -> In k (keys (captions_of st')))
  /\ (forall k, In k (map de_language (errors (summary_of st))) ->
        In k (map de_language (errors (summary_of st'))))
  /\ (In lang_code (keys (captions_of st'))
      \/ In lang_code (map de_language (errors (summary_of st'))))
  /\ (~ In lang_code (keys (captions_of st)) ->
      List.length (captions_of st) = successful (summary_of st) ->
      List.length (captions_of st') = successful (summary_of st')).

(** The result of a loop over [infos] from the state [st]. *)
Definition looped (all : bool) (infos : list transcript_info)
    (st st' : loop_state) : Prop :=
  kept st'
  /\ calls_of st <= calls_of st' <= calls_of st + List.length infos
  /\ (all = true -> calls_of st' = calls_of st + List.length infos)
  /\ (forall k, In k (keys (captions_of st')) ->
        In k (keys (captions_of st)) \/ In k (map ti_language_code infos))
  /\ (forall k, In k (keys (captions_of st)) -> In k (keys (captions_of st')))
  /\ (forall k, In k (map de_language (errors (summary_of st))) ->
        In k (map de_language (errors (summary_of st'))))
  /\ (forall k, In k (map ti_language_code infos) ->
        In k (keys (captions_of st'))
        \/ In k (map de_language (errors (summary_of st')))).

(** Two manual transcripts of one language, and an automatic one. *)
Definition spoken : entry :=
  {| e_start := Some 0%Q; e_duration := Some (2 # 1)%Q;
     e_text := Some "hello containers" |}.

Definition manual_english : transcript :=
  {| t_language := "English"; t_language_code := "en";
     t_is_generated := false; t_is_translatable := true;
     t_translation_languages :=
       Some [{| tl_language_code := "de"; tl_language := "German" |};
             {| tl_language_code := "fr"; tl_language := "French" |}] |}.

Definition manual_british : transcript :=
  {| t_language := "English (United Kingdom)"; t_language_code := "en";
     t_is_generated := false; t_is_translatable := true;
     t_translation_languages :=
       Some [{| tl_language_code := "fr"; tl_language := "Francais" |};
             {| tl_language_code := "es"; tl_language := "Spanish" |}] |}.

Definition automatic_spanish : transcript :=
  {| t_language := "Spanish (auto-generated)"; t_language_code := "es";
     t_is_generated := true; t_is_translatable := false;
     t_translation_languages := None |}.

Definition str_sample (e : exn) : string := "error".

(** A library that has every transcript but the Spanish one. *)
Definition api_sample (listing : list transcript) (n : nat)
    (language_code : string) : answer :=
  {| get_transcript :=
       if String.eqb language_code "es"
       then inl {| kind := NoTranscriptFound; message := "not found" |}
       else inr [spoken];
     list_transcripts := inr listing;
     now := "2024-01-15T10:30:00" |}.

End Transcripts.

(* ================================================================== *)
(** * Properties *)

(* ------------------------------------------------------------------ *)
(** ** Numbers and lists *)

Lemma truediv_nonzero (a b : Z) :
  b <> 0%Z -> truediv a b = Ok (Qred (Qdiv (inject_Z a) (inject_Z b))).
Proof.
  intros Hb. unfold truediv.
  destruct (Z.eqb_spec b 0) as [E | _]; [contradiction | reflexivity].
Qed.

Lemma truediv_self (n : Z) : n <> 0%Z -> truediv n n = Ok 1%Q.
Proof.
  intros Hn. rewrite truediv_nonzero by assumption. f_equal.
  change 1%Q with (Qred 1%Q). apply Qred_complete.
  apply Qmult_inv_r. unfold Qeq. simpl. lia.
Qed.

Lemma Qgt_bool_true (a b : Q) : Qgt_bool a b = true <-> (b < a)%Q.
Proof.
  unfold Qgt_bool. rewrite negb_true_iff.
  split; intros H.
  - apply Qnot_le_lt. intros Hle. apply Qle_bool_iff in Hle. congruence.
  - destruct (Qle_bool a b) eqn:E; [ | reflexivity].
    apply Qle_bool_iff in E. exfalso. exact (Qlt_not_le _ _ H E).
Qed.

Lemma truediv_q_nonzero (a b : Q) :
  ~ (b == 0)%Q -> truediv_q a b = Ok (Qred (Qdiv a b)).
Proof.
  intros Hb. unfold truediv_q.
  destruct (Qeq_bool b 0) eqn:E; [ | reflexivity].
  apply Qeq_bool_iff in E. contradiction.
Qed.

Lemma insert_desc_length {A : Type} (gtb : A -> A -> bool) (x : A) (l : list A) :
  List.length (insert_desc gtb x l) = S (List.length l).
Proof.
  induction l as [ | y r IH]; simpl; [reflexivity | ].
  destruct (gtb y x); simpl; [rewrite IH | ]; reflexivity.
Qed.

Lemma sort_desc_length {A : Type} (gtb : A -> A -> bool) (l : list A) :
  List.length (sort_desc gtb l) = List.length l.
Proof.
  induction l as [ | x r IH]; simpl; [reflexivity | ].
  rewrite insert_desc_length, IH. reflexivity.
Qed.

Lemma insert_desc_In {A : Type} (gtb : A -> A -> bool) (x y : A) (l : list A) :
  In y (insert_desc gtb x l) <-> y = x \/ In y l.
Proof.
  induction l as [ | z r IH]; simpl.
  - intuition congruence.
  - destruct (gtb z x); simpl; rewrite ?IH; intuition congruence.
Qed.

Lemma sort_desc_In {A : Type} (gtb : A -> A -> bool) (y : A) (l : list A) :
  In y (sort_desc gtb l) <-> In y l.
Proof.
  induction l as [ | x r IH]; simpl; [tauto | ].
  rewrite insert_desc_In, IH. intuition congruence.
Qed.

Lemma take_In {A : Type} (n : nat) (y : A) (l : list A) :
  In y (take n l) -> In y l.
Proof.
  unfold take. revert l.
  induction n as [ | n IH]; intros [ | x r]; simpl; try tauto.
  intros [H | H]; [left; exact H | right; exact (IH _ H)].
Qed.

Lemma take_length_le {A : Type} (n : nat) (l : list A) :
  List.length (take n l) <= n.
Proof. unfold take. apply firstn_le_length. Qed.

(* ------------------------------------------------------------------ *)
(** ** Caption processing *)

Module CaptionFacts.
Import PyStr YouTubeCaptionDownloader.

Lemma words_per_minute_ok (total_duration : Q) (total_words : nat) :
  exists q,
    (if Qgt_bool total_duration 0%Q then
       per_minute <- truediv_q total_duration (inject_Z 60) ;;
       truediv_q (inject_Z (Z.of_nat total_words)) per_minute
     else Ok 0%Q) = Ok q.
Proof.
  destruct (Qgt_bool total_duration 0) eqn:E; [ | eexists; reflexivity].
  apply Qgt_bool_true in E.
  rewrite truediv_q_nonzero by (intros H; discriminate H).
  cbn [bind]. rewrite truediv_q_nonzero; [eexists; reflexivity | ].
  rewrite Qred_correct. intros H.
  assert (Hpos : (0 < total_duration / inject_Z 60)%Q).
  { apply Qlt_shift_div_l; [reflexivity | ]. rewrite Qmult_0_l. exact E. }
  rewrite H in Hpos. exact (Qlt_irrefl _ Hpos).
Qed.

Lemma collect_segments_original (t : list entry) :
  map seg_original_text (collect_segments t) = filter nonempty (map raw_text t).
Proof.
  induction t as [ | e r IH]; simpl; [reflexivity | ].
  unfold segment_of_entry. fold (raw_text e).
  destruct (nonempty (raw_text e)); simpl; rewrite IH; reflexivity.
Qed.

Lemma collect_segments_fields (t : list entry) :
  Forall (fun s => seg_text s = _clean_caption_text (seg_original_text s)
                   /\ seg_end s = Qred (Qplus (seg_start s) (seg_duration s))
                   /\ seg_timestamp s = _seconds_to_timestamp (seg_start s))
         (collect_segments t).
Proof.
  induction t as [ | e r IH]; simpl; [constructor | ].
  unfold segment_of_entry.
  destruct (nonempty (strip (get_default (e_text e) EmptyString)));
    [constructor; [simpl; auto | exact IH] | exact IH].
Qed.

(** [_process_transcript] never raises, and what it returns. *)
Lemma process_transcript_ok (t : list entry) :
  exists p,
    _process_transcript t = Ok p
    /\ segments p = collect_segments t
    /\ full_text p = join " " (map seg_text (collect_segments t))
    /\ average_segment_length (stats p)
       = match collect_segments t with [] => 0%Q | _ :: _ => 1%Q end
    /\ total_segments (stats p) = List.length (collect_segments t).
Proof.
  destruct t as [ | e r].
  - eexists. split; [reflexivity | ]. simpl. auto.
  - unfold _process_transcript.
    remember (collect_segments (e :: r)) as segs eqn:Hsegs.
    destruct segs as [ | s l].
    + cbn [bind map]. eexists. split; [reflexivity | ]. simpl. auto.
    + set (td := py_max (map seg_end (s :: l))).
      cbn [py_max map] in td. subst td. cbn [bind].
      match goal with
      | |- context [ bind (if Qgt_bool ?d 0%Q then _ else _) ] =>
          destruct (words_per_minute_ok d
                      (if nonempty (join " " (map seg_text (s :: l)))
                       then List.length (split (join " " (map seg_text (s :: l))))
                       else 0)) as [q Hq]
      end.
      rewrite Hq. cbn [bind].
      rewrite truediv_self by (cbn [List.length]; lia).
      cbn [bind]. eexists. split; [reflexivity | ]. simpl. auto.
Qed.


(** What the guard of [_process_transcript] tests: a segment is made for
    the entries whose raw text, stripped of surrounding white space, is not
    empty, and its text is the cleaned text. *)
Lemma segment_for_each_nonblank_entry (t : list entry) :
  exists p,
    _process_transcript t = Ok p
    /\ map seg_original_text (segments p) = filter nonempty (map raw_text t)
    /\ Forall (fun s => seg_text s = _clean_caption_text (seg_original_text s))
              (segments p).
Proof.
  destruct (process_transcript_ok t) as [p (Hp & Hs & _)].
  exists p. split; [exact Hp | ]. rewrite Hs.
  split; [apply collect_segments_original | ].
  eapply Forall_impl; [ | apply collect_segments_fields].
  intros s (H & _). exact H.
Qed.

(** C1, at the failing input.  On the scenario of the specification the
    entry ["[Music]"] cleans to the empty text, and the claim has it
    dropped and one segment made.  [_process_transcript] tests [if text:]
    on the stripped raw text, before the text is cleaned, so the entry
    gets a segment whose text is empty: the result has two segments, with
    2 words in total and a total duration of 5. *)
Theorem annotation_entry_yields_empty_segment :
  map cleaned_text scenario = [EmptyString; "hello world"]
  /\ exists p,
       _process_transcript scenario = Ok p
       /\ map seg_original_text (segments p) = ["[Music]"; "hello world"]
       /\ map seg_text (segments p) = [EmptyString; "hello world"]
       /\ total_segments (stats p) = 2
       /\ total_words (stats p) = Some 2
       /\ total_duration (stats p) = (5 # 1)%Q.
Proof.
  split; [vm_compute; reflexivity | ].
  eexists. split; [vm_compute; reflexivity | ].
  vm_compute. repeat split.
Qed.

End CaptionFacts.

(* ------------------------------------------------------------------ *)
(** ** Questions *)

Module QuestionFacts.
Import PyStr.

Lemma lower_char_mark (c : ascii) :
  (lower_char c =? "?")%char = (c =? "?")%char.
Proof.
  destruct c as [[ | ] [ | ] [ | ] [ | ] [ | ] [ | ] [ | ] [ | ]]; reflexivity.
Qed.

Lemma prefix_char (a c : ascii) (r : string) :
  prefix (String a EmptyString) (String c r) = (c =? a)%char.
Proof.
  cbn [prefix]. destruct (ascii_dec a c) as [E | E].
  - subst. rewrite Ascii.eqb_refl. destruct r; reflexivity.
  - symmetry. apply Ascii.eqb_neq. congruence.
Qed.

Lemma contains_mark_lower (s : string) :
  contains "?" (lower s) = contains "?" s.
Proof.
  induction s as [ | c r IH]; [reflexivity | ].
  cbn [lower contains]. rewrite !prefix_char, IH, lower_char_mark.
  reflexivity.
Qed.

(** In both extractors the list of indicators holds the question mark
    itself, so the test on the indicators adds nothing: a comment is taken
    as a question as soon as its text has a question mark. *)
Lemma is_question_mark_only (c : comment) :
  CommentAnalyzer.is_question c = contains "?" (strip (text c))
  /\ AnalyzeComments.is_question c = contains "?" (strip (text c)).
Proof.
  unfold CommentAnalyzer.is_question, AnalyzeComments.is_question.
  destruct (contains "?" (strip (text c))) eqn:E; [ | split; reflexivity].
  rewrite <- contains_mark_lower in E.
  unfold any_in, CommentAnalyzer.question_indicators,
    AnalyzeComments.question_indicators.
  cbn [existsb]. rewrite E. split; reflexivity.
Qed.

(** C2, at the failing input.  The comment ["really?"] has a question mark
    and none of the indicator words, and both extractors return it as a
    question. *)
Theorem mark_without_indicator_word_is_returned :
  let c := Sample.mk "really?" 1 in
  any_in Sample.indicator_words (lower (strip (text c))) = false
  /\ CommentAnalyzer.find_questions [c] 10
     = [ {| CommentAnalyzer.q_text := "really?";
            CommentAnalyzer.q_author := "viewer";
            CommentAnalyzer.q_likes := 1;
            CommentAnalyzer.q_is_reply := false |} ]
  /\ AnalyzeComments.extract_questions [c]
     = [ {| AnalyzeComments.q_question := "really?";
            AnalyzeComments.q_author := "viewer";
            AnalyzeComments.q_likes := 1 |} ].
Proof. repeat split. Qed.

(** The question scenario of the specification: exactly the first record
    is returned. *)
Example question_scenario_result :
  map CommentAnalyzer.q_text
      (CommentAnalyzer.find_questions Sample.question_scenario 10)
  = [ "how do I install this?" ]
  /\ map AnalyzeComments.q_question
         (AnalyzeComments.extract_questions Sample.question_scenario)
     = [ "how do I install this?" ].
Proof. split; reflexivity. Qed.

(** C7, at the failing input.  A comment whose text is a question of 201
    characters, without white space around it: the claim has the stored
    text equal to that text.  [find_questions] stores the first 200
    characters followed by an ellipsis, 203 characters that are not the
    text of the comment, where [extract_questions] stores the text whole
    and shortens the printed copy only. *)
Theorem long_question_stored_truncated :
  let c := Sample.mk Sample.long_question 1 in
  String.length (text c) = 201
  /\ strip (text c) = text c
  /\ map CommentAnalyzer.q_text (CommentAnalyzer.find_questions [c] 10)
     = [ String.append (slice_to 200 (text c)) "..." ]
  /\ map (fun q => String.length (CommentAnalyzer.q_text q))
         (CommentAnalyzer.find_questions [c] 10) = [ 203 ]
  /\ map AnalyzeComments.q_question (AnalyzeComments.extract_questions [c])
     = [ text c ]
  /\ AnalyzeComments.printed_questions [c]
     = [ String.append (slice_to 100 (text c)) "..." ].
Proof.
  cbv zeta. split; [reflexivity | ].
  split; [vm_compute; reflexivity | ].
  split; [vm_compute; reflexivity | ].
  split; [vm_compute; reflexivity | ].
  split; vm_compute; reflexivity.
Qed.

End QuestionFacts.

(* ------------------------------------------------------------------ *)
(** ** Engagement statistics *)

Module StatsFacts.
Import PyStr.

Lemma quotient_zero_iff (a b : Z) :
  b <> 0%Z -> (Qred (Qdiv (inject_Z a) (inject_Z b)) == 0)%Q <-> a = 0%Z.
Proof.
  intros Hb. rewrite Qred_correct.
  assert (Hb' : ~ (inject_Z b == 0)%Q) by (unfold Qeq; simpl; lia).
  split; intros H.
  - assert (E : (inject_Z a == 0)%Q).
    { apply Qeq_trans with (Qmult (inject_Z b) (Qdiv (inject_Z a) (inject_Z b))).
      - apply Qeq_sym. apply Qmult_div_r. exact Hb'.
      - apply Qeq_trans with (Qmult (inject_Z b) 0).
        + apply Qmult_comp; [apply Qeq_refl | exact H].
        + apply Qmult_0_r. }
    unfold Qeq in E. simpl in E. lia.
  - subst a. unfold Qdiv. apply Qmult_0_l.
Qed.

Lemma get_basic_stats_ok (c : comment) (r : list comment) :
  exists b,
    CommentAnalyzer.get_basic_stats (c :: r) = Ok (Some b)
    /\ CommentAnalyzer.avg_likes b
       = Qred (Qdiv (inject_Z (sum_Z (map like_count (c :: r))))
                    (inject_Z (Z.of_nat (List.length (c :: r))))).
Proof.
  unfold CommentAnalyzer.get_basic_stats.
  rewrite truediv_nonzero by (cbn [List.length]; lia). cbn [bind].
  rewrite truediv_nonzero by (rewrite length_map; cbn [List.length]; lia).
  cbn [bind].
  replace (0 <? List.length (c :: r)) with true by reflexivity.
  rewrite truediv_nonzero by (cbn [List.length]; lia). cbn [bind].
  eexists. split; reflexivity.
Qed.

Lemma basic_statistics_mean (c : comment) (r : list comment) :
  exists st,
    AnalyzeComments.basic_statistics (c :: r) = Ok st
    /\ AnalyzeComments.avg_likes st
       = Qred (Qdiv (inject_Z (sum_Z (map like_count (c :: r))))
                    (inject_Z (Z.of_nat (List.length (c :: r))))).
Proof.
  unfold AnalyzeComments.basic_statistics.
  replace (0 <? List.length (c :: r)) with true by reflexivity.
  rewrite truediv_nonzero by (cbn [List.length]; lia). cbn [bind].
  eexists. split; reflexivity.
Qed.

(** C3, as the specification states it, fails: the mean of a collection of
    one comment without likes is 0, and the collection is not empty. *)
Lemma mean_zero_on_unliked :
  ~ (forall st,
       AnalyzeComments.basic_statistics Sample.unliked = Ok st ->
       ((AnalyzeComments.avg_likes st == 0)%Q <-> Sample.unliked = [])).
Proof.
  intros H.
  destruct (H _ eq_refl) as [H1 _].
  assert (E : Sample.unliked = []) by (apply H1; reflexivity).
  discriminate E.
Qed.

(** C3, amended.  On the empty collection the scorer does not raise:
    [basic_statistics] reports zeros and no authors, and [get_basic_stats]
    the empty mapping.  Whenever the scorer returns statistics for a
    collection, their mean like count is 0 exactly when the like counts of
    the collection sum to 0. *)
Theorem mean_zero_iff_no_likes (comments : list comment) :
  AnalyzeComments.basic_statistics [] = Ok Sample.no_statistics
  /\ CommentAnalyzer.get_basic_stats [] = Ok None
  /\ (forall st,
        AnalyzeComments.basic_statistics comments = Ok st ->
        ((AnalyzeComments.avg_likes st == 0)%Q
         <-> sum_Z (map like_count comments) = 0%Z))
  /\ (forall b,
        CommentAnalyzer.get_basic_stats comments = Ok (Some b) ->
        ((CommentAnalyzer.avg_likes b == 0)%Q
         <-> sum_Z (map like_count comments) = 0%Z)).
Proof.
  split; [reflexivity | ]. split; [reflexivity | ].
  destruct comments as [ | c r].
  - split.
    + intros st H. injection H as <-. cbn. split; reflexivity.
    + intros b H. discriminate H.
  - split.
    + intros st H. destruct (basic_statistics_mean c r) as [st' [Hs Havg]].
      rewrite Hs in H. injection H as <-. rewrite Havg.
      apply quotient_zero_iff. cbn [List.length]. lia.
    + intros b H. destruct (get_basic_stats_ok c r) as [b' [Hb Havg]].
      rewrite Hb in H. injection H as <-. rewrite Havg.
      apply quotient_zero_iff. cbn [List.length]. lia.
Qed.

Lemma mean_zero_iff_no_likes_witness :
  exists st,
    AnalyzeComments.basic_statistics Sample.unliked = Ok st
    /\ sum_Z (map like_count Sample.unliked) = 0%Z
    /\ (AnalyzeComments.avg_likes st == 0)%Q.
Proof.
  eexists. split; [reflexivity | ]. split; [reflexivity | ].
  destruct (mean_zero_iff_no_likes Sample.unliked) as (_ & _ & H & _).
  apply (H _ eq_refl). reflexivity.
Defined.

End StatsFacts.

(* ------------------------------------------------------------------ *)
(** ** Keywords *)

Module KeywordFacts.
Import PyStr.

Lemma insert_desc_counts (x : string * nat) (l : list (string * nat)) :
  non_increasing l ->
  non_increasing (insert_desc (fun y x => snd x <? snd y) x l).
Proof.
  unfold non_increasing.
  induction 1 as [ | y r Hr IH Hy]; cbn [insert_desc].
  - constructor; constructor.
  - destruct (Nat.ltb_spec (snd x) (snd y)) as [Hlt | Hge].
    + constructor; [exact IH | ].
      apply Forall_forall. intros z Hz.
      apply insert_desc_In in Hz. destruct Hz as [-> | Hz]; [lia | ].
      rewrite Forall_forall in Hy. exact (Hy z Hz).
    + constructor; [constructor; assumption | ].
      constructor; [exact Hge | ].
      eapply Forall_impl; [ | exact Hy].
      cbn. intros z Hz. lia.
Qed.

Lemma sort_desc_counts (l : list (string * nat)) :
  non_increasing (sort_desc (fun y x => snd x <? snd y) l).
Proof.
  induction l as [ | x r IH]; cbn [sort_desc];
    [constructor | apply insert_desc_counts; exact IH].
Qed.

Lemma take_counts (n : nat) (l : list (string * nat)) :
  non_increasing l -> non_increasing (take n l).
Proof.
  unfold take, non_increasing. intros H. revert n.
  induction H as [ | y r Hr IH Hy]; intros [ | n]; cbn [firstn];
    try constructor.
  - apply IH.
  - apply Forall_forall. intros z Hz. apply (take_In n) in Hz.
    rewrite Forall_forall in Hy. exact (Hy z Hz).
Qed.

Lemma counter_incr_keys (k k' : string) (n : nat) (c : list (string * nat)) :
  In (k', n) (counter_incr String.eqb k c) ->
  k' = k \/ exists m, In (k', m) c.
Proof.
  induction c as [ | [j m] r IH]; cbn [counter_incr].
  - intros [E | []]. left. congruence.
  - destruct (String.eqb_spec j k) as [E | E].
    + intros [H | H].
      * left. congruence.
      * right. exists n. right. exact H.
    + intros [H | H].
      * right. exists m. left. congruence.
      * destruct (IH H) as [G | [m' G]]; [left; exact G | ].
        right. exists m'. right. exact G.
Qed.

Lemma counter_keys (l : list string) (k : string) (n : nat) :
  In (k, n) (Counter String.eqb l) -> In k l.
Proof.
  unfold Counter.
  assert (G : forall c,
             In (k, n) (fold_left (fun c k => counter_incr String.eqb k c) l c) ->
             In k l \/ exists m, In (k, m) c).
  { induction l as [ | x r IH]; intros c H; cbn [fold_left] in H.
    - right. exists n. exact H.
    - destruct (IH _ H) as [G | [m G]]; [left; right; exact G | ].
      destruct (counter_incr_keys _ _ _ _ G) as [E | E].
      + left. left. congruence.
      + right. exact E. }
  intros H. destruct (G [] H) as [Hin | [m []]]. exact Hin.
Qed.

(** What holds of [extract_keywords] on every input: at most [top_n] pairs,
    counts that never increase, and only tokens that are longer than the
    minimum length and are no stop words. *)
Lemma extract_keywords_shape (comments : list comment)
    (min_word_length top_n : nat) :
  List.length (CommentAnalyzer.extract_keywords comments min_word_length top_n)
  <= top_n
  /\ non_increasing
       (CommentAnalyzer.extract_keywords comments min_word_length top_n)
  /\ (forall w n,
        In (w, n) (CommentAnalyzer.extract_keywords comments min_word_length top_n) ->
        min_word_length < String.length w
        /\ CommentAnalyzer.mem w CommentAnalyzer.stop_words = false).
Proof.
  unfold CommentAnalyzer.extract_keywords, most_common.
  split; [apply take_length_le | ].
  split; [apply take_counts, sort_desc_counts | ].
  intros w n H.
  apply take_In in H. apply sort_desc_In in H. apply counter_keys in H.
  apply filter_In in H. destruct H as [_ H].
  apply andb_true_iff in H. destruct H as [Hs Hl].
  split; [apply Nat.ltb_lt; exact Hl | apply negb_true_iff; exact Hs].
Qed.

(** C5, at the failing input.  The token ["helm"] is a run of four word
    characters and no stop word; [extract_keywords] with the default
    minimum length 4 finds it and then drops it, because its filter keeps
    the tokens longer than the minimum only; [sentiment_keywords] counts
    it. *)
Theorem token_of_minimum_length_dropped :
  let comments := [ Sample.mk "Helm" 1 ] in
  Re.findall_words 4 (lower "Helm") = [ "helm" ]
  /\ CommentAnalyzer.mem "helm" CommentAnalyzer.stop_words = false
  /\ CommentAnalyzer.extract_keywords comments 4 15 = []
  /\ AnalyzeComments.sentiment_keywords comments = [ ("helm", 1) ].
Proof. repeat split. Qed.

End KeywordFacts.

(* ------------------------------------------------------------------ *)
(** ** Audience level *)

Module AudienceFacts.
Import PyStr CommentAnalyzer AudienceSpec.

Lemma count_comment_classify (lv : levels nat) (c : comment) :
  count_comment lv c
  = {| beginner := beginner lv + (if is_tier Beginner c then 1 else 0);
       intermediate := intermediate lv + (if is_tier Intermediate c then 1 else 0);
       advanced := advanced lv + (if is_tier Advanced c then 1 else 0) |}.
Proof.
  unfold count_comment, is_tier, classify.
  destruct (any_in beginner_indicators (lower (text c)));
    [ | destruct (any_in advanced_indicators (lower (text c)));
        [ | destruct (any_in intermediate_indicators (lower (text c))) ] ];
    destruct lv as [b i a]; cbn [beginner intermediate advanced];
    f_equal; lia.
Qed.

Lemma fold_count_comment (comments : list comment) (lv : levels nat) :
  fold_left count_comment comments lv
  = {| beginner := beginner lv + count_tier Beginner comments;
       intermediate := intermediate lv + count_tier Intermediate comments;
       advanced := advanced lv + count_tier Advanced comments |}.
Proof.
  revert lv. induction comments as [ | c r IH]; intros lv.
  - destruct lv as [b i a]. unfold count_tier. simpl. f_equal; lia.
  - cbn [fold_left]. rewrite IH, count_comment_classify.
    cbn [beginner intermediate advanced]. unfold count_tier. cbn [filter].
    destruct (is_tier Beginner c), (is_tier Intermediate c), (is_tier Advanced c);
      cbn [List.length]; f_equal; lia.
Qed.

Lemma count_levels_tiers (comments : list comment) :
  count_levels comments
  = {| beginner := count_tier Beginner comments;
       intermediate := count_tier Intermediate comments;
       advanced := count_tier Advanced comments |}.
Proof. unfold count_levels. rewrite fold_count_comment. reflexivity. Qed.

Lemma percentage_ok (v total : nat) :
  total <> 0 ->
  exists q, percentage v total = Ok q
    /\ (q == inject_Z (Z.of_nat v) / inject_Z (Z.of_nat total) * inject_Z 100)%Q.
Proof.
  intros Ht. unfold percentage.
  rewrite truediv_nonzero by lia. cbn [bind].
  eexists. split; [reflexivity | ].
  rewrite !Qred_correct. reflexivity.
Qed.

Lemma percentages_sum (b i a : nat) :
  b + i + a <> 0 ->
  (inject_Z (Z.of_nat b) / inject_Z (Z.of_nat (b + i + a)) * inject_Z 100
   + inject_Z (Z.of_nat i) / inject_Z (Z.of_nat (b + i + a)) * inject_Z 100
   + inject_Z (Z.of_nat a) / inject_Z (Z.of_nat (b + i + a)) * inject_Z 100
   == inject_Z 100)%Q.
Proof.
  intros Ht.
  rewrite !Nat2Z.inj_add, !inject_Z_plus.
  assert (Hne : ~ (inject_Z (Z.of_nat b) + inject_Z (Z.of_nat i)
                   + inject_Z (Z.of_nat a) == 0)%Q).
  { rewrite <- !inject_Z_plus. unfold Qeq. simpl. lia. }
  field. exact Hne.
Qed.

(** C4, as the specification states it, fails on the empty collection: no
    record is classified, and the mapping returned has no dominant level. *)
Lemma no_dominant_level_on_empty :
  ~ (forall a,
       analyze_audience_level [] = Ok a ->
       classified [] = 0 -> dominant_level a = Some "intermediate").
Proof.
  intros H. specialize (H _ eq_refl eq_refl). discriminate H.
Qed.

(** C4, amended.  On a collection that is not empty, the counters are the
    numbers of records of each tier, a record being of one tier at most and
    a record with a beginner indicator being a beginner record whatever
    else it matches; when no record is classified the dominant level is
    ["intermediate"], and otherwise the three percentages sum to 100. *)
Theorem audience_level_distribution (comments : list comment) :
  comments <> [] ->
  count_levels comments
  = {| beginner := count_tier Beginner comments;
       intermediate := count_tier Intermediate comments;
       advanced := count_tier Advanced comments |}
  /\ (forall c, any_in beginner_indicators (lower (text c)) = true ->
                classify c = Some Beginner)
  /\ exists a,
       analyze_audience_level comments = Ok a
       /\ if classified comments =? 0 then
            dominant_level a = Some "intermediate"
          else
            total_classified a = Some (classified comments)
            /\ exists d,
                 distribution a = Some d
                 /\ (beginner d + intermediate d + advanced d == inject_Z 100)%Q.
Proof.
  intros Hne.
  split; [apply count_levels_tiers | ].
  split; [intros c Hc; unfold classify; rewrite Hc; reflexivity | ].
  destruct comments as [ | c r]; [contradiction | ].
  unfold analyze_audience_level.
  rewrite count_levels_tiers. cbn [beginner intermediate advanced].
  fold (classified (c :: r)).
  destruct (Nat.eqb_spec (classified (c :: r)) 0) as [E | E].
  - eexists. split; reflexivity.
  - destruct (percentage_ok (count_tier Beginner (c :: r)) _ E) as [pb [Hb Eb]].
    destruct (percentage_ok (count_tier Intermediate (c :: r)) _ E) as [pi [Hi Ei]].
    destruct (percentage_ok (count_tier Advanced (c :: r)) _ E) as [pa [Ha Ea]].
    rewrite Hb, Hi, Ha. cbn [bind].
    eexists. split; [reflexivity | ].
    cbn [total_classified distribution]. split; [reflexivity | ].
    eexists. split; [reflexivity | ].
    cbn [beginner intermediate advanced].
    rewrite Eb, Ei, Ea. unfold classified in *.
    apply percentages_sum. exact E.
Qed.

Lemma audience_level_distribution_witness :
  classify (Sample.mk "A simple question about architecture" 2) = Some Beginner
  /\ exists a,
       analyze_audience_level mixed = Ok a
       /\ total_classified a = Some 2.
Proof.
  destruct (audience_level_distribution mixed) as (_ & Hb & a & Ha & Hd).
  - discriminate.
  - split; [apply Hb; reflexivity | ].
    exists a. split; [exact Ha | ].
    change (classified mixed =? 0) with false in Hd.
    destruct Hd as [Ht _]. exact Ht.
Defined.

End AudienceFacts.

(* ------------------------------------------------------------------ *)
(** ** Peak hours *)

Module EngagementFacts.
Import PyStr EngagementSpec.

Section Hours.
Variable fromisoformat : string -> option datetime.

(** One turn of the loop: a timestamp that is missing or does not parse
    leaves the counter as it is; a timestamp that is not a string raises an
    [AttributeError], which the [except] clause does not catch. *)
Lemma analyzer_step (c : comment) (hourly : list (nat * nat)) :
  try_except
    (dt <- CommentAnalyzer.parse_published fromisoformat c ;;
     Ok (counter_incr Nat.eqb (hour dt) hourly))
    (Ok hourly)
  = if textual c
    then Ok (fold_left (fun acc k => counter_incr Nat.eqb k acc)
               (match hour_of fromisoformat c with Some h => [h] | None => [] end)
               hourly)
    else Raise AttributeError.
Proof.
  unfold CommentAnalyzer.parse_published, hour_of, textual.
  destruct (published_at c) as [[published | ] | ]; try reflexivity.
  cbn [getitem bind replace_method].
  destruct (fromisoformat (replace_char "Z" "+00:00" published)); reflexivity.
Qed.

Lemma analyzer_hourly_loop (comments : list comment) (hourly : list (nat * nat)) :
  CommentAnalyzer.hourly_loop fromisoformat comments hourly
  = if forallb textual comments
    then Ok (fold_left (fun acc k => counter_incr Nat.eqb k acc)
               (parsed_hours fromisoformat comments) hourly)
    else Raise AttributeError.
Proof.
  revert hourly. induction comments as [ | c r IH]; intros hourly.
  - reflexivity.
  - cbn [CommentAnalyzer.hourly_loop forallb]. rewrite analyzer_step.
    destruct (textual c); cbn [bind andb]; [ | reflexivity].
    rewrite IH. destruct (forallb textual r); [ | reflexivity].
    unfold parsed_hours. cbn [flat_map].
    rewrite fold_left_app. reflexivity.
Qed.

Lemma script_hourly_loop (comments : list comment) (hourly : list (nat * nat)) :
  AnalyzeComments.hourly_loop fromisoformat comments hourly
  = if forallb textual comments
    then Ok (fold_left (fun acc k => counter_incr Nat.eqb k acc)
               (parsed_hours fromisoformat comments) hourly)
    else Raise AttributeError.
Proof.
  revert hourly. induction comments as [ | c r IH]; intros hourly.
  - reflexivity.
  - cbn [AnalyzeComments.hourly_loop forallb].
    change (AnalyzeComments.parse_published fromisoformat c)
      with (CommentAnalyzer.parse_published fromisoformat c).
    rewrite analyzer_step.
    destruct (textual c); cbn [bind andb]; [ | reflexivity].
    rewrite IH. destruct (forallb textual r); [ | reflexivity].
    unfold parsed_hours. cbn [flat_map].
    rewrite fold_left_app. reflexivity.
Qed.

End Hours.

Lemma counter_get_incr (k h : nat) (c : list (nat * nat)) :
  counter_get Nat.eqb h (counter_incr Nat.eqb k c)
  = counter_get Nat.eqb h c + (if k =? h then 1 else 0).
Proof.
  induction c as [ | [k' n] r IH]; cbn [counter_incr counter_get].
  - destruct (k =? h); reflexivity.
  - destruct (Nat.eqb_spec k' k) as [E | E]; cbn [counter_get].
    + subst k'. destruct (k =? h); lia.
    + destruct (Nat.eqb_spec k' h) as [F | F].
      * subst k'. destruct (Nat.eqb_spec k h); [congruence | lia].
      * exact IH.
Qed.

Lemma counter_get_fold (h : nat) (l : list nat) (c : list (nat * nat)) :
  counter_get Nat.eqb h (fold_left (fun acc k => counter_incr Nat.eqb k acc) l c)
  = counter_get Nat.eqb h c + List.length (filter (fun k => k =? h) l).
Proof.
  revert c. induction l as [ | k r IH]; intros c; cbn [fold_left filter].
  - cbn [List.length]. lia.
  - rewrite IH, counter_get_incr.
    destruct (k =? h); cbn [List.length]; lia.
Qed.

Lemma parsed_hours_in (f : string -> option datetime) (h : nat)
    (comments : list comment) :
  List.length (filter (fun k => k =? h) (parsed_hours f comments))
  = List.length (published_in f h comments).
Proof.
  unfold parsed_hours, published_in.
  induction comments as [ | c r IH]; [reflexivity | ].
  cbn [flat_map filter].
  rewrite filter_app, length_app, IH.
  destruct (hour_of f c) as [h' | ]; cbn [filter]; [ | reflexivity].
  destruct (h' =? h); reflexivity.
Qed.

Lemma most_common_nil_guard {K : Type} (n : nat) (c : list (K * nat)) :
  match c with [] => [] | _ :: _ => most_common n c end = most_common n c.
Proof. destruct c; [destruct n | ]; reflexivity. Qed.

Lemma analyzer_returns (f : string -> option datetime)
    (c : comment) (r : list comment) :
  forallb textual (c :: r) = true ->
  exists e,
    CommentAnalyzer.analyze_engagement_patterns f (c :: r) = Ok (Some e)
    /\ CommentAnalyzer.peak_hours e
       = most_common 3 (Counter Nat.eqb (parsed_hours f (c :: r))).
Proof.
  intros Ht.
  unfold CommentAnalyzer.analyze_engagement_patterns.
  rewrite analyzer_hourly_loop, Ht. cbn [bind].
  remember (sort_desc (fun y x : Z => (x <? y)%Z) (map like_count (c :: r)))
    as likes_data eqn:Hl.
  assert (Hlen : List.length likes_data = S (List.length r)).
  { subst likes_data. rewrite sort_desc_length, length_map. reflexivity. }
  destruct likes_data as [ | x l]; [discriminate Hlen | ].
  cbn [CommentAnalyzer.max_Z bind].
  unfold index.
  destruct (nth_error (x :: l) (List.length (x :: l) / 2)) as [m | ] eqn:Hm.
  - cbn [bind]. eexists. split; [reflexivity | ].
    cbn [CommentAnalyzer.peak_hours]. apply most_common_nil_guard.
  - apply nth_error_None in Hm. exfalso.
    assert (List.length (x :: l) / 2 < List.length (x :: l))
      by (apply Nat.div_lt; [rewrite Hlen | ]; lia).
    lia.
Qed.

Lemma script_returns (f : string -> option datetime)
    (c : comment) (r : list comment) :
  forallb textual (c :: r) = true ->
  exists e,
    AnalyzeComments.engagement_analysis f (c :: r) = Ok (Some e)
    /\ AnalyzeComments.peak_hours e
       = most_common 5 (Counter Nat.eqb (parsed_hours f (c :: r))).
Proof.
  intros Ht.
  unfold AnalyzeComments.engagement_analysis.
  rewrite script_hourly_loop, Ht. cbn [bind].
  eexists. split; [reflexivity | ].
  cbn [AnalyzeComments.peak_hours]. apply most_common_nil_guard.
Qed.

(** A timestamp that is not a string aborts both analyses. *)
Lemma analyses_abort (f : string -> option datetime) (comments : list comment) :
  forallb textual comments = false ->
  CommentAnalyzer.analyze_engagement_patterns f comments = Raise AttributeError
  /\ AnalyzeComments.engagement_analysis f comments = Raise AttributeError.
Proof.
  intros Ht. destruct comments as [ | c r]; [discriminate Ht | ].
  unfold CommentAnalyzer.analyze_engagement_patterns,
    AnalyzeComments.engagement_analysis.
  rewrite analyzer_hourly_loop, script_hourly_loop, Ht.
  split; reflexivity.
Qed.

(** When every timestamp is a string or is missing, the two analyses
    return; on a collection that is not empty the peak hours are the most
    common hours of the counter filled from the records whose timestamp
    parses, and that counter holds, for every hour, the number of those
    records published in that hour: a record with a missing or malformed
    string is left out and every other record is counted. *)
Lemma string_timestamps_skipped (fromisoformat : string -> option datetime)
    (comments : list comment) :
  forallb textual comments = true ->
  (exists r,
     CommentAnalyzer.analyze_engagement_patterns fromisoformat comments = Ok r
     /\ match comments with
        | [] => r = None
        | _ :: _ =>
            exists e, r = Some e
              /\ CommentAnalyzer.peak_hours e
                 = most_common 3
                     (Counter Nat.eqb (parsed_hours fromisoformat comments))
        end)
  /\ (exists r,
        AnalyzeComments.engagement_analysis fromisoformat comments = Ok r
        /\ match comments with
           | [] => r = None
           | _ :: _ =>
               exists e, r = Some e
                 /\ AnalyzeComments.peak_hours e
                    = most_common 5
                        (Counter Nat.eqb (parsed_hours fromisoformat comments))
           end)
  /\ (forall h,
        counter_get Nat.eqb h
          (Counter Nat.eqb (parsed_hours fromisoformat comments))
        = List.length (published_in fromisoformat h comments)).
Proof.
  intros Ht. split; [ | split].
  - destruct comments as [ | c r].
    + exists None. split; reflexivity.
    + destruct (analyzer_returns fromisoformat c r Ht) as [e [He Hp]].
      exists (Some e). split; [exact He | ]. exists e. split; [reflexivity | exact Hp].
  - destruct comments as [ | c r].
    + exists None. split; reflexivity.
    + destruct (script_returns fromisoformat c r Ht) as [e [He Hp]].
      exists (Some e). split; [exact He | ]. exists e. split; [reflexivity | exact Hp].
  - intros h. unfold Counter. rewrite counter_get_fold.
    cbn [counter_get]. apply parsed_hours_in.
Qed.

(** C8, at the failing input.  The second record of [null_timestamp] has a
    timestamp that is there and is not a string (a JSON [null]); it cannot
    be parsed, so the claim has it left out and the first record counted
    in the hour 10.  Whatever the parser, both analyses raise an
    [AttributeError] instead: [.replace] is called on the value inside the
    [try], and the [except] clause names [ValueError] and [KeyError]
    only.  Without that record the analyses return and count the first
    record. *)
Theorem null_timestamp_aborts_analysis
    (fromisoformat : string -> option datetime) :
  hour_of fromisoformat
    {| text := "b"; author := "viewer"; like_count := 5;
       published_at := Some JOther; is_reply := None |} = None
  /\ CommentAnalyzer.analyze_engagement_patterns fromisoformat null_timestamp
     = Raise AttributeError
  /\ AnalyzeComments.engagement_analysis fromisoformat null_timestamp
     = Raise AttributeError
  /\ (exists e,
        CommentAnalyzer.analyze_engagement_patterns Sample.fromisoformat
          [Sample.mk_at "a" 3 "2024-01-15T10:30:00Z"] = Ok (Some e)
        /\ CommentAnalyzer.peak_hours e = [ (10, 1) ]).
Proof.
  split; [reflexivity | ].
  destruct (analyses_abort fromisoformat null_timestamp eq_refl) as [H1 H2].
  split; [exact H1 | ]. split; [exact H2 | ].
  eexists. split; reflexivity.
Qed.

(** The records of [timeline]: the two records without a usable timestamp
    are left out of the peak hours, the three others are counted. *)
Example timeline_peak_hours :
  exists e,
    CommentAnalyzer.analyze_engagement_patterns Sample.fromisoformat timeline
    = Ok (Some e)
    /\ CommentAnalyzer.peak_hours e = [ (10, 2); (23, 1) ].
Proof. eexists. split; reflexivity. Qed.

End EngagementFacts.

(* ------------------------------------------------------------------ *)
(** ** Video identifiers *)

Module VideoIdFacts.
Import PyStr.

Lemma slice_to_all (n : nat) (s : string) :
  String.length s <= n -> slice_to n s = s.
Proof.
  revert n. induction s as [ | c r IH]; intros [ | n] H; cbn in *;
    try reflexivity; try lia.
  rewrite IH by lia. reflexivity.
Qed.

Lemma slice_from_all (n : nat) (s : string) :
  String.length s <= n -> slice_from n s = EmptyString.
Proof.
  revert n. induction s as [ | c r IH]; intros [ | n] H; cbn in *;
    try reflexivity; try lia.
  apply IH. lia.
Qed.

Lemma match_video_id_plain (url : string) :
  String.length url = 11 -> Re.all_chars isidchar url = true ->
  Re.match_video_id url = true.
Proof.
  intros Hlen Hall. unfold Re.match_video_id.
  rewrite slice_to_all, slice_from_all by lia.
  rewrite Hlen, Hall. reflexivity.
Qed.

(** C10.  With the same URL library, the two [extract_video_id] return the
    same identifier and raise the same exception on every input; a text of
    eleven characters that are letters, digits, [-] or [_] is returned
    unchanged by both. *)
Theorem extract_video_id_same
    (urlparse_query : string -> py string)
    (parse_qs : string -> py (list (string * list string)))
    (url : string) :
  YouTubeCommentScraper.extract_video_id urlparse_query parse_qs url
  = YouTubeCaptionDownloader.extract_video_id urlparse_query parse_qs url
  /\ (String.length url = 11 -> Re.all_chars isidchar url = true ->
      YouTubeCommentScraper.extract_video_id urlparse_query parse_qs url = Ok url
      /\ YouTubeCaptionDownloader.extract_video_id urlparse_query parse_qs url
         = Ok url).
Proof.
  split.
  - unfold YouTubeCommentScraper.extract_video_id,
      YouTubeCaptionDownloader.extract_video_id.
    destruct (Re.match_video_id url); [reflexivity | ].
    destruct (Re.search_id _ url); [reflexivity | ].
    destruct (Re.search_id _ url); [reflexivity | ].
    unfold YouTubeCommentScraper.from_query, YouTubeCaptionDownloader.from_query.
    destruct (urlparse_query url) as [query | e]; [ | reflexivity].
    cbn [bind].
    destruct (parse_qs query) as [d | e]; [ | reflexivity].
    cbn [bind].
    assert (E : YouTubeCommentScraper.lookup "v" d
                = YouTubeCaptionDownloader.lookup "v" d).
    { induction d as [ | [k v] r IH]; [reflexivity | ].
      cbn [YouTubeCommentScraper.lookup YouTubeCaptionDownloader.lookup].
      rewrite IH. reflexivity. }
    rewrite E. reflexivity.
  - intros Hlen Hall.
    unfold YouTubeCommentScraper.extract_video_id,
      YouTubeCaptionDownloader.extract_video_id.
    rewrite (match_video_id_plain url Hlen Hall). split; reflexivity.
Qed.

Lemma extract_video_id_same_witness :
  YouTubeCommentScraper.extract_video_id
    Sample.urlparse_query Sample.parse_qs "dQw4w9WgXcQ" = Ok "dQw4w9WgXcQ"
  /\ YouTubeCaptionDownloader.extract_video_id
       Sample.urlparse_query Sample.parse_qs "dQw4w9WgXcQ" = Ok "dQw4w9WgXcQ".
Proof.
  apply (extract_video_id_same Sample.urlparse_query Sample.parse_qs "dQw4w9WgXcQ");
    reflexivity.
Defined.

(** A URL whose identifier is only found by the query parser, and a URL
    without an identifier. *)
Example extract_video_id_samples :
  YouTubeCommentScraper.extract_video_id Sample.urlparse_query Sample.parse_qs
    "https://m.youtube.com/watch?feature=share&v=dQw4w9WgXcQ" = Ok "dQw4w9WgXcQ"
  /\ YouTubeCaptionDownloader.extract_video_id Sample.urlparse_query Sample.parse_qs
       "https://youtu.be/dQw4w9WgXc" = Raise ValueError.
Proof. split; reflexivity. Qed.

End VideoIdFacts.

(* ------------------------------------------------------------------ *)
(** ** Topic suggestions *)

Module TopicFacts.
Import PyStr CommentAnalyzer TopicSpec.

(** *** A mention lies in the text of one comment *)

Lemma count_bounded_go_contains (w : string) (s : string) :
  forall before skip,
    0 < Re.count_bounded_go w before s skip -> contains w s = true.
Proof.
  induction s as [ | c r IH]; intros before skip H;
    cbn [Re.count_bounded_go] in H; [lia | ].
  cbn [contains]. destruct skip as [ | k].
  - destruct (prefix w (String c r)) eqn:P; [reflexivity | ].
    rewrite andb_false_r, andb_false_l in H.
    rewrite (IH _ _ H). apply orb_true_r.
  - rewrite (IH _ _ H). apply orb_true_r.
Qed.

Lemma prefix_before_space (w x rest : string) :
  spaceless w = true ->
  prefix w (x ++ String space rest) = true -> prefix w x = true.
Proof.
  revert x. induction w as [ | a w' IH]; intros x Hw H;
    [destruct x; reflexivity | ].
  cbn in Hw. apply andb_true_iff in Hw. destruct Hw as [Ha Hw'].
  destruct x as [ | c x']; cbn in H |- *.
  - destruct (ascii_dec a space) as [E | E]; [ | discriminate H].
    subst a. discriminate Ha.
  - destruct (ascii_dec a c); [ | discriminate H].
    apply IH; assumption.
Qed.

Lemma contains_around_space (w x rest : string) :
  spaceless w = true -> nonempty w = true ->
  contains w (x ++ String space rest) = true ->
  contains w x = true \/ contains w rest = true.
Proof.
  intros Hw Hne. induction x as [ | c x' IH]; intros H.
  - right. cbn [append contains] in H.
    apply orb_true_iff in H. destruct H as [H | H]; [ | exact H].
    exfalso. destruct w as [ | a w']; [discriminate Hne | ].
    cbn in Hw. apply andb_true_iff in Hw. destruct Hw as [Ha _].
    cbn in H. destruct (ascii_dec a space) as [E | E]; [ | discriminate H].
    subst a. discriminate Ha.
  - cbn [append contains] in H. apply orb_true_iff in H.
    destruct H as [H | H].
    + left. cbn [contains].
      change (String c (x' ++ String space rest))
        with (String c x' ++ String space rest)%string in H.
      rewrite (prefix_before_space _ _ _ Hw H). reflexivity.
    + destruct (IH H) as [G | G]; [left | right; exact G].
      cbn [contains]. rewrite G. apply orb_true_r.
Qed.

Lemma contains_join (w : string) (l : list string) :
  spaceless w = true -> nonempty w = true ->
  contains w (join " " l) = true ->
  exists x, In x l /\ contains w x = true.
Proof.
  intros Hw Hne. induction l as [ | x r IH]; intros H.
  - exfalso. destruct w; [discriminate Hne | discriminate H].
  - destruct r as [ | y r'].
    + exists x. split; [left; reflexivity | exact H].
    + change (join " " (x :: y :: r'))
        with (x ++ String space (join " " (y :: r')))%string in H.
      destruct (contains_around_space _ _ _ Hw Hne H) as [G | G].
      * exists x. split; [left; reflexivity | exact G].
      * destruct (IH G) as [z [Hz Gz]].
        exists z. split; [right; exact Hz | exact Gz].
Qed.

Lemma mentioned_is_relevant (comments : list comment) (topic : string) :
  spaceless topic = true -> nonempty topic = true ->
  0 < mentions_of comments topic ->
  relevant_comments comments topic <> [].
Proof.
  intros Hw Hne H.
  apply count_bounded_go_contains in H.
  destruct (contains_join _ _ Hw Hne H) as [x [Hx Gx]].
  apply in_map_iff in Hx. destruct Hx as [c [<- Hc]].
  intros E.
  assert (Hin : In c (relevant_comments comments topic))
    by (apply filter_In; split; assumption).
  rewrite E in Hin. exact Hin.
Qed.

Lemma container_topics_words (topic : string) (titles : list string) :
  In (topic, titles) container_topics ->
  spaceless topic = true /\ nonempty topic = true.
Proof.
  intros H.
  assert (A : forallb (fun kv => spaceless (fst kv) && nonempty (fst kv))
                      container_topics = true) by reflexivity.
  rewrite forallb_forall in A. specialize (A _ H).
  apply andb_true_iff in A. exact A.
Qed.

(** *** The interest score *)

Lemma avg_engagement_ok (comments : list comment) (topic : string) :
  exists q,
    avg_engagement_of comments topic = Ok q
    /\ (relevant_comments comments topic <> [] ->
        (q == mean_likes (relevant_comments comments topic))%Q).
Proof.
  unfold avg_engagement_of.
  destruct (relevant_comments comments topic) as [ | c r].
  - exists 0%Q. split; [reflexivity | ]. intros H. contradiction.
  - rewrite truediv_nonzero by (cbn [List.length]; lia).
    eexists. split; [reflexivity | ]. intros _.
    unfold mean_likes. apply Qred_correct.
Qed.

Lemma mentioned_loop_ok (comments : list comment) (txt : string)
    (topics : list (string * list string)) :
  exists mentioned,
    mentioned_loop comments txt topics = Ok mentioned
    /\ (forall t, In t mentioned -> gathered comments txt topics t)
    /\ (forall topic titles,
          In (topic, titles) topics -> 0 < Re.count_bounded topic txt ->
          exists t, In t mentioned /\ td_topic t = topic).
Proof.
  induction topics as [ | [topic titles] r IH].
  - exists []. split; [reflexivity | ]. split; [intros t [] | intros ? ? []].
  - destruct IH as [rest (Hrest & Hall & Hex)].
    cbn [mentioned_loop].
    destruct (Nat.ltb_spec 0 (Re.count_bounded topic txt)) as [Hpos | Hzero].
    + destruct (avg_engagement_ok comments topic) as [q [Hq _]].
      rewrite Hq, Hrest. cbn [bind].
      eexists. split; [reflexivity | ]. split.
      * intros t [<- | Ht].
        -- unfold gathered. cbn. auto.
        -- destruct (Hall t Ht) as (H1 & H2).
           split; [right; exact H1 | exact H2].
      * intros topic' titles' [E | Hin] Hc.
        -- injection E as <- <-. eexists. split; [left; reflexivity | reflexivity].
        -- destruct (Hex _ _ Hin Hc) as [t [Ht Et]].
           exists t. split; [right; exact Ht | exact Et].
    + exists rest. split; [exact Hrest | ]. split.
      * intros t Ht. destruct (Hall t Ht) as (H1 & H2).
        split; [right; exact H1 | exact H2].
      * intros topic' titles' [E | Hin] Hc.
        -- injection E as <- <-. lia.
        -- exact (Hex _ _ Hin Hc).
Qed.

Lemma gathered_score (comments : list comment) (txt : string)
    (topics : list (string * list string)) (t u : topic_data) :
  gathered comments txt topics t -> gathered comments txt topics u ->
  td_topic t = td_topic u -> td_interest_score t = td_interest_score u.
Proof.
  intros (_ & Hm & _ & Ha & Hs) (_ & Hm' & _ & Ha' & Hs') E.
  rewrite Hs, Hs', Hm, Hm', E. rewrite E in Ha.
  assert (td_avg_engagement t = td_avg_engagement u) as -> by congruence.
  reflexivity.
Qed.

(** *** The priority *)

Lemma emerging_topic (video : list suggestion) (q : question) (s : suggestion) :
  In s (emerging_of_question video q) ->
  In (s_based_on_topic s) (map fst tech_patterns) /\ s_priority s = "Emerging".
Proof.
  unfold emerging_of_question. intros H.
  apply in_flat_map in H. destruct H as [[tech title] [Hin H]].
  destruct (contains tech (lower (q_text q))
            && negb (mem title (map s_title video))); [ | destruct H].
  destruct H as [<- | []]. cbn [s_based_on_topic s_priority].
  split; [ | reflexivity].
  apply in_map_iff. exists (tech, title). split; [reflexivity | exact Hin].
Qed.

Lemma taxonomies_apart (k : string) :
  In k (map fst tech_patterns) -> In k (map fst container_topics) -> False.
Proof.
  intros H G.
  assert (A : forallb (fun tech => negb (mem tech (map fst container_topics)))
                      (map fst tech_patterns) = true) by reflexivity.
  rewrite forallb_forall in A. specialize (A _ H).
  apply negb_true_iff in A.
  assert (B : mem k (map fst container_topics) = true).
  { unfold mem. apply existsb_exists. exists k.
    split; [exact G | apply String.eqb_refl]. }
  congruence.
Qed.

Lemma priority_of_high (score : Q) :
  (priority_of score = "High" <-> (inject_Z 10 < score)%Q)
  /\ (priority_of score = "Medium" <-> ~ (inject_Z 10 < score)%Q).
Proof.
  unfold priority_of.
  destruct (Qgt_bool score (inject_Z 10)) eqn:E.
  - apply Qgt_bool_true in E. split; split; intros H;
      try reflexivity; try assumption; try discriminate H; contradiction.
  - assert (N : ~ (inject_Z 10 < score)%Q).
    { intros H. apply Qgt_bool_true in H. congruence. }
    split; split; intros H;
      try reflexivity; try assumption; try discriminate H; contradiction.
Qed.


(** The scenario of the specification, run: docker is mentioned 5 times
    with a mean like count of 4, its interest score is 25 and its two
    suggestions are tagged ["High"]. *)
Example docker_scenario_result :
  mentioned_loop docker_scenario (all_text docker_scenario) container_topics
  = Ok [ {| td_topic := "docker";
            td_mentions := 5;
            td_avg_engagement := inject_Z 4;
            td_suggestions :=
              [ "Docker vs Podman migration guide"; "Docker security hardening";
                "Multi-stage Docker builds"; "Docker networking explained" ];
            td_interest_score := inject_Z 25 |} ]
  /\ (x <- suggest_future_topics docker_scenario 8 ;;
      Ok (map (fun s => (s_title s, s_priority s)) x))
     = Ok [ ("Docker vs Podman migration guide", "High");
            ("Docker security hardening", "High") ].
Proof. split; vm_compute; reflexivity. Qed.

End TopicFacts.

(* ------------------------------------------------------------------ *)
(** ** Stable descending sorts *)

Module RankingFacts.
Import PyStr Ranking.

Section ByKey.
Context {A : Type} (key : A -> Z).

Let gtb (y x : A) : bool := (key x <? key y)%Z.

Lemma insert_desc_descending (x : A) (l : list A) :
  descending key l -> descending key (insert_desc gtb x l).
Proof.
  unfold descending.
  induction 1 as [ | y r Hr IH Hy]; cbn [insert_desc].
  - constructor; constructor.
  - unfold gtb at 1. destruct (Z.ltb_spec (key x) (key y)) as [Hlt | Hge].
    + constructor; [exact IH | ].
      apply Forall_forall. intros z Hz.
      apply insert_desc_In in Hz. destruct Hz as [-> | Hz]; [lia | ].
      rewrite Forall_forall in Hy. exact (Hy z Hz).
    + constructor; [constructor; assumption | ].
      constructor; [exact Hge | ].
      eapply Forall_impl; [ | exact Hy].
      cbn. intros z Hz. lia.
Qed.

Lemma sort_desc_descending (l : list A) :
  descending key (sort_desc gtb l).
Proof.
  induction l as [ | x r IH]; cbn [sort_desc];
    [constructor | apply insert_desc_descending; exact IH].
Qed.

Lemma insert_desc_with_key (k : Z) (x : A) (l : list A) :
  with_key key k (insert_desc gtb x l) = with_key key k (x :: l).
Proof.
  unfold with_key.
  induction l as [ | y r IH]; cbn [insert_desc]; [reflexivity | ].
  unfold gtb at 1. destruct (Z.ltb_spec (key x) (key y)) as [Hlt | Hge];
    [ | reflexivity].
  cbn [filter] in *. rewrite IH.
  destruct (Z.eqb_spec (key x) k) as [Ex | Ex];
    destruct (Z.eqb_spec (key y) k) as [Ey | Ey]; try reflexivity.
  lia.
Qed.

Lemma sort_desc_with_key (k : Z) (l : list A) :
  with_key key k (sort_desc gtb l) = with_key key k l.
Proof.
  induction l as [ | x r IH]; cbn [sort_desc]; [reflexivity | ].
  rewrite insert_desc_with_key. unfold with_key in *. cbn [filter].
  rewrite IH. reflexivity.
Qed.

Lemma sort_desc_stable (l : list A) :
  stable_descending key l (sort_desc gtb l).
Proof.
  split; [apply sort_desc_descending | ].
  split; [apply sort_desc_length | ].
  intros k. apply sort_desc_with_key.
Qed.

Lemma take_descending (n : nat) (l : list A) :
  descending key l -> descending key (take n l).
Proof.
  unfold take, descending. intros H. revert n.
  induction H as [ | y r Hr IH Hy]; intros [ | n]; cbn [firstn];
    try constructor.
  - apply IH.
  - apply Forall_forall. intros z Hz. apply (take_In n) in Hz.
    rewrite Forall_forall in Hy. exact (Hy z Hz).
Qed.

End ByKey.

(** X1.  [find_questions] returns the first [top_n] elements of the list of
    the questions sorted by likes in descending order, questions with the
    same number of likes in the order of their comments; so it returns at
    most [top_n] questions and their likes never increase.
    [extract_questions] returns that whole sorted list. *)
Theorem questions_ranked_by_likes (comments : list comment) (top_n : nat) :
  (exists ranked,
     CommentAnalyzer.find_questions comments top_n = take top_n ranked
     /\ stable_descending CommentAnalyzer.q_likes
          (map CommentAnalyzer.question_of
               (filter CommentAnalyzer.is_question comments))
          ranked)
  /\ List.length (CommentAnalyzer.find_questions comments top_n) <= top_n
  /\ descending CommentAnalyzer.q_likes
       (CommentAnalyzer.find_questions comments top_n)
  /\ stable_descending AnalyzeComments.q_likes
       (map AnalyzeComments.question_of
            (filter AnalyzeComments.is_question comments))
       (AnalyzeComments.extract_questions comments).
Proof.
  split; [ | split; [ | split]].
  - eexists. split; [reflexivity | ]. apply sort_desc_stable.
  - apply take_length_le.
  - apply take_descending, sort_desc_descending.
  - apply sort_desc_stable.
Qed.

(** Two questions with 2 likes around one with 7: the question with 7
    comes first, the two others keep their order. *)
Example tied_questions_order :
  map CommentAnalyzer.q_text (CommentAnalyzer.find_questions tied_questions 10)
  = [ "how?"; "why?"; "when?" ].
Proof. vm_compute. reflexivity. Qed.

End RankingFacts.

(* ------------------------------------------------------------------ *)
(** ** Counters *)

Module CounterFacts.
Import EngagementSpec.

Section Keys.
Context {K : Type} (eqb : K -> K -> bool).
Hypothesis eqb_eq : forall a b, eqb a b = true <-> a = b.

Lemma counter_incr_key (k k' : K) (c : list (K * nat)) :
  In k' (map fst (counter_incr eqb k c)) <-> k' = k \/ In k' (map fst c).
Proof.
  induction c as [ | [j m] r IH]; cbn [counter_incr map fst In].
  - intuition congruence.
  - destruct (eqb j k) eqn:E; cbn [map fst In].
    + apply eqb_eq in E. subst j. intuition congruence.
    + rewrite IH. intuition congruence.
Qed.

Lemma counter_incr_NoDup (k : K) (c : list (K * nat)) :
  NoDup (map fst c) -> NoDup (map fst (counter_incr eqb k c)).
Proof.
  induction c as [ | [j m] r IH]; cbn [counter_incr map fst]; intros H.
  - constructor; [intros [] | constructor].
  - inversion H as [ | ? ? Hj Hr]; subst.
    destruct (eqb j k) eqn:E; cbn [map fst].
    + constructor; assumption.
    + constructor; [ | apply IH; exact Hr].
      intros Hin. apply counter_incr_key in Hin.
      destruct Hin as [Hin | Hin]; [ | contradiction].
      subst j. assert (eqb k k = true) by (apply eqb_eq; reflexivity).
      congruence.
Qed.

Lemma Counter_NoDup (l : list K) : NoDup (map fst (Counter eqb l)).
Proof.
  unfold Counter.
  assert (G : forall c, NoDup (map fst c) ->
                NoDup (map fst (fold_left (fun c k => counter_incr eqb k c) l c))).
  { induction l as [ | x r IH]; intros c Hc; cbn [fold_left]; [exact Hc | ].
    apply IH, counter_incr_NoDup, Hc. }
  apply G. constructor.
Qed.

Lemma counter_get_In (k : K) (n : nat) (c : list (K * nat)) :
  NoDup (map fst c) -> In (k, n) c -> counter_get eqb k c = n.
Proof.
  induction c as [ | [j m] r IH]; cbn [counter_get map fst In]; intros Hnd Hin;
    [contradiction | ].
  inversion Hnd as [ | ? ? Hj Hr]; subst.
  destruct Hin as [E | Hin].
  - injection E as -> ->.
    assert (eqb k k = true) as -> by (apply eqb_eq; reflexivity). reflexivity.
  - destruct (eqb j k) eqn:E.
    + apply eqb_eq in E. subst j. exfalso. apply Hj.
      apply in_map_iff. exists (k, n). split; [reflexivity | exact Hin].
    + apply IH; assumption.
Qed.

Lemma counter_get_incr_any (k h : K) (c : list (K * nat)) :
  counter_get eqb h (counter_incr eqb k c)
  = counter_get eqb h c + (if eqb k h then 1 else 0).
Proof.
  induction c as [ | [j m] r IH]; cbn [counter_incr counter_get].
  - destruct (eqb k h); reflexivity.
  - destruct (eqb j k) eqn:E; cbn [counter_get].
    + apply eqb_eq in E. subst j. destruct (eqb k h); lia.
    + destruct (eqb j h) eqn:F; [ | exact IH].
      apply eqb_eq in F. subst j.
      destruct (eqb k h) eqn:G; [ | lia].
      apply eqb_eq in G. subst k.
      assert (eqb h h = true) by (apply eqb_eq; reflexivity). congruence.
Qed.

Lemma counter_get_Counter (h : K) (l : list K) :
  counter_get eqb h (Counter eqb l)
  = List.length (filter (fun k => eqb k h) l).
Proof.
  unfold Counter.
  assert (G : forall c,
             counter_get eqb h (fold_left (fun c k => counter_incr eqb k c) l c)
             = counter_get eqb h c + List.length (filter (fun k => eqb k h) l)).
  { induction l as [ | x r IH]; intros c; cbn [fold_left filter].
    - cbn [List.length]. lia.
    - rewrite IH, counter_get_incr_any.
      destruct (eqb x h); cbn [List.length]; lia. }
  rewrite G. reflexivity.
Qed.

(** A pair of the counter holds a key of the list and the number of its
    occurrences. *)
Lemma Counter_pair (k : K) (n : nat) (l : list K) :
  In (k, n) (Counter eqb l) ->
  n = List.length (filter (fun x => eqb x k) l) /\ 1 <= n.
Proof.
  intros H.
  assert (E : n = List.length (filter (fun x => eqb x k) l)).
  { rewrite <- counter_get_Counter. symmetry.
    apply counter_get_In; [apply Counter_NoDup | exact H]. }
  split; [exact E | ].
  assert (Hk : In k (map fst (Counter eqb l)))
    by (apply in_map_iff; exists (k, n); split; [reflexivity | exact H]).
  assert (Hl : In k l).
  { clear E H. revert Hk. unfold Counter.
    assert (G : forall c,
               In k (map fst (fold_left (fun c k => counter_incr eqb k c) l c)) ->
               In k l \/ In k (map fst c)).
    { induction l as [ | x r IH]; intros c H; cbn [fold_left] in H;
        [right; exact H | ].
      destruct (IH _ H) as [G | G]; [left; right; exact G | ].
      apply counter_incr_key in G. destruct G as [-> | G];
        [left; left; reflexivity | right; exact G]. }
    intros Hk. destruct (G [] Hk) as [Hl | []]. exact Hl. }
  rewrite E.
  assert (Hf : In k (filter (fun x => eqb x k) l)).
  { apply filter_In. split; [exact Hl | apply eqb_eq; reflexivity]. }
  destruct (filter (fun x => eqb x k) l); [destruct Hf | cbn [List.length]; lia].
Qed.

Lemma most_common_pair (m : nat) (k : K) (n : nat) (l : list K) :
  In (k, n) (most_common m (Counter eqb l)) ->
  n = List.length (filter (fun x => eqb x k) l) /\ 1 <= n.
Proof.
  unfold most_common. intros H.
  apply take_In in H. apply sort_desc_In in H.
  exact (Counter_pair k n l H).
Qed.

End Keys.

End CounterFacts.

(* ------------------------------------------------------------------ *)
(** ** Content requests and statistics *)

Module StatisticsMore.
Import PyStr Ranking ContentRequests.

(** X2.  [identify_content_requests] returns at most [top_n] requests, by
    descending likes; each comes from a comment of the collection, and its
    matched keywords are exactly the request keywords that the lower-cased
    text of that comment contains, of which there is at least one. *)
Theorem content_requests_matched (comments : list comment) (top_n : nat) :
  List.length (identify_content_requests comments top_n) <= top_n
  /\ descending r_likes (identify_content_requests comments top_n)
  /\ forall r, In r (identify_content_requests comments top_n) ->
       r_matched_keywords r <> []
       /\ exists c,
            In c comments
            /\ r_author r = author c /\ r_likes r = like_count c
            /\ r_text r = preview 150 (text c)
            /\ forall kw,
                 In kw (r_matched_keywords r)
                 <-> In kw request_keywords
                     /\ contains kw (lower (text c)) = true.
Proof.
  unfold identify_content_requests.
  split; [apply take_length_le | ].
  split; [apply RankingFacts.take_descending, RankingFacts.sort_desc_descending | ].
  intros r Hr. apply take_In in Hr. apply sort_desc_In in Hr.
  apply in_map_iff in Hr. destruct Hr as [c [<- Hc]].
  apply filter_In in Hc. destruct Hc as [Hc Hany].
  assert (Hkw : forall kw,
            In kw (r_matched_keywords (request_of c))
            <-> In kw request_keywords /\ contains kw (lower (text c)) = true)
    by (intros kw; unfold request_of; cbn [r_matched_keywords]; cbv zeta;
        rewrite filter_In; reflexivity).
  split.
  - unfold any_in in Hany. apply existsb_exists in Hany.
    destruct Hany as [kw Hin]. apply Hkw in Hin.
    intros E. rewrite E in Hin. exact Hin.
  - exists c. split; [exact Hc | ].
    split; [reflexivity | ]. split; [reflexivity | ].
    split; [reflexivity | exact Hkw].
Qed.

Lemma filter_partition_length {A : Type} (p : A -> bool) (l : list A) :
  List.length (filter (fun x => negb (p x)) l) + List.length (filter p l)
  = List.length l.
Proof.
  induction l as [ | x r IH]; [reflexivity | ].
  cbn [filter]. destruct (p x); cbn [negb List.length]; lia.
Qed.

Lemma get_basic_stats_fields (c : comment) (r : list comment) :
  exists b,
    CommentAnalyzer.get_basic_stats (c :: r) = Ok (Some b)
    /\ CommentAnalyzer.total_comments b = List.length (c :: r)
    /\ CommentAnalyzer.top_level_comments b
       = List.length (filter (fun c => negb (CommentAnalyzer.is_reply_of c)) (c :: r))
    /\ CommentAnalyzer.replies b
       = List.length (filter CommentAnalyzer.is_reply_of (c :: r))
    /\ CommentAnalyzer.total_likes b = sum_Z (map like_count (c :: r))
    /\ CommentAnalyzer.avg_likes b
       = Qred (Qdiv (inject_Z (sum_Z (map like_count (c :: r))))
                    (inject_Z (Z.of_nat (List.length (c :: r)))))
    /\ CommentAnalyzer.high_engagement_count b
       = List.length
           (filter (fun x => Qgt_bool (inject_Z (like_count x))
                               (Qmult (CommentAnalyzer.avg_likes b) (inject_Z 2)))
                   (c :: r)).
Proof.
  unfold CommentAnalyzer.get_basic_stats.
  rewrite truediv_nonzero by (cbn [List.length]; lia). cbn [bind].
  rewrite truediv_nonzero by (rewrite length_map; cbn [List.length]; lia).
  cbn [bind].
  replace (0 <? List.length (c :: r)) with true by reflexivity.
  rewrite truediv_nonzero by (cbn [List.length]; lia). cbn [bind].
  eexists. split; [reflexivity | ].
  cbn [CommentAnalyzer.total_comments CommentAnalyzer.top_level_comments
       CommentAnalyzer.replies CommentAnalyzer.total_likes
       CommentAnalyzer.avg_likes CommentAnalyzer.high_engagement_count].
  repeat split.
Qed.

Lemma basic_statistics_fields (comments : list comment) :
  exists st,
    AnalyzeComments.basic_statistics comments = Ok st
    /\ AnalyzeComments.total_comments st = List.length comments
    /\ AnalyzeComments.top_level_comments st
       = List.length
           (filter (fun c => negb (get_default (is_reply c) false)) comments)
    /\ AnalyzeComments.replies st
       = List.length (filter (fun c => get_default (is_reply c) false) comments).
Proof.
  unfold AnalyzeComments.basic_statistics.
  destruct comments as [ | c r].
  - eexists. split; [reflexivity | ]. repeat split.
  - replace (0 <? List.length (c :: r)) with true by reflexivity.
    rewrite truediv_nonzero by (cbn [List.length]; lia). cbn [bind].
    eexists. split; [reflexivity | ]. repeat split.
Qed.

(** X3.  In the statistics of both [get_basic_stats] and
    [basic_statistics] the top-level comments and the replies add up to
    the total, which is the size of the collection. *)
Theorem replies_and_top_level_partition (comments : list comment) :
  (forall b, CommentAnalyzer.get_basic_stats comments = Ok (Some b) ->
     CommentAnalyzer.top_level_comments b + CommentAnalyzer.replies b
     = CommentAnalyzer.total_comments b
     /\ CommentAnalyzer.total_comments b = List.length comments)
  /\ (forall st, AnalyzeComments.basic_statistics comments = Ok st ->
        AnalyzeComments.top_level_comments st + AnalyzeComments.replies st
        = AnalyzeComments.total_comments st
        /\ AnalyzeComments.total_comments st = List.length comments).
Proof.
  split.
  - intros b Hb. destruct comments as [ | c r]; [discriminate Hb | ].
    destruct (get_basic_stats_fields c r) as [b' (Hb' & Ht & Htop & Hrep & _)].
    rewrite Hb' in Hb. injection Hb as <-.
    rewrite Ht, Htop, Hrep.
    split; [ | reflexivity].
    exact (filter_partition_length CommentAnalyzer.is_reply_of (c :: r)).
  - intros st Hst.
    destruct (basic_statistics_fields comments) as [st' (Hst' & Ht & Htop & Hrep)].
    rewrite Hst' in Hst. injection Hst as <-.
    rewrite Ht, Htop, Hrep.
    split; [ | reflexivity].
    exact (filter_partition_length
             (fun c => get_default (is_reply c) false) comments).
Qed.

Lemma replies_and_top_level_partition_witness :
  exists b,
    CommentAnalyzer.get_basic_stats liked = Ok (Some b)
    /\ CommentAnalyzer.top_level_comments b + CommentAnalyzer.replies b = 4.
Proof.
  destruct (get_basic_stats_fields (Sample.mk "a" 0)
              [Sample.mk "b" 9; Sample.mk "c" 1; Sample.mk "d" 0]) as [b [Hb _]].
  exists b. split; [exact Hb | ].
  destruct (replies_and_top_level_partition liked) as [H _].
  destruct (H b Hb) as [H1 H2]. rewrite H1, H2. reflexivity.
Defined.

End StatisticsMore.

(* ------------------------------------------------------------------ *)
(** ** High engagement *)

Module EngagementMore.
Import PyStr Ranking EngagementSpec.

Lemma sum_Z_from (l : list Z) (a : Z) :
  fold_left Z.add l a = (a + sum_Z l)%Z.
Proof.
  unfold sum_Z. revert a. induction l as [ | x r IH]; intros a; cbn [fold_left].
  - lia.
  - rewrite IH, (IH (0 + x)%Z). lia.
Qed.

Lemma sum_Z_cons (x : Z) (l : list Z) : sum_Z (x :: l) = (x + sum_Z l)%Z.
Proof. unfold sum_Z at 1. cbn [fold_left]. rewrite sum_Z_from. lia. Qed.

Lemma sum_Z_nonneg (l : list Z) :
  (forall x, In x l -> (0 <= x)%Z) -> (0 <= sum_Z l)%Z.
Proof.
  induction l as [ | x r IH]; intros H; [unfold sum_Z; cbn; lia | ].
  rewrite sum_Z_cons.
  assert (0 <= x)%Z by (apply H; left; reflexivity).
  assert (0 <= sum_Z r)%Z by (apply IH; intros y Hy; apply H; right; exact Hy).
  lia.
Qed.

Lemma Zpos_of_nat (n : nat) : n <> 0 -> Z.pos (Pos.of_nat n) = Z.of_nat n.
Proof.
  intros Hn. rewrite <- positive_nat_Z, Nat2Pos.id by exact Hn. reflexivity.
Qed.

(** The test [like_count > avg_likes * 2] without the division. *)
Lemma above_twice_the_mean (x total : Z) (n : nat) :
  n <> 0 ->
  Qgt_bool (inject_Z x)
           (Qmult (Qred (Qdiv (inject_Z total) (inject_Z (Z.of_nat n))))
                  (inject_Z 2))
  = (2 * total <? x * Z.of_nat n)%Z.
Proof.
  intros Hn.
  assert (E : (Qred (inject_Z total / inject_Z (Z.of_nat n)) * inject_Z 2
               == Qmake (2 * total) (Pos.of_nat n))%Q).
  { rewrite Qred_correct.
    rewrite <- (Zpos_of_nat n Hn).
    unfold Qeq, Qdiv, Qmult, Qinv, inject_Z. cbn [Qnum Qden].
    rewrite Pos.mul_1_l, Pos.mul_1_r. lia. }
  destruct (Z.ltb_spec (2 * total) (x * Z.of_nat n)) as [H | H].
  - apply Qgt_bool_true. rewrite E. unfold Qlt. cbn [Qnum Qden inject_Z].
    rewrite Z.mul_1_r.
    rewrite (Zpos_of_nat n Hn). exact H.
  - destruct (Qgt_bool _ _) eqn:G; [ | reflexivity].
    apply Qgt_bool_true in G. rewrite E in G. unfold Qlt in G.
    cbn [Qnum Qden inject_Z] in G. rewrite Z.mul_1_r in G.
    rewrite (Zpos_of_nat n Hn) in G. lia.
Qed.

Lemma generate_summary_fields (c : comment) (r : list comment) :
  exists s,
    ExecutiveSummary.generate_summary (c :: r) = Ok (Some s)
    /\ ExecutiveSummary.total_comments s = List.length (c :: r)
    /\ ExecutiveSummary.avg_likes s
       = Qred (Qdiv (inject_Z (sum_Z (map like_count (c :: r))))
                    (inject_Z (Z.of_nat (List.length (c :: r)))))
    /\ ExecutiveSummary.high_engagement s
       = List.length
           (filter (fun x => Qgt_bool (inject_Z (like_count x))
                               (Qmult (ExecutiveSummary.avg_likes s) (inject_Z 2)))
                   (c :: r))
    /\ ExecutiveSummary.most_liked s = ExecutiveSummary.max_by_likes c r
    /\ ExecutiveSummary.health s
       = (if Qgt_bool (ExecutiveSummary.avg_likes s) (inject_Z 5) then "Excellent"
          else if Qgt_bool (ExecutiveSummary.avg_likes s) (inject_Z 2) then "Good"
          else "Needs Improvement").
Proof.
  unfold ExecutiveSummary.generate_summary.
  rewrite truediv_nonzero by (cbn [List.length]; lia). cbn [bind].
  rewrite truediv_nonzero by (cbn [List.length]; lia). cbn [bind].
  eexists. split; [reflexivity | ].
  cbn [ExecutiveSummary.total_comments ExecutiveSummary.avg_likes
       ExecutiveSummary.high_engagement ExecutiveSummary.most_liked
       ExecutiveSummary.health].
  repeat split.
Qed.

Lemma filter_none {A : Type} (p : A -> bool) (l : list A) :
  (forall x, In x l -> p x = false) -> filter p l = [].
Proof.
  induction l as [ | x r IH]; intros H; [reflexivity | ].
  cbn [filter]. rewrite (H x (or_introl eq_refl)).
  apply IH. intros y Hy. apply H. right. exact Hy.
Qed.

Lemma max_by_likes_spec (c : comment) (r : list comment) :
  In (ExecutiveSummary.max_by_likes c r) (c :: r)
  /\ forall x, In x (c :: r) ->
       (like_count x <= like_count (ExecutiveSummary.max_by_likes c r))%Z.
Proof.
  unfold ExecutiveSummary.max_by_likes. revert c.
  induction r as [ | y r IH]; intros c; cbn [fold_left].
  - split; [left; reflexivity | ]. intros x [<- | []]. lia.
  - destruct (Z.ltb_spec (like_count c) (like_count y)) as [H | H].
    + destruct (IH y) as [Hin Hmax]. split.
      * right. exact Hin.
      * intros x [<- | Hx].
        -- specialize (Hmax y (or_introl eq_refl)). lia.
        -- apply Hmax. exact Hx.
    + destruct (IH c) as [Hin Hmax]. split.
      * destruct Hin as [<- | Hin]; [left; reflexivity | right; right; exact Hin].
      * intros x [<- | [<- | Hx]].
        -- apply Hmax. left. reflexivity.
        -- specialize (Hmax c (or_introl eq_refl)). lia.
        -- apply Hmax. right. exact Hx.
Qed.

(** X5.  [generate_summary] returns nothing on no comments.  Whenever it
    returns a summary of a collection, the most liked comment is one of the
    collection and no comment has more likes; when the like counts sum to
    0 the health is ["Needs Improvement"], and when every like count is 0
    no comment counts as highly engaging. *)
Theorem summary_most_liked_and_health (comments : list comment)
    (s : ExecutiveSummary.summary) :
  ExecutiveSummary.generate_summary comments = Ok (Some s) ->
  ExecutiveSummary.generate_summary [] = Ok None
  /\ In (ExecutiveSummary.most_liked s) comments
  /\ (forall x, In x comments ->
        (like_count x <= like_count (ExecutiveSummary.most_liked s))%Z)
  /\ (sum_Z (map like_count comments) = 0%Z ->
      ExecutiveSummary.health s = "Needs Improvement")
  /\ ((forall x, In x comments -> like_count x = 0%Z) ->
      ExecutiveSummary.high_engagement s = 0).
Proof.
  intros Hr. split; [reflexivity | ].
  destruct comments as [ | c r]; [discriminate Hr | ].
  destruct (generate_summary_fields c r)
    as [s' (Hs & Ht & Ha & Hh & Hm & Hhealth)].
  rewrite Hs in Hr. injection Hr as <-.
  destruct (max_by_likes_spec c r) as [Hin Hmax]. rewrite <- Hm in Hin, Hmax.
  split; [exact Hin | ]. split; [exact Hmax | ]. split.
  - intros Hzero. rewrite Hhealth, Ha, Hzero.
    replace (Qred (inject_Z 0 / inject_Z (Z.of_nat (List.length (c :: r)))))
      with 0%Q; [reflexivity | ].
    symmetry. change 0%Q with (Qred 0). apply Qred_complete.
    unfold Qdiv. apply Qmult_0_l.
  - intros Hall.
    assert (Hpos : forall x, In x (c :: r) -> (0 <= like_count x)%Z)
      by (intros x Hx; rewrite (Hall x Hx); lia).
    rewrite Hh, Ha.
    assert (Hn : List.length (c :: r) <> 0) by discriminate.
    erewrite filter_ext
      by (intros x; apply above_twice_the_mean; exact Hn).
    assert (Hsum : (0 <= sum_Z (map like_count (c :: r)))%Z).
    { apply sum_Z_nonneg. intros x Hx. apply in_map_iff in Hx.
      destruct Hx as [y [<- Hy]]. apply Hpos. exact Hy. }
    rewrite filter_none; [reflexivity | ].
    intros x Hx. rewrite (Hall x Hx). apply Z.ltb_ge. lia.
Qed.

Lemma summary_most_liked_and_health_witness :
  exists s,
    ExecutiveSummary.generate_summary Sample.unliked = Ok (Some s)
    /\ ExecutiveSummary.health s = "Needs Improvement"
    /\ ExecutiveSummary.high_engagement s = 0.
Proof.
  destruct (generate_summary_fields (Sample.mk "first" 0) []) as [s (Hs & _)].
  exists s. split; [exact Hs | ].
  destruct (summary_most_liked_and_health Sample.unliked s Hs)
    as (_ & _ & _ & Hhealth & Hhigh).
  split; [apply Hhealth; reflexivity | ].
  apply Hhigh. intros x [<- | []]. reflexivity.
Defined.

End EngagementMore.

(* ------------------------------------------------------------------ *)
(** ** Engagement patterns *)

Module PatternFacts.
Import PyStr Ranking EngagementSpec CommentAnalyzer.

Lemma max_Z_spec (l : list Z) (m : Z) :
  max_Z l = Ok m -> In m l /\ forall x, In x l -> (x <= m)%Z.
Proof.
  destruct l as [ | a r]; [discriminate | ].
  cbn [max_Z]. intros E. injection E as <-. revert a.
  induction r as [ | y r IH]; intros a; cbn [fold_left].
  - split; [left; reflexivity | ]. intros x [<- | []]. lia.
  - destruct (Z.ltb_spec a y) as [H | H].
    + destruct (IH y) as [Hin Hmax]. split; [right; exact Hin | ].
      intros x [<- | Hx]; [ | apply Hmax; exact Hx].
      specialize (Hmax y (or_introl eq_refl)). lia.
    + destruct (IH a) as [Hin Hmax]. split.
      * destruct Hin as [<- | Hin]; [left; reflexivity | right; right; exact Hin].
      * intros x [<- | [<- | Hx]].
        -- apply Hmax. left. reflexivity.
        -- specialize (Hmax a (or_introl eq_refl)). lia.
        -- apply Hmax. right. exact Hx.
Qed.

Lemma analyze_engagement_fields (f : string -> option datetime)
    (c : comment) (r : list comment) :
  forallb textual (c :: r) = true ->
  exists e,
    analyze_engagement_patterns f (c :: r) = Ok (Some e)
    /\ max_Z (sort_desc (fun y x => (x <? y)%Z) (map like_count (c :: r)))
       = Ok (max_likes e)
    /\ nth_error (sort_desc (fun y x => (x <? y)%Z) (map like_count (c :: r)))
                 (List.length (c :: r) / 2)
       = Some (median_likes e)
    /\ top_comments e
       = map (fun c => {| tc_author := author c;
                          tc_likes := like_count c;
                          tc_text_preview := preview 100 (text c) |})
             (take 5 (sort_desc (fun y x => (like_count x <? like_count y)%Z)
                                (c :: r)))
    /\ peak_hours e = most_common 3 (Counter Nat.eqb (parsed_hours f (c :: r))).
Proof.
  intros Ht.
  unfold analyze_engagement_patterns.
  rewrite EngagementFacts.analyzer_hourly_loop, Ht. cbn [bind].
  remember (sort_desc (fun y x : Z => (x <? y)%Z) (map like_count (c :: r)))
    as likes_data eqn:Hl.
  assert (Hlen : List.length likes_data = List.length (c :: r)).
  { subst likes_data. rewrite sort_desc_length, length_map. reflexivity. }
  destruct likes_data as [ | x l]; [discriminate Hlen | ].
  cbn [max_Z bind]. unfold index. rewrite Hlen.
  destruct (nth_error (x :: l) (List.length (c :: r) / 2)) as [m | ] eqn:Hm.
  - cbn [bind]. eexists. split; [reflexivity | ].
    cbn [max_likes median_likes top_comments peak_hours].
    split; [reflexivity | ]. split; [reflexivity | ]. split; [reflexivity | ].
    apply EngagementFacts.most_common_nil_guard.
  - apply nth_error_None in Hm. exfalso.
    assert (List.length (c :: r) / 2 < List.length (c :: r))
      by (apply Nat.div_lt; cbn [List.length]; lia).
    lia.
Qed.

(** X6.  For every parser of timestamps, [analyze_engagement_patterns] on
    a collection with comments reports as [max_likes] a like count of the
    collection that no comment exceeds, as [median_likes] a like count of
    the collection, and as [top_comments] at most five comments of the
    collection in descending order of likes, the first of which has
    [max_likes] likes. *)
Theorem engagement_extremes (f : string -> option datetime)
    (comments : list comment) (e : engagement) :
  analyze_engagement_patterns f comments = Ok (Some e) ->
  (exists c, In c comments /\ like_count c = max_likes e)
  /\ (forall c, In c comments -> (like_count c <= max_likes e)%Z)
  /\ (exists c, In c comments /\ like_count c = median_likes e)
  /\ List.length (top_comments e) <= 5
  /\ descending tc_likes (top_comments e)
  /\ (forall t, In t (top_comments e) ->
        exists c, In c comments /\ tc_author t = author c
                  /\ tc_likes t = like_count c)
  /\ (exists t, hd_error (top_comments e) = Some t /\ tc_likes t = max_likes e).
Proof.
  intros He. destruct comments as [ | c r]; [discriminate He | ].
  destruct (forallb textual (c :: r)) eqn:Htext.
  2: { rewrite (proj1 (EngagementFacts.analyses_abort f _ Htext)) in He.
       discriminate He. }
  destruct (analyze_engagement_fields f c r Htext)
    as [e' (He' & Hmax & Hmed & Htop & _)]. clear Htext.
  rewrite He' in He. injection He as <-.
  apply max_Z_spec in Hmax. destruct Hmax as [Hin Hmax].
  apply sort_desc_In in Hin. apply in_map_iff in Hin.
  destruct Hin as [cm [Ecm Hcm]].
  assert (Hle : forall x, In x (c :: r) -> (like_count x <= max_likes e')%Z).
  { intros x Hx. apply Hmax. apply sort_desc_In. apply in_map. exact Hx. }
  split; [exists cm; split; assumption | ].
  split; [exact Hle | ].
  split.
  { apply nth_error_In in Hmed. apply sort_desc_In in Hmed.
    apply in_map_iff in Hmed. destruct Hmed as [x [Ex Hx]].
    exists x. split; assumption. }
  rewrite Htop.
  split; [rewrite length_map; apply take_length_le | ].
  assert (Hdesc : descending like_count
            (take 5 (sort_desc (fun y x => (like_count x <? like_count y)%Z)
                               (c :: r))))
    by apply RankingFacts.take_descending, RankingFacts.sort_desc_descending.
  split.
  { unfold descending in *. revert Hdesc.
    generalize (take 5 (sort_desc (fun y x => (like_count x <? like_count y)%Z)
                                  (c :: r))).
    induction 1 as [ | y l Hl IH Hy]; cbn [map]; constructor.
    - exact IH.
    - apply Forall_forall. intros t Ht. apply in_map_iff in Ht.
      destruct Ht as [z [<- Hz]]. cbn [tc_likes].
      rewrite Forall_forall in Hy. exact (Hy z Hz). }
  split.
  { intros t Ht. apply in_map_iff in Ht. destruct Ht as [z [<- Hz]].
    apply take_In in Hz. apply sort_desc_In in Hz.
    exists z. split; [exact Hz | split; reflexivity]. }
  remember (sort_desc (fun y x => (like_count x <? like_count y)%Z) (c :: r))
    as sorted eqn:Hs.
  assert (Hsd : descending like_count sorted)
    by (subst sorted; apply RankingFacts.sort_desc_descending).
  assert (Hslen : List.length sorted = List.length (c :: r))
    by (subst sorted; apply sort_desc_length).
  destruct sorted as [ | y l]; [discriminate Hslen | ].
  cbn [take firstn map hd_error]. eexists. split; [reflexivity | ].
  cbn [tc_likes].
  assert (Hy : In y (c :: r)).
  { apply (sort_desc_In (fun y x => (like_count x <? like_count y)%Z)).
    rewrite <- Hs. left. reflexivity. }
  assert (Hcm' : In cm (y :: l)).
  { rewrite Hs. apply sort_desc_In. exact Hcm. }
  specialize (Hle y Hy).
  unfold descending in Hsd. inversion Hsd as [ | ? ? _ Hall]; subst.
  destruct Hcm' as [<- | Hcl]; [exact Ecm | ].
  rewrite Forall_forall in Hall. specialize (Hall cm Hcl). lia.
Qed.

Lemma engagement_extremes_witness :
  exists e,
    analyze_engagement_patterns Sample.fromisoformat timeline = Ok (Some e)
    /\ (forall c, In c timeline -> (like_count c <= max_likes e)%Z).
Proof.
  destruct (analyze_engagement_fields Sample.fromisoformat
              (Sample.mk_at "a" 3 "2024-01-15T10:30:00Z")
              [ Sample.mk_at "b" 5 "yesterday"; Sample.mk "c" 1;
                Sample.mk_at "d" 5 "2024-01-16T10:00:00Z";
                Sample.mk_at "e" 5 "2024-01-16T23:00:00Z" ] eq_refl)
    as [e [He _]].
  exists e. split; [exact He | ].
  apply (engagement_extremes Sample.fromisoformat timeline e He).
Defined.

(** X7.  For every parser of timestamps, the peak hours reported by
    [analyze_engagement_patterns] and [engagement_analysis] are at most
    three (five) pairs with counts that never increase, and the count of a
    reported hour is the number of comments whose timestamp parses into
    that hour, which is at least one. *)
Theorem peak_hours_counts (f : string -> option datetime)
    (comments : list comment) :
  (forall e, analyze_engagement_patterns f comments = Ok (Some e) ->
     List.length (peak_hours e) <= 3
     /\ non_increasing (peak_hours e)
     /\ forall h n, In (h, n) (peak_hours e) ->
          n = List.length (published_in f h comments) /\ 1 <= n)
  /\ (forall e, AnalyzeComments.engagement_analysis f comments = Ok (Some e) ->
        List.length (AnalyzeComments.peak_hours e) <= 5
        /\ non_increasing (AnalyzeComments.peak_hours e)
        /\ forall h n, In (h, n) (AnalyzeComments.peak_hours e) ->
             n = List.length (published_in f h comments) /\ 1 <= n).
Proof.
  assert (G : forall m,
            List.length (most_common m (Counter Nat.eqb (parsed_hours f comments)))
            <= m
            /\ non_increasing
                 (most_common m (Counter Nat.eqb (parsed_hours f comments)))
            /\ forall h n,
                 In (h, n) (most_common m (Counter Nat.eqb (parsed_hours f comments))) ->
                 n = List.length (published_in f h comments) /\ 1 <= n).
  { intros m. split; [apply take_length_le | ]. split.
    - unfold most_common, non_increasing, take.
      assert (S : StronglySorted (fun a b : nat * nat => snd b <= snd a)
                    (sort_desc (fun y x : nat * nat => snd x <? snd y)
                               (Counter Nat.eqb (parsed_hours f comments)))).
      { generalize (Counter Nat.eqb (parsed_hours f comments)).
        induction l as [ | x r IH]; cbn [sort_desc]; [constructor | ].
        revert IH. generalize (sort_desc (fun y x : nat * nat => snd x <? snd y) r).
        induction 1 as [ | y l Hl IH Hy]; cbn [insert_desc].
        - constructor; constructor.
        - destruct (Nat.ltb_spec (snd x) (snd y)) as [Hlt | Hge].
          + constructor; [exact IH | ].
            apply Forall_forall. intros z Hz.
            apply insert_desc_In in Hz. destruct Hz as [-> | Hz]; [lia | ].
            rewrite Forall_forall in Hy. exact (Hy z Hz).
          + constructor; [constructor; assumption | ].
            constructor; [exact Hge | ].
            eapply Forall_impl; [ | exact Hy]. cbn. intros z Hz. lia. }
      revert m. induction S as [ | y l Hl IH Hy]; intros [ | m]; cbn [firstn];
        try constructor.
      + apply IH.
      + apply Forall_forall. intros z Hz. apply (take_In m) in Hz.
        rewrite Forall_forall in Hy. exact (Hy z Hz).
    - intros h n Hin.
      destruct (CounterFacts.most_common_pair Nat.eqb Nat.eqb_eq m h n _ Hin)
        as [E Hn].
      rewrite EngagementFacts.parsed_hours_in in E. split; assumption. }
  split.
  - intros e He. destruct comments as [ | c r]; [discriminate He | ].
    destruct (forallb textual (c :: r)) eqn:Ht.
    2: { rewrite (proj1 (EngagementFacts.analyses_abort f _ Ht)) in He.
         discriminate He. }
    destruct (analyze_engagement_fields f c r Ht)
      as [e' (He' & _ & _ & _ & Hp)].
    rewrite He' in He. injection He as <-. rewrite Hp. apply G.
  - intros e He. destruct comments as [ | c r]; [discriminate He | ].
    destruct (forallb textual (c :: r)) eqn:Ht.
    2: { rewrite (proj2 (EngagementFacts.analyses_abort f _ Ht)) in He.
         discriminate He. }
    destruct (EngagementFacts.script_returns f c r Ht) as [e' (He' & Hp)].
    rewrite He' in He. injection He as <-. rewrite Hp. apply G.
Qed.

Lemma peak_hours_counts_witness :
  exists e,
    analyze_engagement_patterns Sample.fromisoformat timeline = Ok (Some e)
    /\ List.length (peak_hours e) <= 3.
Proof.
  destruct (analyze_engagement_fields Sample.fromisoformat
              (Sample.mk_at "a" 3 "2024-01-15T10:30:00Z")
              [ Sample.mk_at "b" 5 "yesterday"; Sample.mk "c" 1;
                Sample.mk_at "d" 5 "2024-01-16T10:00:00Z";
                Sample.mk_at "e" 5 "2024-01-16T23:00:00Z" ] eq_refl)
    as [e [He _]].
  exists e. split; [exact He | ].
  destruct (peak_hours_counts Sample.fromisoformat timeline) as [H _].
  apply (H e He).
Defined.

End PatternFacts.

(* ------------------------------------------------------------------ *)
(** ** Keyword counts *)

Module KeywordCounts.
Import PyStr.

Lemma filter_filter_same (P : string -> bool) (w : string) (l : list string) :
  P w = true ->
  filter (fun x => String.eqb x w) (filter P l)
  = filter (fun x => String.eqb x w) l.
Proof.
  intros Hw. induction l as [ | x r IH]; [reflexivity | ].
  cbn [filter]. destruct (P x) eqn:Px; cbn [filter]; rewrite IH;
    [reflexivity | ].
  destruct (String.eqb_spec x w) as [E | E]; [ | reflexivity].
  subst x. congruence.
Qed.

Lemma counted_word (P : string -> bool) (m : nat) (w : string) (n : nat)
    (l : list string) :
  In (w, n) (most_common m (Counter String.eqb (filter P l))) ->
  P w = true
  /\ n = List.length (filter (fun x => String.eqb x w) l)
  /\ 1 <= n.
Proof.
  intros H.
  destruct (CounterFacts.most_common_pair String.eqb String.eqb_eq m w n _ H)
    as [E Hn].
  assert (Hw : P w = true).
  { destruct (filter (fun x => String.eqb x w) (filter P l)) as [ | y r] eqn:F;
      [cbn in E; lia | ].
    assert (Hy : In y (filter (fun x => String.eqb x w) (filter P l)))
      by (rewrite F; left; reflexivity).
    apply filter_In in Hy. destruct Hy as [Hy Ey].
    apply String.eqb_eq in Ey. subst y.
    apply filter_In in Hy. exact (proj2 Hy). }
  split; [exact Hw | ]. split; [ | exact Hn].
  rewrite E. rewrite filter_filter_same by exact Hw. reflexivity.
Qed.

Lemma insert_desc_keys (x : string * nat) (l : list (string * nat)) :
  ~ In (fst x) (map fst l) -> NoDup (map fst l) ->
  NoDup (map fst (insert_desc (fun y x => snd x <? snd y) x l)).
Proof.
  induction l as [ | y r IH]; cbn [insert_desc map]; intros Hx Hl.
  - constructor; [intros [] | constructor].
  - destruct (snd x <? snd y); cbn [map].
    + inversion Hl as [ | ? ? Hy Hr]; subst.
      constructor.
      * intros Hin. apply in_map_iff in Hin. destruct Hin as [z [Ez Hz]].
        apply insert_desc_In in Hz. destruct Hz as [-> | Hz].
        -- apply Hx. left. symmetry. exact Ez.
        -- apply Hy. apply in_map_iff. exists z. split; assumption.
      * apply IH; [ | exact Hr]. intros Hin. apply Hx. right. exact Hin.
    + constructor; assumption.
Qed.

Lemma sort_desc_keys (l : list (string * nat)) :
  NoDup (map fst l) ->
  NoDup (map fst (sort_desc (fun y x => snd x <? snd y) l)).
Proof.
  induction l as [ | x r IH]; cbn [sort_desc map]; intros H;
    [constructor | ].
  inversion H as [ | ? ? Hx Hr]; subst.
  apply insert_desc_keys; [ | apply IH; exact Hr].
  intros Hin. apply Hx. apply in_map_iff in Hin. destruct Hin as [z [Ez Hz]].
  apply sort_desc_In in Hz. apply in_map_iff. exists z. split; assumption.
Qed.

Lemma take_keys (n : nat) (l : list (string * nat)) :
  NoDup (map fst l) -> NoDup (map fst (take n l)).
Proof.
  unfold take. revert n. induction l as [ | x r IH]; intros [ | n] H;
    cbn [firstn map]; try constructor.
  - inversion H as [ | ? ? Hx Hr]; subst.
    intros Hin. apply Hx. apply in_map_iff in Hin. destruct Hin as [z [Ez Hz]].
    apply (take_In n) in Hz. apply in_map_iff. exists z. split; assumption.
  - inversion H; subst. apply IH. assumption.
Qed.

Lemma most_common_keys (n : nat) (l : list string) :
  NoDup (map fst (most_common n (Counter String.eqb l))).
Proof.
  unfold most_common. apply take_keys, sort_desc_keys.
  apply CounterFacts.Counter_NoDup. exact String.eqb_eq.
Qed.

(** X8.  In the result of [extract_keywords] no token comes twice, and the
    number paired with a token is the number of times that the token
    occurs among the runs of word characters of the lower-cased comment
    texts joined by spaces; it is at least 1. *)
Theorem keyword_counts_are_occurrences (comments : list comment)
    (min_word_length top_n : nat) :
  NoDup (map fst (CommentAnalyzer.extract_keywords comments min_word_length top_n))
  /\ forall w n,
       In (w, n) (CommentAnalyzer.extract_keywords comments min_word_length top_n) ->
       n = List.length
             (filter (fun x => String.eqb x w)
                     (Re.findall_words min_word_length (TopicSpec.all_text comments)))
       /\ 1 <= n.
Proof.
  unfold CommentAnalyzer.extract_keywords. split; [apply most_common_keys | ].
  intros w n H. apply counted_word in H. destruct H as (_ & E & Hn).
  split; [exact E | exact Hn].
Qed.

(** X9.  [extract_key_topics] returns nothing for an empty text; otherwise
    at most [top_n] pairs with counts that never increase and no token
    twice; a token of the result is no stop word, its count is the number
    of its occurrences among the matches of the pattern, and for a minimum
    length of at least 1 the token is a run of at least that many word
    characters: a token of exactly the minimum length is counted. *)
Theorem key_topics_counts (d : CaptionAnalyzer.caption_data)
    (min_word_length top_n : nat) :
  (CaptionAnalyzer.full_text d = EmptyString ->
   CaptionAnalyzer.extract_key_topics d min_word_length top_n = [])
  /\ List.length (CaptionAnalyzer.extract_key_topics d min_word_length top_n)
     <= top_n
  /\ non_increasing (CaptionAnalyzer.extract_key_topics d min_word_length top_n)
  /\ NoDup (map fst (CaptionAnalyzer.extract_key_topics d min_word_length top_n))
  /\ forall w n,
       In (w, n) (CaptionAnalyzer.extract_key_topics d min_word_length top_n) ->
       existsb (String.eqb w) CaptionAnalyzer.stop_words = false
       /\ n = List.length
                (filter (fun x => String.eqb x w)
                        (CaptionAnalyzer.findall_runs min_word_length
                           (lower (CaptionAnalyzer.full_text d))))
       /\ 1 <= n
       /\ (1 <= min_word_length -> min_word_length <= String.length w).
Proof.
  unfold CaptionAnalyzer.extract_key_topics, CaptionAnalyzer.filtered_words.
  split; [intros ->; reflexivity | ].
  destruct (nonempty (CaptionAnalyzer.full_text d)).
  - split; [apply take_length_le | ].
    split; [apply KeywordFacts.take_counts, KeywordFacts.sort_desc_counts | ].
    split; [apply most_common_keys | ].
    intros w n H. apply counted_word in H. destruct H as (Hs & E & Hn).
    split; [apply negb_true_iff; exact Hs | ].
    split; [exact E | ]. split; [exact Hn | ].
    intros Hmin.
    assert (Hin : In w (CaptionAnalyzer.findall_runs min_word_length
                          (lower (CaptionAnalyzer.full_text d)))).
    { destruct (filter (fun x => String.eqb x w) _) as [ | y r] eqn:F in E;
        [cbn in E; lia | ].
      assert (Hy : In y (filter (fun x => String.eqb x w)
                           (CaptionAnalyzer.findall_runs min_word_length
                              (lower (CaptionAnalyzer.full_text d)))))
        by (rewrite F; left; reflexivity).
      apply filter_In in Hy. destruct Hy as [Hy Ey].
      apply String.eqb_eq in Ey. subst y. exact Hy. }
    unfold CaptionAnalyzer.findall_runs in Hin.
    destruct (Nat.eqb_spec min_word_length 0) as [Z | _]; [lia | ].
    apply filter_In in Hin. apply Nat.leb_le. exact (proj2 Hin).
  - split; [cbn; lia | ]. split; [constructor | ]. split; [constructor | ].
    intros w n [].
Qed.

Lemma key_topics_counts_witness :
  CaptionAnalyzer.extract_key_topics
    {| CaptionAnalyzer.cd_processed_text := None;
       CaptionAnalyzer.cd_segments := None;
       CaptionAnalyzer.cd_total_duration := None |} 4 20 = []
  /\ 4 <= String.length "pods".
Proof.
  destruct (key_topics_counts CaptionAnalyzer.talk 4 20) as (_ & _ & _ & _ & H).
  split.
  - apply (key_topics_counts
             {| CaptionAnalyzer.cd_processed_text := None;
                CaptionAnalyzer.cd_segments := None;
                CaptionAnalyzer.cd_total_duration := None |} 4 20).
    reflexivity.
  - apply (H "pods" 1); [ | lia].
    vm_compute. do 6 right. left. reflexivity.
Defined.

End KeywordCounts.

(* ------------------------------------------------------------------ *)
(** ** The caption analyzer *)

Module CaptionAnalyzerFacts.
Import PyStr CaptionAnalyzer TextOrder.

Lemma ascii_compare_refl (a : ascii) : Ascii.compare a a = Eq.
Proof. unfold Ascii.compare. apply N.compare_refl. Qed.

Lemma ascii_lt_trans (a b c : ascii) :
  Ascii.compare a b = Lt -> Ascii.compare b c = Lt -> Ascii.compare a c = Lt.
Proof.
  unfold Ascii.compare. rewrite !N.compare_lt_iff. apply N.lt_trans.
Qed.

Lemma lt_trans (s1 s2 s3 : string) : lt s1 s2 -> lt s2 s3 -> lt s1 s3.
Proof.
  unfold lt. revert s2 s3.
  induction s1 as [ | c1 r1 IH]; intros [ | c2 r2] [ | c3 r3]; cbn [String.compare];
    try discriminate; try reflexivity.
  destruct (Ascii.compare c1 c2) eqn:E12; try discriminate;
    destruct (Ascii.compare c2 c3) eqn:E23; try discriminate.
  - apply Ascii.compare_eq_iff in E12, E23. subst c2 c3.
    rewrite ascii_compare_refl. apply IH.
  - apply Ascii.compare_eq_iff in E12. subst c2. rewrite E23. reflexivity.
  - apply Ascii.compare_eq_iff in E23. subst c3. rewrite E12. reflexivity.
  - rewrite (ascii_lt_trans _ _ _ E12 E23). reflexivity.
Qed.

Lemma set_add_In (x z : string) (l : list string) :
  In z (set_add x l) <-> z = x \/ In z l.
Proof.
  induction l as [ | y r IH]; cbn [set_add In]; [intuition congruence | ].
  destruct (String.compare x y) eqn:E; cbn [In].
  - apply String.compare_eq_iff in E. subst y. intuition congruence.
  - intuition congruence.
  - rewrite IH. intuition congruence.
Qed.

Lemma set_add_increasing (x : string) (l : list string) :
  increasing l -> increasing (set_add x l).
Proof.
  unfold increasing.
  induction 1 as [ | y r Hr IH Hy]; cbn [set_add].
  - constructor; constructor.
  - destruct (String.compare x y) eqn:E.
    + constructor; assumption.
    + constructor; [constructor; assumption | ].
      constructor; [exact E | ].
      eapply Forall_impl; [ | exact Hy].
      intros z Hz. exact (lt_trans _ _ _ E Hz).
    + constructor; [exact IH | ].
      apply Forall_forall. intros z Hz. apply set_add_In in Hz.
      destruct Hz as [-> | Hz].
      * unfold lt. rewrite String.compare_antisym, E. reflexivity.
      * rewrite Forall_forall in Hy. exact (Hy z Hz).
Qed.

Lemma sorted_set_spec (l : list string) :
  increasing (sorted_set l) /\ forall z, In z (sorted_set l) <-> In z l.
Proof.
  unfold sorted_set.
  assert (G : forall acc,
             increasing acc ->
             increasing (fold_left (fun acc x => set_add x acc) l acc)
             /\ forall z,
                  In z (fold_left (fun acc x => set_add x acc) l acc)
                  <-> In z l \/ In z acc).
  { induction l as [ | x r IH]; intros acc Hacc; cbn [fold_left].
    - split; [exact Hacc | ]. intros z. cbn [In]. tauto.
    - destruct (IH (set_add x acc) (set_add_increasing x acc Hacc)) as [H1 H2].
      split; [exact H1 | ]. intros z. rewrite H2, set_add_In. cbn [In].
      intuition congruence. }
  destruct (G [] ltac:(constructor)) as [H1 H2].
  split; [exact H1 | ]. intros z. rewrite H2. cbn [In]. tauto.
Qed.

Lemma first_match_spec (alts : list string) (before : option ascii)
    (s a : string) :
  first_match alts before s = Some a -> In a alts /\ prefix a s = true.
Proof.
  induction alts as [ | b r IH]; cbn [first_match]; [discriminate | ].
  destruct (Re.boundary before (Re.head s) && prefix b s
            && Re.boundary (Re.last_char b before)
                 (Re.head (slice_from (String.length b) s))) eqn:E.
  - intros H. injection H as <-.
    apply andb_true_iff in E. destruct E as [E _].
    apply andb_true_iff in E. destruct E as [_ E].
    split; [left; reflexivity | exact E].
  - intros H. destruct (IH H) as [Hin Hp]. split; [right; exact Hin | exact Hp].
Qed.

Lemma findall_alts_go_spec (alts : list string) (a : string) (s : string) :
  forall before skip,
    In a (findall_alts_go alts before s skip) ->
    In a alts /\ contains a s = true.
Proof.
  induction s as [ | c r IH]; intros before skip H; cbn [findall_alts_go] in H;
    [destruct H | ].
  assert (Hr : forall b k, In a (findall_alts_go alts b r k) ->
                 In a alts /\ contains a (String c r) = true).
  { intros b k Hin. destruct (IH _ _ Hin) as [H1 H2].
    split; [exact H1 | ]. cbn [contains]. rewrite H2. apply orb_true_r. }
  destruct skip as [ | k]; [ | exact (Hr _ _ H)].
  destruct (first_match alts before (String c r)) as [b | ] eqn:F;
    [ | exact (Hr _ _ H)].
  destruct H as [<- | H]; [ | exact (Hr _ _ H)].
  destruct (first_match_spec _ _ _ _ F) as [H1 H2].
  split; [exact H1 | ]. cbn [contains]. rewrite H2. reflexivity.
Qed.

(** X10.  [find_technical_terms] returns its terms in strictly increasing
    order, so none twice; each is one of the words of the technical
    patterns and occurs in the lower-cased text. *)
Theorem technical_terms_sorted (d : caption_data) :
  increasing (find_technical_terms d)
  /\ forall term, In term (find_technical_terms d) ->
       In term (List.concat technical_patterns)
       /\ contains term (lower (full_text d)) = true.
Proof.
  unfold find_technical_terms.
  destruct (sorted_set_spec
              (flat_map (fun alts => findall_alts alts (lower (full_text d)))
                        technical_patterns)) as [H1 H2].
  split; [exact H1 | ].
  intros term Hterm. apply H2 in Hterm. apply in_flat_map in Hterm.
  destruct Hterm as [alts [Halts Hin]].
  destruct (findall_alts_go_spec _ _ _ _ _ Hin) as [Ha Hc].
  split; [ | exact Hc].
  apply in_concat. exists alts. split; assumption.
Qed.

Lemma rates_of_ok (segs : list seg_dict) :
  exists rates, rates_of segs = Ok rates /\ List.length rates <= List.length segs.
Proof.
  induction segs as [ | segment r [rates [Hr Hl]]]; cbn [rates_of].
  - exists []. split; [reflexivity | cbn; lia].
  - destruct (Qgt_bool (get_default (sd_duration segment) 0%Q) 0%Q) eqn:E.
    + apply Qgt_bool_true in E.
      rewrite truediv_q_nonzero.
      * cbn [bind]. rewrite Hr. cbn [bind]. eexists. split; [reflexivity | ].
        cbn [List.length]. lia.
      * intros H. rewrite H in E. exact (Qlt_irrefl _ E).
    + exists rates. split; [exact Hr | cbn [List.length]; lia].
Qed.

Lemma transitions_of_length (i : nat) (segment : seg_dict) :
  List.length (transitions_of i segment) <= 3.
Proof.
  unfold transitions_of, transition_patterns. cbn [flat_map].
  rewrite !length_app.
  repeat match goal with
         | |- context [ if ?b then _ else _ ] => destruct b
         end; cbn [List.length]; lia.
Qed.

Lemma transitions_from_length (segs : list seg_dict) (i : nat) :
  List.length (transitions_from i segs) <= 3 * List.length segs.
Proof.
  revert i. induction segs as [ | segment r IH]; intros i; cbn [transitions_from].
  - cbn. lia.
  - rewrite length_app. specialize (IH (S i)).
    assert (H := transitions_of_length i segment). cbn [List.length]. lia.
Qed.

(** X11.  [analyze_content_structure] returns the empty mapping when there
    are no segments.  With segments it raises [ZeroDivisionError] exactly
    when the total duration of the statistics is 0 (a missing one counts
    as 1); otherwise it returns a structure in which the transitions found
    are at most three per segment and the transition points at most
    ten. *)
Theorem content_structure_division (d : caption_data) :
  match segments d with
  | [] => analyze_content_structure d = Ok None
  | _ :: _ =>
      if Qeq_bool (get_default (cd_total_duration d) 1%Q) 0%Q then
        analyze_content_structure d = Raise ZeroDivisionError
      else
        exists st,
          analyze_content_structure d = Ok (Some st)
          /\ total_segments st = List.length (segments d)
          /\ transitions_found st <= 3 * total_segments st
          /\ List.length (transition_points st) <= 10
          /\ List.length (transition_points st) <= transitions_found st
  end.
Proof.
  unfold analyze_content_structure.
  destruct (segments d) as [ | s0 r] eqn:Hs; [reflexivity | ].
  destruct (rates_of_ok (s0 :: r)) as [rates [Hr _]]. rewrite Hr. cbn [bind].
  assert (Havg : exists q,
            match rates with
            | [] => Ok 0%Q
            | _ :: _ =>
                truediv_q (sum_Q rates) (inject_Z (Z.of_nat (List.length rates)))
            end = Ok q).
  { destruct rates as [ | q0 l]; [eexists; reflexivity | ].
    rewrite truediv_q_nonzero; [eexists; reflexivity | ].
    unfold Qeq. cbn [Qnum Qden inject_Z List.length]. lia. }
  destruct Havg as [q Hq]. rewrite Hq. cbn [bind].
  unfold truediv_q.
  destruct (Qeq_bool (get_default (cd_total_duration d) 1%Q) 0) eqn:E;
    [reflexivity | ].
  cbn [bind]. eexists. split; [reflexivity | ].
  cbn [total_segments transitions_found transition_points].
  split; [reflexivity | ].
  split; [apply transitions_from_length | ].
  split; [apply take_length_le | ].
  unfold take. rewrite length_firstn. lia.
Qed.

(** X12.  The analysis of what the downloader makes of a transcript
    raises [ZeroDivisionError] whenever the transcript gives at least one
    segment and a total duration of 0, as a transcript does whose only
    caption starts at 0 and has no duration. *)
Theorem analysis_of_instant_transcript
    (t : list YouTubeCaptionDownloader.entry)
    (p : YouTubeCaptionDownloader.processed) :
  YouTubeCaptionDownloader._process_transcript t = Ok p ->
  YouTubeCaptionDownloader.segments p <> [] ->
  (YouTubeCaptionDownloader.total_duration (YouTubeCaptionDownloader.stats p)
   == 0)%Q ->
  analyze_content_structure (of_processed p) = Raise ZeroDivisionError.
Proof.
  intros _ Hne Hzero.
  assert (H := content_structure_division (of_processed p)).
  assert (Hs : segments (of_processed p) <> []).
  { unfold segments, of_processed. cbn [cd_segments get_default].
    destruct (YouTubeCaptionDownloader.segments p);
      [contradiction | discriminate]. }
  destruct (segments (of_processed p)) as [ | s0 r]; [contradiction | ].
  assert (E : Qeq_bool (get_default (cd_total_duration (of_processed p)) 1%Q) 0%Q
              = true).
  { unfold of_processed. cbn [cd_total_duration get_default].
    apply Qeq_bool_iff. exact Hzero. }
  rewrite E in H. exact H.
Qed.

Lemma analysis_of_instant_transcript_witness :
  exists p,
    YouTubeCaptionDownloader._process_transcript instant = Ok p
    /\ analyze_content_structure (of_processed p) = Raise ZeroDivisionError.
Proof.
  eexists. split; [vm_compute; reflexivity | ].
  apply (analysis_of_instant_transcript instant).
  - vm_compute. reflexivity.
  - discriminate.
  - reflexivity.
Defined.

End CaptionAnalyzerFacts.

(* ------------------------------------------------------------------ *)
(** ** Video identifiers, continued *)

Module VideoIdMore.
Import PyStr.

Lemma id_after_spec (p s v : string) :
  Re.id_after p s = Some v ->
  String.length v = 11 /\ Re.all_chars isidchar v = true.
Proof.
  unfold Re.id_after. destruct (prefix p s); [ | discriminate].
  destruct ((String.length (slice_to 11 (slice_from (String.length p) s)) =? 11)
            && Re.all_chars isidchar (slice_to 11 (slice_from (String.length p) s)))
    eqn:E; [ | discriminate].
  intros H. injection H as <-.
  apply andb_true_iff in E. destruct E as [E1 E2].
  split; [apply Nat.eqb_eq; exact E1 | exact E2].
Qed.

Lemma first_alt_spec (alts : list string) (s v : string) :
  Re.first_alt alts s = Some v ->
  String.length v = 11 /\ Re.all_chars isidchar v = true.
Proof.
  induction alts as [ | p r IH]; cbn [Re.first_alt]; [discriminate | ].
  destruct (Re.id_after p s) as [w | ] eqn:E; [ | exact IH].
  intros H. injection H as <-. exact (id_after_spec _ _ _ E).
Qed.

Lemma search_id_spec (alts : list string) (s v : string) :
  Re.search_id alts s = Some v ->
  String.length v = 11 /\ Re.all_chars isidchar v = true.
Proof.
  induction s as [ | c r IH]; cbn [Re.search_id].
  - destruct (Re.first_alt alts EmptyString) as [w | ] eqn:E; [ | discriminate].
    intros H. injection H as <-. exact (first_alt_spec _ _ _ E).
  - destruct (Re.first_alt alts (String c r)) as [w | ] eqn:E; [ | exact IH].
    intros H. injection H as <-. exact (first_alt_spec _ _ _ E).
Qed.

Lemma slice_split (n : nat) (s : string) :
  s = (slice_to n s ++ slice_from n s)%string.
Proof.
  revert n. induction s as [ | c r IH]; intros [ | n];
    cbn [slice_to slice_from append]; try reflexivity.
  rewrite <- IH. reflexivity.
Qed.

Lemma append_nil (s : string) : (s ++ EmptyString)%string = s.
Proof.
  induction s as [ | c r IH]; [reflexivity | ].
  cbn [append]. rewrite IH. reflexivity.
Qed.

(** What the pattern [^[a-zA-Z0-9_-]{11}$] lets through: an identifier,
    or an identifier and one final newline. *)
Lemma match_video_id_shape (v : string) :
  Re.match_video_id v = true ->
  exists w,
    Re.is_video_id w = true
    /\ (v = w \/ v = (w ++ String newline EmptyString)%string).
Proof.
  unfold Re.match_video_id, Re.is_video_id. intros H.
  apply andb_true_iff in H. destruct H as [H1 H2].
  exists (slice_to 11 v). split; [exact H1 | ].
  apply orb_true_iff in H2. destruct H2 as [H2 | H2];
    apply String.eqb_eq in H2.
  - left. rewrite (slice_split 11 v) at 1. rewrite H2. apply append_nil.
  - right. rewrite (slice_split 11 v) at 1. rewrite H2. reflexivity.
Qed.

Lemma search_id_shape (alts : list string) (s v : string) :
  Re.search_id alts s = Some v -> Re.is_video_id v = true.
Proof.
  intros H. destruct (search_id_spec _ _ _ H) as [H1 H2].
  unfold Re.is_video_id. rewrite H1, H2. reflexivity.
Qed.

Lemma search_id_result (alts : list string) (s v : string) :
  Re.search_id alts s = Some v ->
  exists w,
    Re.is_video_id w = true
    /\ (v = w \/ v = (w ++ String newline EmptyString)%string).
Proof.
  intros H. exists v.
  split; [exact (search_id_shape _ _ _ H) | left; reflexivity].
Qed.

(** X13.  Whatever the URL library does, what [extract_video_id] returns
    is an identifier (eleven letters, digits, [-] or [_]), or an
    identifier followed by one newline: the [$] of the pattern also
    matches in front of a final newline, and the text that matched is
    returned whole.  The only exception raised is [ValueError]. *)
Theorem extracted_id_is_an_id
    (urlparse_query : string -> py string)
    (parse_qs : string -> py (list (string * list string)))
    (url : string) :
  match YouTubeCommentScraper.extract_video_id urlparse_query parse_qs url with
  | Ok v =>
      exists w,
        Re.is_video_id w = true
        /\ (v = w \/ v = (w ++ String newline EmptyString)%string)
  | Raise e => e = ValueError
  end
  /\ match YouTubeCaptionDownloader.extract_video_id urlparse_query parse_qs url with
     | Ok v =>
         exists w,
           Re.is_video_id w = true
           /\ (v = w \/ v = (w ++ String newline EmptyString)%string)
     | Raise e => e = ValueError
     end.
Proof.
  split.
  - unfold YouTubeCommentScraper.extract_video_id.
    destruct (Re.match_video_id url) eqn:E;
      [exact (match_video_id_shape _ E) | ].
    destruct (Re.search_id
                ["youtube.com/watch?v="; "youtu.be/"; "youtube.com/embed/"] url)
      as [v | ] eqn:S1; [exact (search_id_result _ _ _ S1) | ].
    destruct (Re.search_id ["youtube.com/v/"] url) as [v | ] eqn:S2;
      [exact (search_id_result _ _ _ S2) | ].
    unfold YouTubeCommentScraper.from_query.
    destruct (urlparse_query url) as [query | e]; [ | reflexivity].
    cbn [bind]. destruct (parse_qs query) as [d | e]; [ | reflexivity].
    cbn [bind]. destruct (YouTubeCommentScraper.lookup "v" d) as [vs | ];
      [ | reflexivity].
    destruct (index vs 0) as [video_id | e]; [ | reflexivity].
    cbn [bind]. destruct (Re.match_video_id video_id) eqn:M;
      [exact (match_video_id_shape _ M) | reflexivity].
  - unfold YouTubeCaptionDownloader.extract_video_id.
    destruct (Re.match_video_id url) eqn:E;
      [exact (match_video_id_shape _ E) | ].
    destruct (Re.search_id
                ["youtube.com/watch?v="; "youtu.be/"; "youtube.com/embed/"] url)
      as [v | ] eqn:S1; [exact (search_id_result _ _ _ S1) | ].
    destruct (Re.search_id ["youtube.com/v/"] url) as [v | ] eqn:S2;
      [exact (search_id_result _ _ _ S2) | ].
    unfold YouTubeCaptionDownloader.from_query.
    destruct (urlparse_query url) as [query | e]; [ | reflexivity].
    cbn [bind]. destruct (parse_qs query) as [d | e]; [ | reflexivity].
    cbn [bind]. destruct (YouTubeCaptionDownloader.lookup "v" d) as [vs | ];
      [ | reflexivity].
    destruct (index vs 0) as [video_id | e]; [ | reflexivity].
    cbn [bind]. destruct (Re.match_video_id video_id) eqn:M;
      [exact (match_video_id_shape _ M) | reflexivity].
Qed.

(** An identifier followed by a newline is returned with its newline,
    twelve characters. *)
Example id_with_newline_returned :
  let url := ("dQw4w9WgXcQ" ++ String newline EmptyString)%string in
  YouTubeCommentScraper.extract_video_id Sample.urlparse_query Sample.parse_qs
    url = Ok url
  /\ YouTubeCaptionDownloader.extract_video_id Sample.urlparse_query
       Sample.parse_qs url = Ok url
  /\ String.length url = 12.
Proof. repeat split. Qed.

Lemma search_id_step (alts : list string) (c : ascii) (r : string) :
  Re.first_alt alts (String c r) = None ->
  Re.search_id alts (String c r) = Re.search_id alts r.
Proof. intros H. cbn [Re.search_id]. rewrite H. reflexivity. Qed.

Lemma search_id_hit (alts : list string) (s v : string) :
  Re.first_alt alts s = Some v -> Re.search_id alts s = Some v.
Proof. intros H. destruct s; cbn [Re.search_id]; rewrite H; reflexivity. Qed.

Lemma slice_to_app (x rest : string) :
  slice_to (String.length x) (x ++ rest) = x.
Proof.
  induction x as [ | c r IH]; cbn [String.length append slice_to].
  - destruct rest; reflexivity.
  - rewrite IH. reflexivity.
Qed.

(** The group of an identifier followed by any text. *)
Lemma id_group (id rest : string) :
  String.length id = 11 -> Re.all_chars isidchar id = true ->
  ((String.length (slice_to 11 (id ++ rest)) =? 11)
   && Re.all_chars isidchar (slice_to 11 (id ++ rest))) = true
  /\ slice_to 11 (id ++ rest) = id.
Proof.
  intros Hlen Hall.
  assert (E : slice_to 11 (id ++ rest) = id)
    by (rewrite <- Hlen; apply slice_to_app).
  rewrite E, Hlen, Hall. split; reflexivity.
Qed.

(** X14.  An identifier is read back from the usual forms of a video URL:
    for every identifier [id] (eleven letters, digits, [-] or [_]) and
    every text [rest] after it, [extract_video_id] returns [id] on the
    watch, short and embed URLs made with it. *)
Theorem video_url_round_trip
    (urlparse_query : string -> py string)
    (parse_qs : string -> py (list (string * list string)))
    (id rest : string) :
  String.length id = 11 -> Re.all_chars isidchar id = true ->
  YouTubeCommentScraper.extract_video_id urlparse_query parse_qs
    ("https://www.youtube.com/watch?v=" ++ id ++ rest) = Ok id
  /\ YouTubeCommentScraper.extract_video_id urlparse_query parse_qs
       ("https://youtu.be/" ++ id ++ rest) = Ok id
  /\ YouTubeCommentScraper.extract_video_id urlparse_query parse_qs
       ("https://www.youtube.com/embed/" ++ id ++ rest) = Ok id
  /\ YouTubeCaptionDownloader.extract_video_id urlparse_query parse_qs
       ("https://www.youtube.com/watch?v=" ++ id ++ rest) = Ok id
  /\ YouTubeCaptionDownloader.extract_video_id urlparse_query parse_qs
       ("https://youtu.be/" ++ id ++ rest) = Ok id
  /\ YouTubeCaptionDownloader.extract_video_id urlparse_query parse_qs
       ("https://www.youtube.com/embed/" ++ id ++ rest) = Ok id.
Proof.
  intros Hlen Hall.
  destruct (id_group id rest Hlen Hall) as [G E].
  assert (S1 : Re.search_id
                 ["youtube.com/watch?v="; "youtu.be/"; "youtube.com/embed/"]
                 ("https://www.youtube.com/watch?v=" ++ id ++ rest) = Some id).
  { cbn [append].
    do 12 (rewrite search_id_step by reflexivity).
    apply search_id_hit. cbn [Re.first_alt].
    unfold Re.id_after at 1. cbn [prefix String.length slice_from].
    repeat (destruct (ascii_dec _ _) as [_ | N]; [ | exfalso; apply N; reflexivity]).
    replace (prefix EmptyString (id ++ rest)) with true
      by (destruct (id ++ rest)%string; reflexivity).
    rewrite G, E. reflexivity. }
  assert (S2 : Re.search_id
                 ["youtube.com/watch?v="; "youtu.be/"; "youtube.com/embed/"]
                 ("https://youtu.be/" ++ id ++ rest) = Some id).
  { cbn [append].
    do 8 (rewrite search_id_step by reflexivity).
    apply search_id_hit. cbn [Re.first_alt].
    replace (Re.id_after "youtube.com/watch?v="
               (String "y" (String "o" (String "u" (String "t" (String "u"
                 (String "." (String "b" (String "e" (String "/" (id ++ rest)))))))))))
      with (@None string) by reflexivity.
    unfold Re.id_after at 1. cbn [prefix String.length slice_from].
    repeat (destruct (ascii_dec _ _) as [_ | N]; [ | exfalso; apply N; reflexivity]).
    replace (prefix EmptyString (id ++ rest)) with true
      by (destruct (id ++ rest)%string; reflexivity).
    rewrite G, E. reflexivity. }
  assert (S3 : Re.search_id
                 ["youtube.com/watch?v="; "youtu.be/"; "youtube.com/embed/"]
                 ("https://www.youtube.com/embed/" ++ id ++ rest) = Some id).
  { cbn [append].
    do 12 (rewrite search_id_step by reflexivity).
    apply search_id_hit. cbn [Re.first_alt].
    replace (Re.id_after "youtube.com/watch?v=" _) with (@None string)
      by reflexivity.
    replace (Re.id_after "youtu.be/" _) with (@None string) by reflexivity.
    unfold Re.id_after at 1. cbn [prefix String.length slice_from].
    repeat (destruct (ascii_dec _ _) as [_ | N]; [ | exfalso; apply N; reflexivity]).
    replace (prefix EmptyString (id ++ rest)) with true
      by (destruct (id ++ rest)%string; reflexivity).
    rewrite G, E. reflexivity. }
  unfold YouTubeCommentScraper.extract_video_id,
    YouTubeCaptionDownloader.extract_video_id.
  rewrite S1, S2, S3.
  replace (Re.match_video_id ("https://www.youtube.com/watch?v=" ++ id ++ rest))
    with false by reflexivity.
  replace (Re.match_video_id ("https://youtu.be/" ++ id ++ rest))
    with false by reflexivity.
  replace (Re.match_video_id ("https://www.youtube.com/embed/" ++ id ++ rest))
    with false by reflexivity.
  repeat split.
Qed.

Lemma video_url_round_trip_witness :
  YouTubeCommentScraper.extract_video_id Sample.urlparse_query Sample.parse_qs
    "https://www.youtube.com/watch?v=dQw4w9WgXcQ&t=42" = Ok "dQw4w9WgXcQ".
Proof.
  apply (video_url_round_trip Sample.urlparse_query Sample.parse_qs
           "dQw4w9WgXcQ" "&t=42"); reflexivity.
Defined.

End VideoIdMore.

(* ------------------------------------------------------------------ *)
(** ** Cleaned caption text *)

Module CleanTextFacts.
Import PyStr YouTubeCaptionDownloader Words.

Lemma append_empty (s : string) : (s ++ EmptyString)%string = s.
Proof. induction s as [ | c r IH]; cbn; [ | rewrite IH]; reflexivity. Qed.

Lemma rstrip_word_char (c : ascii) (r : string) :
  isspace c = false -> rstrip (String c r) = String c (rstrip r).
Proof. intros H. cbn [rstrip]. rewrite H. destruct (rstrip r); reflexivity. Qed.

Lemma pieces_not_nil (f : ascii -> bool) (s : string) :
  exists w ws, pieces f s = w :: ws.
Proof.
  induction s as [ | c r [w [ws IH]]]; cbn [pieces].
  - eexists _, _. reflexivity.
  - destruct (f c); [eexists _, _; reflexivity | ].
    rewrite IH. eexists _, _. reflexivity.
Qed.

Lemma join_word_char (c : ascii) (w : string) (l : list string) :
  join " " (String c w :: l) = String c (join " " (w :: l)).
Proof. destruct l; reflexivity. Qed.

Lemma join_starts (a : string) (l : list string) :
  nonempty a = true -> exists c s, join " " (a :: l) = String c s.
Proof.
  destruct a as [ | c a']; [discriminate | ]. intros _.
  rewrite join_word_char. eexists _, _. reflexivity.
Qed.

Lemma filter_nonempty_starts (l : list string) (a : string) (r : list string) :
  filter nonempty l = a :: r -> nonempty a = true.
Proof.
  intros H. assert (Hin : In a (filter nonempty l)) by (rewrite H; left; reflexivity).
  apply filter_In in Hin. exact (proj2 Hin).
Qed.

(** The text in front of which one space is put, unless it is empty. *)
Lemma spaced_join (l : list string) :
  (forall a r, l = a :: r -> nonempty a = true) ->
  match join " " l with
  | EmptyString => EmptyString
  | String c s => String space (String c s)
  end
  = join " " (EmptyString :: l).
Proof.
  intros H. destruct l as [ | a r]; [reflexivity | ].
  destruct (join_starts a r (H a r eq_refl)) as [c [s E]].
  rewrite E. cbn [join]. cbn [join] in E. rewrite E. reflexivity.
Qed.

Lemma lstrip_sub_spaces (x : string) (b : bool) :
  lstrip (Re.sub_spaces_go x b) = Re.sub_spaces_go x true.
Proof.
  revert b. induction x as [ | c r IH]; intros b; [reflexivity | ].
  cbn [Re.sub_spaces_go]. destruct (isspace c) eqn:E.
  - destruct b; [apply IH | ]. cbn [lstrip].
    replace (isspace space) with true by reflexivity. apply IH.
  - cbn [lstrip]. rewrite E. reflexivity.
Qed.

(** What is left of a text after the runs of white space are replaced and
    the end is stripped: the words, with a space in front when the text
    began with white space. *)
Lemma rstrip_sub_spaces (x : string) :
  rstrip (Re.sub_spaces_go x true) = join " " (split x)
  /\ rstrip (Re.sub_spaces_go x false)
     = match pieces isspace x with
       | w :: ws => join " " (w :: filter nonempty ws)
       | [] => EmptyString
       end.
Proof.
  unfold split.
  induction x as [ | c r [IHt IHf]]; [split; reflexivity | ].
  destruct (pieces_not_nil isspace r) as [w [ws Hp]].
  rewrite Hp in IHf.
  assert (Hword : isspace c = false ->
            rstrip (String c (Re.sub_spaces_go r false))
            = join " " (filter nonempty (String c w :: ws))).
  { intros E. rewrite rstrip_word_char by exact E. rewrite IHf.
    cbn [filter nonempty]. destruct (filter nonempty ws); reflexivity. }
  cbn [Re.sub_spaces_go pieces]. destruct (isspace c) eqn:E.
  - cbn [filter nonempty]. split; [exact IHt | ].
    cbn [rstrip]. rewrite IHt. replace (isspace space) with true by reflexivity.
    rewrite Hp.
    assert (S := spaced_join (filter nonempty (w :: ws))
                   (filter_nonempty_starts (w :: ws))).
    destruct (join " " (filter nonempty (w :: ws))); exact S.
  - rewrite Hp. split; [exact (Hword eq_refl) | ].
    rewrite rstrip_word_char by exact E. rewrite IHf.
    rewrite join_word_char. reflexivity.
Qed.

Lemma strip_sub_spaces (x : string) :
  strip (Re.sub_spaces x) = join " " (split x).
Proof.
  unfold strip, Re.sub_spaces. rewrite lstrip_sub_spaces.
  exact (proj1 (rstrip_sub_spaces x)).
Qed.

Lemma pieces_solid (x : string) :
  Forall (fun w => solid w = true) (pieces isspace x).
Proof.
  induction x as [ | c r IH]; cbn [pieces].
  - constructor; [reflexivity | constructor].
  - destruct (isspace c) eqn:E.
    + constructor; [reflexivity | exact IH].
    + destruct (pieces isspace r) as [ | w ws].
      * constructor; [unfold solid; cbn; rewrite E; reflexivity | constructor].
      * inversion IH as [ | ? ? Hw Hws]; subst.
        constructor; [ | exact Hws].
        unfold solid in *. cbn [Re.all_chars]. rewrite E, Hw. reflexivity.
Qed.

Lemma pieces_solid_front (w s : string) :
  solid w = true ->
  pieces isspace (w ++ s)
  = match pieces isspace s with
    | p :: ps => (w ++ p)%string :: ps
    | [] => [w]
    end.
Proof.
  unfold solid. induction w as [ | c r IH]; intros H.
  - cbn [append]. destruct (pieces_not_nil isspace s) as [p [ps E]].
    rewrite E. reflexivity.
  - cbn [Re.all_chars] in H. apply andb_true_iff in H. destruct H as [Hc Hr].
    apply negb_true_iff in Hc.
    cbn [append pieces]. rewrite Hc, (IH Hr).
    destruct (pieces isspace s); reflexivity.
Qed.

Lemma split_join (ws : list string) :
  Forall (fun w => solid w = true) ws ->
  Forall (fun w => nonempty w = true) ws ->
  split (join " " ws) = ws.
Proof.
  unfold split.
  induction ws as [ | w r IH]; intros Hs Hn; [reflexivity | ].
  inversion Hs as [ | ? ? Hw Hr]; subst.
  inversion Hn as [ | ? ? Nw Nr]; subst.
  destruct r as [ | w2 r'].
  - cbn [join]. rewrite <- (append_empty w) at 1.
    rewrite pieces_solid_front by exact Hw. cbn [pieces].
    rewrite append_empty. cbn [filter]. rewrite Nw. reflexivity.
  - change (join " " (w :: w2 :: r'))
      with (w ++ String space (join " " (w2 :: r')))%string.
    rewrite pieces_solid_front by exact Hw.
    cbn [pieces]. replace (isspace space) with true by reflexivity.
    rewrite append_empty. cbn [filter]. rewrite Nw.
    rewrite (IH Hr Nr). reflexivity.
Qed.

Lemma split_words (x : string) :
  Forall (fun w => solid w = true) (split x)
  /\ Forall (fun w => nonempty w = true) (split x).
Proof.
  unfold split. split; apply Forall_forall; intros w Hw;
    apply filter_In in Hw; destruct Hw as [Hin Hne]; [ | exact Hne].
  assert (H := pieces_solid x). rewrite Forall_forall in H. exact (H w Hin).
Qed.

Lemma rstrip_solid_front (w s : string) :
  solid w = true -> rstrip (w ++ s) = (w ++ rstrip s)%string.
Proof.
  unfold solid. induction w as [ | c r IH]; intros H; [reflexivity | ].
  cbn [Re.all_chars] in H. apply andb_true_iff in H. destruct H as [Hc Hr].
  apply negb_true_iff in Hc.
  cbn [append]. rewrite rstrip_word_char by exact Hc. rewrite (IH Hr).
  reflexivity.
Qed.

Lemma strip_join (ws : list string) :
  Forall (fun w => solid w = true) ws ->
  Forall (fun w => nonempty w = true) ws ->
  strip (join " " ws) = join " " ws.
Proof.
  intros Hs Hn. unfold strip.
  assert (L : lstrip (join " " ws) = join " " ws).
  { destruct ws as [ | w r]; [reflexivity | ].
    inversion Hs as [ | ? ? Hw _]; subst. inversion Hn as [ | ? ? Nw _]; subst.
    destruct w as [ | c w']; [discriminate Nw | ].
    unfold solid in Hw. cbn [Re.all_chars] in Hw.
    apply andb_true_iff in Hw. destruct Hw as [Hc _].
    apply negb_true_iff in Hc.
    rewrite join_word_char. cbn [lstrip]. rewrite Hc. reflexivity. }
  rewrite L. clear L.
  induction ws as [ | w r IH]; [reflexivity | ].
  inversion Hs as [ | ? ? Hw Hr]; subst.
  inversion Hn as [ | ? ? Nw Nr]; subst.
  destruct r as [ | w2 r'].
  - cbn [join]. rewrite <- (append_empty w) at 1.
    rewrite rstrip_solid_front by exact Hw. cbn [rstrip]. apply append_empty.
  - change (join " " (w :: w2 :: r'))
      with (w ++ String space (join " " (w2 :: r')))%string.
    rewrite rstrip_solid_front by exact Hw. f_equal.
    cbn [rstrip]. rewrite (IH Hr Nr).
    inversion Nr as [ | ? ? N2 _]; subst.
    destruct (join_starts w2 r' N2) as [c [t E]]. rewrite E. reflexivity.
Qed.

(** X15.  The cleaned caption text is made of the words of the text that
    the three deletions leave, with one space between two words: it has no
    white space at its ends, splitting it gives those words, and joining
    its words with single spaces gives it back. *)
Theorem clean_text_single_spaced (text : string) :
  let deleted :=
    Re.sub_delim ">>" "<<" (Re.sub_delim "(" ")" (Re.sub_delim "[" "]" text)) in
  let cleaned := _clean_caption_text text in
  cleaned = join " " (split deleted)
  /\ split cleaned = split deleted
  /\ join " " (split cleaned) = cleaned
  /\ strip cleaned = cleaned.
Proof.
  intros deleted cleaned.
  assert (E : cleaned = join " " (split deleted))
    by (unfold cleaned, _clean_caption_text; apply strip_sub_spaces).
  destruct (split_words deleted) as [Hs Hn].
  assert (S : split cleaned = split deleted)
    by (rewrite E; apply split_join; assumption).
  split; [exact E | ]. split; [exact S | ].
  split; [rewrite S; symmetry; exact E | ].
  rewrite E. apply strip_join; assumption.
Qed.

End CleanTextFacts.

(* ------------------------------------------------------------------ *)
(** ** Transcript statistics *)

Module TranscriptFacts.
Import PyStr YouTubeCaptionDownloader.

Lemma py_max_fold (r : list Q) (a : Q) :
  let m := fold_left (fun acc y => if Qgt_bool y acc then y else acc) r a in
  In m (a :: r) /\ (a <= m)%Q /\ forall x, In x r -> (x <= m)%Q.
Proof.
  revert a. induction r as [ | y r IH]; intros a; cbn [fold_left].
  - split; [left; reflexivity | ]. split; [apply Qle_refl | intros x []].
  - destruct (Qgt_bool y a) eqn:E.
    + destruct (IH y) as (Hin & Hle & Hall).
      apply Qgt_bool_true in E.
      split; [right; exact Hin | ]. split.
      * apply Qle_trans with y; [apply Qlt_le_weak; exact E | exact Hle].
      * intros x [<- | Hx]; [exact Hle | exact (Hall x Hx)].
    + destruct (IH a) as (Hin & Hle & Hall).
      assert (Hya : (y <= a)%Q).
      { apply Qnot_lt_le. intros H. apply Qgt_bool_true in H. congruence. }
      split; [destruct Hin as [<- | Hin]; [left; reflexivity | right; right; exact Hin] | ].
      split; [exact Hle | ].
      intros x [<- | Hx]; [ | exact (Hall x Hx)].
      apply Qle_trans with a; assumption.
Qed.

Lemma py_max_spec (l : list Q) (m : Q) :
  py_max l = Ok m -> In m l /\ forall x, In x l -> (x <= m)%Q.
Proof.
  destruct l as [ | a r]; [discriminate | ].
  cbn [py_max]. intros E. injection E as <-.
  destruct (py_max_fold r a) as (Hin & Hle & Hall).
  split; [exact Hin | ]. intros x [<- | Hx]; [exact Hle | exact (Hall x Hx)].
Qed.

Lemma pieces_around_space (a b : string) :
  pieces isspace (a ++ String space b) = pieces isspace a ++ pieces isspace b.
Proof.
  induction a as [ | c r IH]; cbn [append pieces].
  - replace (isspace space) with true by reflexivity. reflexivity.
  - rewrite IH. destruct (isspace c); [reflexivity | ].
    destruct (CleanTextFacts.pieces_not_nil isspace r) as [w [ws E]].
    rewrite E. reflexivity.
Qed.

Lemma split_around_space (a b : string) :
  split (a ++ String space b) = split a ++ split b.
Proof. unfold split. rewrite pieces_around_space. apply filter_app. Qed.

Lemma words_of_join (texts : list string) :
  List.length (split (join " " texts))
  = list_sum (map (fun t => List.length (split t)) texts).
Proof.
  induction texts as [ | x r IH]; [reflexivity | ].
  destruct r as [ | y r'].
  - cbn [join map list_sum fold_right]. lia.
  - change (join " " (x :: y :: r'))
      with (x ++ String space (join " " (y :: r')))%string.
    rewrite split_around_space, length_app, IH. reflexivity.
Qed.

Lemma process_transcript_stats (e : entry) (r : list entry) :
  exists p,
    _process_transcript (e :: r) = Ok p
    /\ segments p = collect_segments (e :: r)
    /\ total_words (stats p)
       = Some (if nonempty (join " " (map seg_text (collect_segments (e :: r))))
               then List.length
                      (split (join " " (map seg_text (collect_segments (e :: r)))))
               else 0)
    /\ match collect_segments (e :: r) with
       | [] => total_duration (stats p) = 0%Q
       | _ :: _ =>
           py_max (map seg_end (collect_segments (e :: r)))
           = Ok (total_duration (stats p))
       end
    /\ (Qgt_bool (total_duration (stats p)) 0%Q = false ->
        words_per_minute (stats p) = 0%Q)
    /\ total_characters (stats p)
       = Some (String.length (join " " (map seg_text (collect_segments (e :: r))))).
Proof.
  unfold _process_transcript.
  remember (collect_segments (e :: r)) as segs eqn:Hsegs.
  destruct segs as [ | s l].
  - cbn [bind map]. eexists. split; [reflexivity | ].
    cbn [segments stats total_words total_duration words_per_minute total_characters].
    repeat split.
  - set (td := py_max (map seg_end (s :: l))).
    cbn [py_max map] in td. subst td. cbn [bind].
    match goal with
    | |- context [ bind (if Qgt_bool ?d 0%Q then ?a else ?b) ] =>
        destruct (CaptionFacts.words_per_minute_ok d
                    (if nonempty (join " " (map seg_text (s :: l)))
                     then List.length (split (join " " (map seg_text (s :: l))))
                     else 0)) as [q Hq];
        assert (Hz : Qgt_bool d 0%Q = false -> q = 0%Q)
    end.
    { intros Hf. rewrite Hf in Hq. injection Hq as <-. reflexivity. }
    rewrite Hq. cbn [bind].
    rewrite truediv_self by (cbn [List.length]; lia).
    cbn [bind]. eexists. split; [reflexivity | ].
    cbn [segments stats total_words total_duration words_per_minute
         total_characters py_max map].
    split; [reflexivity | ]. split; [reflexivity | ].
    split; [reflexivity | ]. split; [exact Hz | reflexivity].
Qed.

(** X16.  In the statistics of a transcript that is not empty, the total
    of words is the sum of the numbers of words of the segment texts; the
    total duration is the end of one of the segments and no segment ends
    later (it is 0 without segments); and the words per minute are 0
    unless the total duration is positive. *)
Theorem transcript_totals (t : list entry) (p : processed) :
  t <> [] ->
  _process_transcript t = Ok p ->
  total_words (stats p)
  = Some (list_sum (map (fun s => List.length (split (seg_text s))) (segments p)))
  /\ (forall s, In s (segments p) -> (seg_end s <= total_duration (stats p))%Q)
  /\ match segments p with
     | [] => total_duration (stats p) = 0%Q
     | _ :: _ => exists s, In s (segments p) /\ total_duration (stats p) = seg_end s
     end
  /\ (~ (0 < total_duration (stats p))%Q -> words_per_minute (stats p) = 0%Q).
Proof.
  intros Hne Hp. destruct t as [ | e r]; [contradiction | ].
  destruct (process_transcript_stats e r) as [p' (Hp' & Hs & Hw & Hd & Hm & _)].
  rewrite Hp' in Hp. injection Hp as <-. rewrite Hs.
  split.
  { rewrite Hw. f_equal.
    rewrite <- (map_map seg_text (fun t => List.length (split t))).
    rewrite <- words_of_join.
    destruct (join " " (map seg_text (collect_segments (e :: r)))); reflexivity. }
  destruct (collect_segments (e :: r)) as [ | s l].
  - split; [intros s [] | ]. split; [exact Hd | ].
    intros _. apply Hm. rewrite Hd. reflexivity.
  - apply py_max_spec in Hd. destruct Hd as [Hin Hmax].
    split; [intros x Hx; apply Hmax; apply in_map; exact Hx | ].
    split.
    + apply in_map_iff in Hin. destruct Hin as [x [Ex Hx]].
      exists x. split; [exact Hx | symmetry; exact Ex].
    + intros Hnot. apply Hm.
      destruct (Qgt_bool (total_duration (stats p')) 0) eqn:G; [ | reflexivity].
      apply Qgt_bool_true in G. contradiction.
Qed.

Lemma transcript_totals_witness :
  exists p,
    _process_transcript scenario = Ok p
    /\ total_words (stats p)
       = Some (list_sum (map (fun s => List.length (split (seg_text s)))
                             (segments p))).
Proof.
  eexists. split; [vm_compute; reflexivity | ].
  apply (transcript_totals scenario); [discriminate | vm_compute; reflexivity].
Defined.

End TranscriptFacts.

(* ------------------------------------------------------------------ *)
(** ** Scraping *)

Module ScrapingFacts.
Import Scraping.

Lemma replies_loop_result (max_comments : option Z) (parent : scraped)
    (replies : list comment_data) (count : nat) :
  loop_result max_comments (map (reply_of parent) replies) count
    (replies_loop max_comments parent replies count).
Proof.
  revert count. induction replies as [ | x r IH]; intros count;
    cbn [replies_loop map].
  - cbn. split; [lia | ]. split; [exists []; reflexivity | ].
    split; [reflexivity | discriminate].
  - destruct (reached max_comments count) eqn:E.
    + cbn. split; [lia | ]. split; [eexists; reflexivity | ].
      split; [discriminate | intros _; exact E].
    + specialize (IH (S count)).
      destruct (replies_loop max_comments parent r (S count)) as [[ys n] ret].
      cbn in IH |- *. destruct IH as (Hn & [rest Hp] & Hall & Hret).
      split; [lia | ]. split; [exists rest; rewrite Hp; reflexivity | ].
      split; [intros H; rewrite (Hall H); reflexivity | exact Hret].
Qed.

Lemma items_loop_result (max_comments : option Z) (items : list thread)
    (count : nat) :
  loop_result max_comments (flat_map thread_comments items) count
    (items_loop max_comments items count).
Proof.
  revert count. induction items as [ | item r IH]; intros count;
    cbn [items_loop flat_map].
  - cbn. split; [lia | ]. split; [exists []; reflexivity | ].
    split; [reflexivity | discriminate].
  - unfold thread_comments at 1.
    set (comment := _parse_comment (th_topLevelComment item)).
    destruct (reached max_comments (S count)) eqn:E.
    + cbn. split; [lia | ]. split; [eexists; reflexivity | ].
      split; [discriminate | intros _; exact E].
    + assert (R : loop_result max_comments
                    (map (reply_of comment) (get_default (th_replies item) []))
                    (S count)
                    match th_replies item with
                    | Some replies =>
                        replies_loop max_comments comment replies (S count)
                    | None => ([], S count, false)
                    end).
      { destruct (th_replies item) as [replies | ].
        - apply replies_loop_result.
        - cbn. split; [lia | ]. split; [exists []; reflexivity | ].
          split; [reflexivity | discriminate]. }
      destruct (match th_replies item with
                | Some replies => _
                | None => _
                end) as [[ys n] ret].
      cbn in R. destruct R as (Hn & [rest Hp] & Hall & Hret).
      destruct ret.
      * cbn. split; [lia | ]. split.
        -- exists (rest ++ flat_map thread_comments r). rewrite Hp.
           cbn [app]. rewrite <- app_assoc. reflexivity.
        -- split; [discriminate | exact Hret].
      * specialize (IH n). rewrite (Hall eq_refl) in *.
        destruct (items_loop max_comments r n) as [[zs n'] ret'].
        cbn in IH |- *. destruct IH as (Hn' & [rest' Hp'] & Hall' & Hret').
        split; [rewrite length_app; lia | ]. split.
        -- exists rest'. rewrite Hp'. cbn [app]. rewrite <- app_assoc.
           reflexivity.
        -- split; [intros H; rewrite (Hall' H); reflexivity | exact Hret'].
Qed.

(** The upper bound: with a limit [m > 0], a loop entered with at most [m]
    comments leaves with at most [m + 1], and with at most [m] when it has
    not returned. *)
Lemma replies_loop_bound (m : Z) (parent : scraped)
    (replies : list comment_data) (count : nat) :
  (0 < m)%Z -> (Z.of_nat count <= m)%Z ->
  let '(ys, n, returned) := replies_loop (Some m) parent replies count in
  (Z.of_nat n <= m)%Z.
Proof.
  intros Hm. revert count. induction replies as [ | x r IH]; intros count Hc;
    cbn [replies_loop]; [exact Hc | ].
  destruct (reached (Some m) count) eqn:E; [exact Hc | ].
  assert (Hlt : (Z.of_nat count < m)%Z).
  { unfold reached in E. apply andb_false_iff in E. destruct E as [E | E].
    - apply negb_false_iff in E. apply Z.eqb_eq in E. lia.
    - apply Z.leb_gt in E. exact E. }
  specialize (IH (S count) ltac:(lia)).
  destruct (replies_loop (Some m) parent r (S count)) as [[ys n] ret].
  exact IH.
Qed.

Lemma items_loop_bound (m : Z) (items : list thread) (count : nat) :
  (0 < m)%Z -> (Z.of_nat count <= m)%Z ->
  let '(ys, n, returned) := items_loop (Some m) items count in
  (Z.of_nat n <= m + 1)%Z /\ (returned = false -> (Z.of_nat n <= m)%Z).
Proof.
  intros Hm. revert count. induction items as [ | item r IH]; intros count Hc;
    cbn [items_loop].
  - split; [lia | intros _; exact Hc].
  - destruct (reached (Some m) (S count)) eqn:E.
    + split; [lia | discriminate].
    + assert (Hlt : (Z.of_nat (S count) < m)%Z).
      { unfold reached in E. apply andb_false_iff in E. destruct E as [E | E].
        - apply negb_false_iff in E. apply Z.eqb_eq in E. lia.
        - apply Z.leb_gt in E. exact E. }
      assert (R : let '(ys, n, returned) :=
                    match th_replies item with
                    | Some replies =>
                        replies_loop (Some m)
                          (_parse_comment (th_topLevelComment item)) replies (S count)
                    | None => ([], S count, false)
                    end in
                  (Z.of_nat n <= m)%Z).
      { destruct (th_replies item) as [replies | ].
        - apply replies_loop_bound; lia.
        - lia. }
      destruct (match th_replies item with
                | Some replies => _
                | None => _
                end) as [[ys n] ret].
      destruct ret.
      * split; [lia | discriminate].
      * specialize (IH n R).
        destruct (items_loop (Some m) r n) as [[zs n'] ret']. exact IH.
Qed.

Lemma pages_loop_result (max_comments : option Z) (pages : list (list thread))
    (count : nat) :
  (exists rest,
     all_comments pages = pages_loop max_comments pages count ++ rest)
  /\ (pages_loop max_comments pages count = all_comments pages
      \/ reached max_comments
           (count + List.length (pages_loop max_comments pages count)) = true).
Proof.
  unfold all_comments. revert count.
  induction pages as [ | page r IH]; intros count; cbn [pages_loop List.concat].
  - split; [exists []; reflexivity | left; reflexivity].
  - rewrite flat_map_app.
    assert (R := items_loop_result max_comments page count).
    destruct (items_loop max_comments page count) as [[ys n] ret].
    cbn in R. destruct R as (Hn & [rest Hp] & Hall & Hret).
    destruct ret.
    + split.
      * exists (rest ++ flat_map thread_comments (List.concat r)).
        rewrite Hp, <- app_assoc. reflexivity.
      * right. rewrite <- Hn. apply Hret. reflexivity.
    + rewrite (Hall eq_refl) in *. destruct (IH n) as [[rest' Hp'] Hor].
      split.
      * exists rest'. rewrite Hp' at 1. rewrite app_assoc. reflexivity.
      * destruct Hor as [Hor | Hor].
        -- left. rewrite Hor. reflexivity.
        -- right. rewrite length_app, Nat.add_assoc, <- Hn. exact Hor.
Qed.

Lemma pages_loop_bound (m : Z) (pages : list (list thread)) (count : nat) :
  (0 < m)%Z -> (Z.of_nat count <= m)%Z ->
  (Z.of_nat (count + List.length (pages_loop (Some m) pages count)) <= m + 1)%Z.
Proof.
  intros Hm. revert count. induction pages as [ | page r IH]; intros count Hc;
    cbn [pages_loop].
  - cbn [List.length]. lia.
  - assert (R := items_loop_result (Some m) page count).
    assert (B := items_loop_bound m page count Hm Hc).
    destruct (items_loop (Some m) page count) as [[ys n] ret].
    cbn in R. destruct R as (Hn & _). destruct B as [B1 B2].
    destruct ret.
    + lia.
    + specialize (IH n (B2 eq_refl)). rewrite length_app. lia.
Qed.

(** X17.  [scrape_comments] yields a beginning of the comments of the
    pages, in their order.  Without a limit, and with the limit 0, it
    yields them all.  With a limit [m > 0] it yields at least [m] of them
    when there are as many, and at most [m + 1]: after a reply that
    reaches the limit, the top-level comment of the next thread is still
    yielded. *)
Theorem scrape_comments_limit (pages : list (list thread))
    (max_comments : option Z) :
  (exists rest,
     all_comments pages = scrape_comments pages max_comments ++ rest)
  /\ (max_comments = None \/ max_comments = Some 0%Z ->
      scrape_comments pages max_comments = all_comments pages)
  /\ forall m, max_comments = Some m -> (0 < m)%Z ->
       (Z.of_nat (List.length (scrape_comments pages max_comments)) <= m + 1)%Z
       /\ (Z.min m (Z.of_nat (List.length (all_comments pages)))
           <= Z.of_nat (List.length (scrape_comments pages max_comments)))%Z.
Proof.
  unfold scrape_comments.
  destruct (pages_loop_result max_comments pages 0) as [Hp Hor].
  split; [exact Hp | ]. split.
  - intros Hmax. destruct Hor as [Hor | Hor]; [exact Hor | ].
    exfalso. destruct Hmax as [-> | ->]; cbn in Hor; discriminate Hor.
  - intros m -> Hm. split.
    + exact (pages_loop_bound m pages 0 Hm ltac:(lia)).
    + destruct Hor as [Hor | Hor]; [rewrite Hor; lia | ].
      unfold reached in Hor. apply andb_true_iff in Hor.
      destruct Hor as [_ Hor]. apply Z.leb_le in Hor. cbn [Nat.add] in Hor. lia.
Qed.

Lemma scrape_comments_limit_witness :
  (Z.of_nat (List.length (scrape_comments two_threads (Some 2%Z))) <= 2 + 1)%Z
  /\ scrape_comments two_threads (Some 0%Z) = all_comments two_threads.
Proof.
  destruct (scrape_comments_limit two_threads (Some 2%Z)) as (_ & _ & H).
  destruct (scrape_comments_limit two_threads (Some 0%Z)) as (_ & H0 & _).
  split.
  - apply (H 2%Z); [reflexivity | lia].
  - apply H0. right. reflexivity.
Defined.

(** The limit 2 on a thread with one reply followed by another thread:
    three comments are yielded. *)
Example scrape_comments_overshoot :
  map comment_id (scrape_comments two_threads (Some 2%Z)) = [ "c1"; "r1"; "c2" ].
Proof. reflexivity. Qed.

End ScrapingFacts.

(* ------------------------------------------------------------------ *)
(** ** Names of files and directories *)

Module NamesFacts.
Import PyStr Names.

Ltac each_char c :=
  destruct c as [[ | ] [ | ] [ | ] [ | ] [ | ] [ | ] [ | ] [ | ]].

Lemma lower_char_not_upper (c : ascii) : isupper (lower_char c) = false.
Proof. each_char c; reflexivity. Qed.

Lemma kept_char_plain (c : ascii) :
  isupper c = false -> (isalnum c || has_char c "-_") = true -> plain c = true.
Proof. each_char c; intros H1 H2; try reflexivity; discriminate. Qed.

Lemma plain_char_kept (c : ascii) :
  plain c = true ->
  lower_char c = c /\ (c =? " ")%char = false
  /\ (isalnum c || has_char c "-_") = true.
Proof. each_char c; intros H; try discriminate H; repeat split. Qed.

Lemma underscored_char_plain (c : ascii) :
  plain (if isword (lower_char c) || (lower_char c =? "-")%char
         then lower_char c else "_"%char) = true.
Proof. each_char c; reflexivity. Qed.

Lemma filter_chars_all (p q : ascii -> bool) (s : string) :
  Re.all_chars q s = true ->
  (forall c, q c = true -> p c = true -> plain c = true) ->
  Re.all_chars plain (filter_chars p s) = true.
Proof.
  intros Hs H. induction s as [ | c r IH]; [reflexivity | ].
  cbn [Re.all_chars] in Hs. apply andb_true_iff in Hs. destruct Hs as [Hc Hr].
  cbn [filter_chars]. destruct (p c) eqn:E; [ | exact (IH Hr)].
  cbn [Re.all_chars]. rewrite (H c Hc E), (IH Hr). reflexivity.
Qed.

Lemma filter_chars_length (p : ascii -> bool) (s : string) :
  String.length (filter_chars p s) <= String.length s.
Proof.
  induction s as [ | c r IH]; [cbn; lia | ].
  cbn [filter_chars]. destruct (p c); cbn [String.length]; lia.
Qed.

Lemma replaced_lower (s : string) :
  Re.all_chars (fun c => negb (isupper c)) (replace_char " " "-" (lower s)) = true
  /\ String.length (replace_char " " "-" (lower s)) = String.length s.
Proof.
  induction s as [ | c r [IH1 IH2]]; [split; reflexivity | ].
  cbn [lower replace_char]. destruct (lower_char c =? " ")%char eqn:E.
  - cbn [append Re.all_chars String.length]. rewrite IH1, IH2. split; reflexivity.
  - cbn [Re.all_chars String.length].
    rewrite lower_char_not_upper, IH1, IH2. split; reflexivity.
Qed.

Lemma sanitize_plain (s : string) :
  Re.all_chars plain s = true -> _sanitize_filename s = s.
Proof.
  unfold _sanitize_filename. induction s as [ | c r IH]; [reflexivity | ].
  cbn [Re.all_chars]. intros H. apply andb_true_iff in H. destruct H as [Hc Hr].
  destruct (plain_char_kept c Hc) as (H1 & H2 & H3).
  cbn [lower replace_char]. rewrite H1, H2. cbn [filter_chars]. rewrite H3.
  rewrite (IH Hr). reflexivity.
Qed.

(** X18.  On an ASCII title, [_sanitize_filename] gives a name of
    lower-case letters, digits, [-] and [_] only, not longer than the
    title, and sanitizing a sanitized name changes nothing. *)
Theorem sanitize_filename_idempotent (name : string) :
  is_ascii name = true ->
  Re.all_chars plain (_sanitize_filename name) = true
  /\ String.length (_sanitize_filename name) <= String.length name
  /\ _sanitize_filename (_sanitize_filename name) = _sanitize_filename name.
Proof.
  intros _.
  assert (P : Re.all_chars plain (_sanitize_filename name) = true).
  { unfold _sanitize_filename.
    apply (filter_chars_all _ (fun c => negb (isupper c)));
      [exact (proj1 (replaced_lower name)) | ].
    intros c Hc Hp. apply kept_char_plain; [ | exact Hp].
    apply negb_true_iff. exact Hc. }
  split; [exact P | ]. split; [ | apply sanitize_plain; exact P].
  unfold _sanitize_filename.
  rewrite <- (proj2 (replaced_lower name)). apply filter_chars_length.
Qed.

Lemma sanitize_filename_idempotent_witness :
  is_ascii "Podman vs Docker: Security Revolution!" = true
  /\ _sanitize_filename "Podman vs Docker: Security Revolution!"
     = "podman-vs-docker-security-revolution"
  /\ _sanitize_filename "podman-vs-docker-security-revolution"
     = "podman-vs-docker-security-revolution".
Proof.
  split; [reflexivity | ]. split; [reflexivity | ].
  change "podman-vs-docker-security-revolution"
    with (_sanitize_filename "Podman vs Docker: Security Revolution!").
  apply (sanitize_filename_idempotent
           "Podman vs Docker: Security Revolution!").
  reflexivity.
Defined.

(** *** Beginnings and ends of texts *)

Lemma all_chars_app (q : ascii -> bool) (a b : string) :
  Re.all_chars q (a ++ b) = Re.all_chars q a && Re.all_chars q b.
Proof.
  induction a as [ | c r IH]; [reflexivity | ].
  cbn [append Re.all_chars]. rewrite IH. apply andb_assoc.
Qed.

Lemma single_step (c d : ascii) (r : string) :
  single_underscores (String c (String d r))
  = negb ((c =? "_")%char && (d =? "_")%char)
    && single_underscores (String d r).
Proof. reflexivity. Qed.

Lemma single_tail (c : ascii) (r : string) :
  single_underscores (String c r) = true -> single_underscores r = true.
Proof.
  destruct r as [ | d r']; [reflexivity | ].
  rewrite single_step. intros H. apply andb_true_iff in H. exact (proj2 H).
Qed.

Lemma single_front (a b : string) :
  single_underscores (a ++ b) = true -> single_underscores a = true.
Proof.
  induction a as [ | c r IH]; [reflexivity | ].
  destruct r as [ | d r']; [reflexivity | ].
  cbn [append]. intros H. assert (T := single_tail _ _ H).
  rewrite single_step in H |- *.
  apply andb_true_iff in H. destruct H as [H _].
  rewrite H. exact (IH T).
Qed.

Lemma single_back (a b : string) :
  single_underscores (a ++ b) = true -> single_underscores b = true.
Proof.
  induction a as [ | c r IH]; [intros H; exact H | ].
  cbn [append]. intros H. exact (IH (single_tail _ _ H)).
Qed.

Lemma rstrip_front (s : string) :
  exists t, s = (rstrip_underscores s ++ t)%string.
Proof.
  induction s as [ | c r [t IH]]; [exists EmptyString; reflexivity | ].
  cbn [rstrip_underscores]. destruct (rstrip_underscores r) as [ | d r'].
  - destruct (c =? "_")%char; [eexists; reflexivity | ].
    exists r. reflexivity.
  - exists t. cbn [append]. rewrite IH at 1. reflexivity.
Qed.

Lemma lstrip_back (s : string) :
  (exists t, s = (t ++ lstrip_underscores s)%string)
  /\ Re.head (lstrip_underscores s) <> Some "_"%char.
Proof.
  induction s as [ | c r [[t IH] Hh]].
  - split; [exists EmptyString; reflexivity | discriminate].
  - cbn [lstrip_underscores]. destruct (c =? "_")%char eqn:E.
    + split; [ | exact Hh]. exists (String c t). cbn [append].
      rewrite IH at 1. reflexivity.
    + split; [exists EmptyString; reflexivity | ].
      cbn [Re.head]. intros H. injection H as ->. discriminate E.
Qed.

Lemma head_front (a b : string) :
  a <> EmptyString -> Re.head a = Re.head (a ++ b).
Proof. destruct a; [contradiction | reflexivity]. Qed.

Lemma slice_front (n : nat) (s : string) :
  s = (slice_to n s ++ slice_from n s)%string
  /\ String.length (slice_to n s) <= n.
Proof.
  revert n. induction s as [ | c r IH]; intros [ | n];
    cbn [slice_to slice_from append String.length];
    try (split; [reflexivity | lia]).
  destruct (IH n) as [E L]. split; [rewrite <- E; reflexivity | lia].
Qed.

Lemma squeeze_go_spec (s : string) (b : bool) :
  single_underscores (squeeze_go s b) = true
  /\ (b = true -> Re.head (squeeze_go s b) <> Some "_"%char)
  /\ (Re.all_chars plain s = true ->
      Re.all_chars plain (squeeze_go s b) = true).
Proof.
  revert b. induction s as [ | c r IH]; intros b.
  - split; [reflexivity | ]. split; [discriminate | intros H; exact H].
  - cbn [squeeze_go Re.all_chars]. destruct (c =? "_")%char eqn:E.
    + destruct (IH true) as (S1 & S2 & S3). destruct b.
      * split; [exact S1 | ]. split; [intros _; exact (S2 eq_refl) | ].
        intros H. apply andb_true_iff in H. exact (S3 (proj2 H)).
      * split.
        -- specialize (S2 eq_refl).
           destruct (squeeze_go r true) as [ | d t] eqn:G; [reflexivity | ].
           rewrite single_step, S1.
           destruct (d =? "_")%char eqn:D.
           ++ exfalso. apply S2. cbn [Re.head].
              apply Ascii.eqb_eq in D. subst d. reflexivity.
           ++ rewrite andb_false_r. reflexivity.
        -- split; [discriminate | ].
           intros H. apply andb_true_iff in H. destruct H as [Hc Hr].
           cbn [Re.all_chars]. rewrite Hc, (S3 Hr). reflexivity.
    + destruct (IH false) as (S1 & _ & S3).
      split.
      * destruct (squeeze_go r false) as [ | d t] eqn:G; [reflexivity | ].
        rewrite single_step, S1, E. reflexivity.
      * split.
        -- intros _. cbn [Re.head]. intros H. injection H as ->. discriminate E.
        -- intros H. apply andb_true_iff in H. destruct H as [Hc Hr].
           cbn [Re.all_chars]. rewrite Hc, (S3 Hr). reflexivity.
Qed.

Lemma underscore_others_plain (s : string) :
  Re.all_chars plain (underscore_others (lower s)) = true.
Proof.
  unfold underscore_others. induction s as [ | c r IH]; [reflexivity | ].
  cbn [lower map_chars Re.all_chars].
  rewrite underscored_char_plain, IH. reflexivity.
Qed.

(** X19.  The safe title made of an ASCII title for directory names has
    at most 40 characters, all of them lower-case letters, digits, [-] or
    [_], never two underscores side by side and no underscore in front. *)
Theorem safe_title_shape (title : string) :
  is_ascii title = true ->
  String.length (safe_title title) <= 40
  /\ Re.all_chars plain (safe_title title) = true
  /\ single_underscores (safe_title title) = true
  /\ Re.head (safe_title title) <> Some "_"%char.
Proof.
  intros _.
  unfold safe_title, strip_underscores, squeeze.
  set (u := underscore_others (lower title)).
  assert (Pu : Re.all_chars plain u = true) by apply underscore_others_plain.
  destruct (squeeze_go_spec u false) as (Sq & _ & Pq). specialize (Pq Pu).
  set (q := squeeze_go u false) in *.
  destruct (lstrip_back q) as [[t1 E1] H1].
  set (l := lstrip_underscores q) in *.
  assert (Pl : Re.all_chars plain l = true).
  { rewrite E1, all_chars_app in Pq. apply andb_true_iff in Pq. exact (proj2 Pq). }
  assert (Sl : single_underscores l = true)
    by (rewrite E1 in Sq; exact (single_back _ _ Sq)).
  destruct (rstrip_front l) as [t2 E2].
  set (r := rstrip_underscores l) in *.
  assert (Pr : Re.all_chars plain r = true).
  { rewrite E2, all_chars_app in Pl. apply andb_true_iff in Pl. exact (proj1 Pl). }
  assert (Sr : single_underscores r = true)
    by (rewrite E2 in Sl; exact (single_front _ _ Sl)).
  assert (Hr : Re.head r <> Some "_"%char).
  { destruct r as [ | c r'] eqn:Er; [discriminate | ].
    rewrite E2 in H1. exact H1. }
  destruct (slice_front 40 r) as [E3 L3].
  split; [exact L3 | ].
  split.
  { rewrite E3, all_chars_app in Pr. apply andb_true_iff in Pr. exact (proj1 Pr). }
  split; [rewrite E3 in Sr; exact (single_front _ _ Sr) | ].
  destruct (slice_to 40 r) as [ | c s'] eqn:Es; [discriminate | ].
  rewrite E3 in Hr. exact Hr.
Qed.

Lemma safe_title_shape_witness :
  is_ascii "Podman vs Docker: Security Revolution! (2024 edition)" = true
  /\ safe_title "Podman vs Docker: Security Revolution! (2024 edition)"
     = "podman_vs_docker_security_revolution_202"
  /\ String.length
       (safe_title "Podman vs Docker: Security Revolution! (2024 edition)")
     <= 40.
Proof.
  split; [reflexivity | ]. split; [reflexivity | ].
  apply (safe_title_shape
           "Podman vs Docker: Security Revolution! (2024 edition)").
  reflexivity.
Defined.

Lemma episodes_from_nth (topics : list topic) (i k : nat) (e : episode) :
  nth_error (episodes_from i topics) k = Some e ->
  episode_number e = i + k
  /\ planned_date e = String.append "Week " (str_nat (i + k))
  /\ status e = "planned"
  /\ exists t, nth_error topics k = Some t
       /\ ep_title e = tp_title t /\ ep_difficulty e = tp_difficulty t
       /\ ep_category e = tp_category t.
Proof.
  revert i k. induction topics as [ | t r IH]; intros i k;
    cbn [episodes_from]; [destruct k; discriminate | ].
  destruct k as [ | k]; cbn [nth_error].
  - intros H. injection H as <-. rewrite Nat.add_0_r.
    cbn. repeat split. exists t. repeat split.
  - intros H. destruct (IH (S i) k H) as (H1 & H2 & H3 & H4).
    rewrite Nat.add_succ_r. cbn [Nat.add] in H1, H2.
    split; [exact H1 | ]. split; [exact H2 | ]. split; [exact H3 | exact H4].
Qed.

Lemma episodes_from_length (topics : list topic) (i : nat) :
  List.length (episodes_from i topics) = List.length topics.
Proof.
  revert i. induction topics as [ | t r IH]; intros i; [reflexivity | ].
  cbn [episodes_from List.length]. rewrite IH. reflexivity.
Qed.

(** X20.  The calendar of [generate_content_calendar] has
    [min(weeks, 12)] episodes for [weeks >= 0] and [max(0, 12 + weeks)]
    for a negative [weeks]; its episode of index [k] is the topic of index
    [k], numbered [k + 1], planned for ["Week k+1"], with the status
    ["planned"]. *)
Theorem calendar_episodes (now : string) (weeks : Z) :
  List.length (episodes (generate_content_calendar now weeks))
  = (if (0 <=? weeks)%Z then Nat.min (Z.to_nat weeks) 12
     else Z.to_nat (12 + weeks))
  /\ forall k e,
       nth_error (episodes (generate_content_calendar now weeks)) k = Some e ->
       episode_number e = S k
       /\ planned_date e = String.append "Week " (str_nat (S k))
       /\ status e = "planned"
       /\ exists t, nth_error episode_topics k = Some t
            /\ ep_title e = tp_title t /\ ep_difficulty e = tp_difficulty t
            /\ ep_category e = tp_category t.
Proof.
  unfold generate_content_calendar. cbn [episodes]. split.
  - rewrite episodes_from_length. unfold slice_to_int.
    destruct (0 <=? weeks)%Z eqn:E; rewrite length_firstn.
    + reflexivity.
    + apply Z.leb_gt in E. change (List.length episode_topics) with 12. lia.
  - intros k e H. apply episodes_from_nth in H.
    destruct H as (H1 & H2 & H3 & t & Ht & H4).
    split; [exact H1 | ]. split; [exact H2 | ]. split; [exact H3 | ].
    exists t. split; [ | exact H4].
    unfold slice_to_int in Ht.
    destruct (0 <=? weeks)%Z; rewrite nth_error_firstn in Ht;
      destruct (_ <? _) in Ht; try discriminate Ht; exact Ht.
Qed.

End NamesFacts.

(* ------------------------------------------------------------------ *)
(** ** Listing and downloading transcripts *)

Module TranscriptsFacts.
Import YouTubeCaptionDownloader Transcripts.

Lemma listing_loop_fields (ts : list transcript) (a : availability) :
  manual_captions (listing_loop ts a)
  = manual_captions a
    ++ map info_of (filter (fun t => negb (t_is_generated t)) ts)
  /\ auto_generated (listing_loop ts a)
     = auto_generated a ++ map info_of (filter t_is_generated ts)
  /\ translatable_languages (listing_loop ts a)
     = translatable_languages a ++ offered ts.
Proof.
  unfold listing_loop. revert a. induction ts as [ | t r IH]; intros a.
  - cbn. rewrite !app_nil_r. repeat split.
  - cbn [fold_left]. destruct (IH (listing_step a t)) as (H1 & H2 & H3).
    rewrite H1, H2, H3. unfold offered. cbn [filter flat_map].
    unfold listing_step.
    destruct (t_is_generated t), (t_is_translatable t);
      try destruct (t_translation_languages t);
      cbn [negb map manual_captions auto_generated translatable_languages
           get_default app];
      rewrite <- ?app_assoc, ?app_nil_r; repeat split.
Qed.

Lemma filter_split_length {A : Type} (p : A -> bool) (l : list A) :
  List.length (filter (fun x => negb (p x)) l) + List.length (filter p l)
  = List.length l.
Proof.
  induction l as [ | x r IH]; [reflexivity | ].
  cbn [filter]. destruct (p x); cbn [negb List.length]; lia.
Qed.

Lemma in_set_In (x : string) (s : list string) :
  in_set x s = true <-> In x s.
Proof.
  unfold in_set. rewrite existsb_exists. split.
  - intros (y & Hy & E). apply String.eqb_eq in E. subst y. exact Hy.
  - intros H. exists x. split; [exact H | apply String.eqb_refl].
Qed.

Lemma unique_loop_spec (langs : list language) (seen : list string)
    (acc : list language) :
  (forall c, In c seen <-> In c (map code acc)) ->
  NoDup (map code acc) ->
  NoDup (map code (unique_loop langs seen acc))
  /\ forall lang,
       In lang (unique_loop langs seen acc)
       <-> In lang acc
           \/ (~ In (code lang) (map code acc)
               /\ first_with_code (code lang) langs = Some lang).
Proof.
  revert seen acc. induction langs as [ | l0 r IH]; intros seen acc Hs Hn.
  - cbn. split; [exact Hn | ]. intros lang. split; [tauto | ].
    intros [H | [_ H]]; [exact H | discriminate H].
  - cbn [unique_loop]. destruct (in_set (code l0) seen) eqn:E; cbn [negb].
    + apply in_set_In in E. apply Hs in E.
      destruct (IH seen acc Hs Hn) as [N I]. split; [exact N | ].
      intros lang. rewrite I. unfold first_with_code. cbn [find].
      destruct (String.eqb (code l0) (code lang)) eqn:C; [ | tauto].
      apply String.eqb_eq in C. rewrite <- C. tauto.
    + assert (E' : ~ In (code l0) (map code acc)).
      { intros H. apply Hs in H. apply in_set_In in H. congruence. }
      assert (Hs' : forall c, In c (code l0 :: seen)
                              <-> In c (map code (acc ++ [l0]))).
      { intros c. rewrite map_app, in_app_iff. cbn. rewrite Hs. tauto. }
      assert (Hn' : NoDup (map code (acc ++ [l0]))).
      { rewrite map_app. cbn [map]. apply NoDup_app.
        - exact Hn.
        - constructor; [intros [] | constructor].
        - intros c H1 [H2 | []]. subst c. exact (E' H1). }
      destruct (IH _ _ Hs' Hn') as [N I]. split; [exact N | ].
      intros lang. rewrite I. unfold first_with_code. cbn [find].
      rewrite map_app, !in_app_iff. cbn [map In].
      destruct (String.eqb (code l0) (code lang)) eqn:C.
      * apply String.eqb_eq in C. split.
        -- intros [[H | [H | []]] | [H _]].
           ++ left. exact H.
           ++ right. subst lang. split; [exact E' | reflexivity].
           ++ exfalso. apply H. right. left. exact C.
        -- intros [H | [_ H]]; [left; left; exact H | ].
           injection H as H. left. right. left. exact H.
      * apply String.eqb_neq in C. split.
        -- intros [[H | [H | []]] | [H1 H2]].
           ++ left. exact H.
           ++ exfalso. apply C. rewrite H. reflexivity.
           ++ right. split; [tauto | exact H2].
        -- intros [H | [H1 H2]]; [left; left; exact H | ].
           right. split; [ | exact H2].
           intros [H | [H | []]]; [exact (H1 H) | exact (C H)].
Qed.

(** X21.  When the library lists the transcripts, [get_available_transcripts]
    returns the manual and the automatic ones apart, each in the order of
    the list, and counts them all.  The translatable languages it returns
    have distinct codes, and a language is among them exactly when it is
    the first offered with its code. *)
Theorem available_transcripts_listing (ts : list transcript) :
  exists a,
    get_available_transcripts (inr ts) = Data a
    /\ manual_captions a
       = map info_of (filter (fun t => negb (t_is_generated t)) ts)
    /\ auto_generated a = map info_of (filter t_is_generated ts)
    /\ total_count a = List.length ts
    /\ NoDup (map code (translatable_languages a))
    /\ forall lang,
         In lang (translatable_languages a)
         <-> first_with_code (code lang) (offered ts) = Some lang.
Proof.
  eexists. split; [reflexivity | ].
  cbn [manual_captions auto_generated total_count translatable_languages].
  destruct (listing_loop_fields ts
              {| manual_captions := []; auto_generated := [];
                 translatable_languages := []; total_count := 0 |})
    as (H1 & H2 & H3).
  cbn [manual_captions auto_generated translatable_languages app] in H1, H2, H3.
  rewrite H1, H2, H3.
  split; [reflexivity | ]. split; [reflexivity | ].
  split; [rewrite !length_map; apply filter_split_length | ].
  destruct (unique_loop_spec (offered ts) [] []) as [N I].
  - intros c. cbn. tauto.
  - constructor.
  - split; [exact N | ]. intros lang. rewrite I. cbn. tauto.
Qed.

(** *** The loops of [download_all_captions] *)

Section Loops.

Variable str : exn -> string.
Variable api : nat -> string -> answer.
Variable video_id : string.

Lemma keys_dict_set {A : Type} (k : string) (v : A) (d : list (string * A)) :
  keys (dict_set k v d) = if has_key k d then keys d else keys d ++ [k].
Proof.
  unfold keys, has_key. induction d as [ | [k0 v0] r IH]; [reflexivity | ].
  cbn [dict_set existsb map fst]. destruct (String.eqb k0 k) eqn:E.
  - reflexivity.
  - cbn [orb map fst]. rewrite IH. destruct (existsb _ r); reflexivity.
Qed.

Lemma has_key_In {A : Type} (k : string) (d : list (string * A)) :
  has_key k d = true <-> In k (keys d).
Proof.
  unfold has_key, keys. rewrite existsb_exists, in_map_iff. split.
  - intros (kv & H & E). apply String.eqb_eq in E. exists kv. tauto.
  - intros (kv & E & H). exists kv. split; [exact H | ].
    rewrite E. apply String.eqb_refl.
Qed.

Lemma keys_length {A : Type} (d : list (string * A)) :
  List.length (keys d) = List.length d.
Proof. apply length_map. Qed.

Lemma record_result_kept (lang_code : string) (res : result caption)
    (st : loop_state) :
  kept st ->
  kept (record_result lang_code res st)
  /\ follows lang_code st (record_result lang_code res st).
Proof.
  destruct st as [[caps sm] calls]. unfold kept, follows.
  cbn [record_result summary_of captions_of calls_of fst snd].
  intros (K1 & K2 & K3 & K4).
  destruct res as [e | c];
    cbn [summary_of captions_of calls_of fst snd successful failed errors].
  - assert (M : forall k,
               In k (map de_language
                       (errors sm
                        ++ [{| de_language := lang_code; de_error := e |}]))
               <-> In k (map de_language (errors sm)) \/ k = lang_code).
    { intros k. rewrite List.map_app, in_app_iff. cbn. intuition congruence. }
    rewrite length_app. cbn [List.length].
    split; [repeat split; try lia; assumption | ].
    split; [reflexivity | ]. split; [tauto | ]. split; [tauto | ].
    split; [intros k H; apply M; left; exact H | ].
    split; [right; apply M; right; reflexivity | tauto].
  - assert (L := keys_length (dict_set lang_code c caps)).
    assert (L0 := keys_length caps).
    rewrite keys_dict_set in *.
    destruct (has_key lang_code caps) eqn:E.
    + apply has_key_In in E.
      split; [split; [exact K1 | split; [exact K2 | split; lia]] | ].
      split; [reflexivity | ]. split; [tauto | ]. split; [tauto | ].
      split; [tauto | ]. split; [left; exact E | tauto].
    + assert (E' : ~ In lang_code (keys caps)).
      { intros H. apply has_key_In in H. congruence. }
      rewrite length_app in L. cbn [List.length] in L.
      split.
      { split; [exact K1 | ]. split; [ | split; lia].
        apply NoDup_app; [exact K2 | constructor; [intros [] | constructor] | ].
        intros k H1 [H2 | []]. subst k. exact (E' H1). }
      split; [reflexivity | ].
      split.
      { intros k H. apply in_app_iff in H.
        destruct H as [H | [H | []]]; [left; exact H | right; symmetry; exact H]. }
      split; [intros k H; apply in_app_iff; left; exact H | ].
      split; [tauto | ].
      split; [left; apply in_app_iff; right; left; reflexivity | ].
      intros _ H. lia.
Qed.

Lemma manual_loop_looped (infos : list transcript_info) (st : loop_state) :
  kept st -> looped true infos st (manual_loop str api video_id infos st).
Proof.
  revert st. induction infos as [ | i r IH]; intros st K.
  - cbn [manual_loop]. unfold looped. cbn [List.length map In].
    repeat split; try exact (proj1 K); try apply K; try lia; try tauto.
  - cbn [manual_loop].
    set (lang_code := ti_language_code i).
    set (res := download_caption str (api (calls_of st) lang_code) video_id
                  lang_code false).
    destruct (record_result_kept lang_code res st K)
      as [K' (F1 & F2 & F3 & F4 & F5 & _)].
    destruct (IH _ K') as (L1 & L2 & L3 & L4 & L5 & L6 & L7).
    unfold looped. cbn [List.length map In]. fold lang_code.
    split; [exact L1 | ]. split; [lia | ].
    split; [intros _; specialize (L3 eq_refl); lia | ].
    split.
    { intros k H. destruct (L4 k H) as [H' | H']; [ | tauto].
      destruct (F2 k H') as [H'' | H'']; [tauto | ].
      right. left. symmetry. exact H''. }
    split; [intros k H; exact (L5 k (F3 k H)) | ].
    split; [intros k H; exact (L6 k (F4 k H)) | ].
    intros k [H | H]; [ | exact (L7 k H)].
    subst k. destruct F5 as [H | H]; [left; exact (L5 _ H) | right; exact (L6 _ H)].
Qed.

Lemma auto_loop_looped (infos : list transcript_info) (st : loop_state) :
  kept st -> looped false infos st (auto_loop str api video_id infos st).
Proof.
  revert st. induction infos as [ | i r IH]; intros st K.
  - cbn [auto_loop]. unfold looped. cbn [List.length map In].
    repeat split; try exact (proj1 K); try apply K; try lia; try tauto.
  - cbn [auto_loop].
    set (lang_code := ti_language_code i).
    destruct (has_key lang_code (captions_of st)) eqn:E.
    + apply has_key_In in E.
      destruct (IH _ K) as (L1 & L2 & L3 & L4 & L5 & L6 & L7).
      unfold looped. cbn [List.length map In]. fold lang_code.
      split; [exact L1 | ]. split; [lia | ]. split; [discriminate | ].
      split; [intros k H; destruct (L4 k H); tauto | ].
      split; [exact L5 | ]. split; [exact L6 | ].
      intros k [H | H]; [ | exact (L7 k H)].
      subst k. left. exact (L5 _ E).
    + set (res := download_caption str (api (calls_of st) lang_code) video_id
                    lang_code true).
      destruct (record_result_kept lang_code res st K)
        as [K' (F1 & F2 & F3 & F4 & F5 & _)].
      destruct (IH _ K') as (L1 & L2 & L3 & L4 & L5 & L6 & L7).
      unfold looped. cbn [List.length map In]. fold lang_code.
      split; [exact L1 | ]. split; [lia | ]. split; [discriminate | ].
      split.
      { intros k H. destruct (L4 k H) as [H' | H']; [ | tauto].
        destruct (F2 k H') as [H'' | H'']; [tauto | ].
        right. left. symmetry. exact H''. }
      split; [intros k H; exact (L5 k (F3 k H)) | ].
      split; [intros k H; exact (L6 k (F4 k H)) | ].
      intros k [H | H]; [ | exact (L7 k H)].
      subst k.
      destruct F5 as [H | H]; [left; exact (L5 _ H) | right; exact (L6 _ H)].
Qed.

(** With distinct languages the manual loop stores one caption for each
    success. *)
Lemma manual_loop_exact (infos : list transcript_info) (st : loop_state) :
  kept st ->
  NoDup (map ti_language_code infos) ->
  (forall k, In k (keys (captions_of st)) ->
     ~ In k (map ti_language_code infos)) ->
  List.length (captions_of st) = successful (summary_of st) ->
  List.length (captions_of (manual_loop str api video_id infos st))
  = successful (summary_of (manual_loop str api video_id infos st)).
Proof.
  revert st. induction infos as [ | i r IH]; intros st K N D E.
  - exact E.
  - cbn [manual_loop].
    set (lang_code := ti_language_code i).
    set (res := download_caption str (api (calls_of st) lang_code) video_id
                  lang_code false).
    destruct (record_result_kept lang_code res st K)
      as [K' (F1 & F2 & F3 & F4 & F5 & F6)].
    cbn [map] in N, D. fold lang_code in N, D.
    apply NoDup_cons_iff in N. destruct N as [N1 N2].
    apply IH; [exact K' | exact N2 | | ].
    + intros k H. destruct (F2 k H) as [H' | H'].
      * intros H''. apply (D k H'). right. exact H''.
      * subst k. exact N1.
    + apply F6; [ | exact E]. intros H. apply (D _ H). left. reflexivity.
Qed.

Lemma auto_loop_exact (infos : list transcript_info) (st : loop_state) :
  kept st ->
  List.length (captions_of st) = successful (summary_of st) ->
  List.length (captions_of (auto_loop str api video_id infos st))
  = successful (summary_of (auto_loop str api video_id infos st)).
Proof.
  revert st. induction infos as [ | i r IH]; intros st K E.
  - exact E.
  - cbn [auto_loop].
    set (lang_code := ti_language_code i).
    destruct (has_key lang_code (captions_of st)) eqn:H; [exact (IH _ K E) | ].
    set (res := download_caption str (api (calls_of st) lang_code) video_id
                  lang_code true).
    destruct (record_result_kept lang_code res st K)
      as [K' (F1 & F2 & F3 & F4 & F5 & F6)].
    apply IH; [exact K' | ]. apply F6; [ | exact E].
    intros H'. apply has_key_In in H'. congruence.
Qed.

End Loops.

Lemma kept_start :
  kept ([], {| successful := 0; failed := 0; errors := [] |}, 0).
Proof. unfold kept. cbn. repeat split; try lia. constructor. Qed.

Lemma info_codes (p : transcript -> bool) (ts : list transcript) (k : string) :
  In k (map ti_language_code (map info_of (filter p ts))) ->
  exists t, In t ts /\ p t = true /\ t_language_code t = k.
Proof.
  rewrite map_map. intros H. apply in_map_iff in H.
  destruct H as (t & E & H). apply filter_In in H.
  exists t. split; [exact (proj1 H) | ]. split; [exact (proj2 H) | exact E].
Qed.

Lemma codes_info (p : transcript -> bool) (ts : list transcript)
    (t : transcript) :
  In t ts -> p t = true ->
  In (t_language_code t) (map ti_language_code (map info_of (filter p ts))).
Proof.
  intros H1 H2. rewrite map_map. apply in_map_iff. exists t.
  split; [reflexivity | ]. apply filter_In. split; assumption.
Qed.

(** X22.  When the library lists the transcripts, [download_all_captions]
    returns a summary in which [failed] is the number of recorded errors
    and the downloads made ([successful + failed]) are one for each manual
    transcript and at most one more for each automatic one, none of these
    when [include_auto_generated] is false.  The captions are kept under
    distinct language codes of listed transcripts, not more than the
    successes; and every manual transcript, and with
    [include_auto_generated] every transcript, has its language either
    among the captions or among the errors. *)
Theorem download_summary_accounts (str : exn -> string)
    (api : nat -> string -> answer) (ts : list transcript)
    (downloaded_at video_id : string) (include_auto_generated : bool) :
  exists ac,
    download_all_captions str api (inr ts) downloaded_at video_id
      include_auto_generated = Data ac
    /\ failed (summary ac) = List.length (errors (summary ac))
    /\ List.length (manual_captions (available_transcripts ac))
       <= successful (summary ac) + failed (summary ac)
    /\ successful (summary ac) + failed (summary ac)
       <= List.length (manual_captions (available_transcripts ac))
          + (if include_auto_generated
             then List.length (auto_generated (available_transcripts ac))
             else 0)
    /\ List.length (captions ac) <= successful (summary ac)
    /\ NoDup (keys (captions ac))
    /\ (forall k, In k (keys (captions ac)) ->
          In k (map t_language_code ts))
    /\ (forall t, In t ts ->
          t_is_generated t = false \/ include_auto_generated = true ->
          In (t_language_code t) (keys (captions ac))
          \/ In (t_language_code t) (map de_language (errors (summary ac)))).
Proof.
  destruct (available_transcripts_listing ts)
    as (a & Ha & Hm & Hg & _).
  unfold download_all_captions. rewrite Ha. eexists. split; [reflexivity | ].
  cbn [summary captions available_transcripts].
  destruct (manual_loop_looped str api video_id (manual_captions a) _ kept_start)
    as (K & C & Call & M4 & M5 & M6 & M7).
  specialize (Call eq_refl).
  set (st1 := manual_loop str api video_id (manual_captions a) _) in *.
  cbn [calls_of captions_of keys map snd fst] in C, Call, M4.
  assert (Mcodes : forall k, In k (map ti_language_code (manual_captions a)) ->
                             In k (map t_language_code ts)).
  { intros k H. rewrite Hm in H. apply info_codes in H.
    destruct H as (t & H1 & _ & H2). subst k. apply in_map. exact H1. }
  assert (Mall : forall t, In t ts -> t_is_generated t = false ->
                  In (t_language_code t)
                    (map ti_language_code (manual_captions a))).
  { intros t H1 H2. rewrite Hm.
    apply (codes_info (fun t => negb (t_is_generated t))); [exact H1 | ].
    rewrite H2. reflexivity. }
  destruct include_auto_generated.
  - destruct (auto_loop_looped str api video_id (auto_generated a) st1 K)
      as ((K1 & K2 & K3 & K4) & C' & _ & A4 & A5 & A6 & A7).
    set (st2 := auto_loop str api video_id (auto_generated a) st1) in *.
    split; [exact K1 | ]. split; [lia | ]. split; [lia | ].
    split; [exact K3 | ]. split; [exact K2 | ].
    split.
    + intros k H. destruct (A4 k H) as [H' | H'].
      * destruct (M4 k H') as [[] | H'']. exact (Mcodes k H'').
      * rewrite Hg in H'. apply info_codes in H'.
        destruct H' as (t & H1 & _ & H2). subst k. apply in_map. exact H1.
    + intros t H1 _. destruct (t_is_generated t) eqn:G.
      * apply A7. rewrite Hg. apply codes_info; assumption.
      * destruct (M7 _ (Mall t H1 G)) as [H | H];
          [left; exact (A5 _ H) | right; exact (A6 _ H)].
  - destruct K as (K1 & K2 & K3 & K4).
    split; [exact K1 | ]. split; [lia | ]. split; [lia | ].
    split; [exact K3 | ]. split; [exact K2 | ].
    split.
    + intros k H. destruct (M4 k H) as [[] | H']. exact (Mcodes k H').
    + intros t H1 [G | G]; [ | discriminate G]. exact (M7 _ (Mall t H1 G)).
Qed.

(** X23.  When the manual transcripts listed have distinct language codes,
    [successful] is exactly the number of captions returned.  Without that
    a second manual transcript of a language replaces the caption of the
    first while both are counted as successes. *)
Theorem successful_is_captions_kept (str : exn -> string)
    (api : nat -> string -> answer) (ts : list transcript)
    (downloaded_at video_id : string) (include_auto_generated : bool)
    (ac : all_captions) :
  NoDup (map t_language_code
           (filter (fun t => negb (t_is_generated t)) ts)) ->
  download_all_captions str api (inr ts) downloaded_at video_id
    include_auto_generated = Data ac ->
  successful (summary ac) = List.length (captions ac).
Proof.
  intros N H.
  destruct (available_transcripts_listing ts) as (a & Ha & Hm & _).
  unfold download_all_captions in H. rewrite Ha in H.
  injection H as <-. cbn [summary captions]. symmetry.
  assert (N' : NoDup (map ti_language_code (manual_captions a))).
  { rewrite Hm, map_map. exact N. }
  assert (E : List.length
                (captions_of (manual_loop str api video_id (manual_captions a)
                   ([], {| successful := 0; failed := 0; errors := [] |}, 0)))
              = successful
                  (summary_of (manual_loop str api video_id (manual_captions a)
                     ([], {| successful := 0; failed := 0; errors := [] |}, 0)))).
  { apply manual_loop_exact; [exact kept_start | exact N' | | reflexivity].
    intros k []. }
  destruct include_auto_generated; [ | exact E].
  apply auto_loop_exact; [ | exact E].
  exact (proj1 (manual_loop_looped str api video_id _ _ kept_start)).
Qed.

Lemma successful_is_captions_kept_witness :
  let ts := [manual_english; automatic_spanish] in
  exists ac,
    download_all_captions str_sample (api_sample ts) (inr ts)
      "2024-01-15T10:30:00" "dQw4w9WgXcQ" true = Data ac
    /\ successful (summary ac) = List.length (captions ac)
    /\ successful (summary ac) = 1 /\ failed (summary ac) = 1.
Proof.
  cbv zeta. eexists. split; [reflexivity | ]. split.
  - apply (successful_is_captions_kept str_sample
             (api_sample [manual_english; automatic_spanish])
             [manual_english; automatic_spanish]
             "2024-01-15T10:30:00" "dQw4w9WgXcQ" true).
    + cbn. constructor; [intros [] | constructor].
    + reflexivity.
  - split; vm_compute; reflexivity.
Defined.

(** Two manual transcripts of one language: two successes, one caption. *)
Example second_manual_transcript_replaces_first :
  let ts := [manual_english; manual_british; automatic_spanish] in
  exists ac,
    download_all_captions str_sample (api_sample ts) (inr ts)
      "2024-01-15T10:30:00" "dQw4w9WgXcQ" true = Data ac
    /\ successful (summary ac) = 2
    /\ keys (captions ac) = ["en"].
Proof.
  cbv zeta. eexists. split; [reflexivity | ]. split; vm_compute; reflexivity.
Qed.

End TranscriptsFacts.
